(** * badfish: boot-order reconciliation, job lifecycle and power cycling

    A shallow embedding of [src/badfish.py] (class [Badfish] and [main]) and
    the properties of its boot-order reconciler, job poller, job-queue
    cleaner and power-cycle loop.

    The program talks to a management controller through the [requests]
    library, sleeps, logs and leaves through [sys.exit] or an uncaught
    exception.  Those effects are threaded through a small monad [M]: the
    state is the list of responses the controller will still give to each
    of [requests.get], [requests.post], [requests.patch] and
    [requests.delete] (the way a test mocks them with a [side_effect]
    list), the output is the chronological list of requests, sleeps and log
    lines, and a computation ends by returning, by [sys.exit], by an
    uncaught exception, or blocked on a request that is never answered. *)

From Stdlib Require Import ZArith List String Ascii Bool Lia Arith.
From Stdlib Require Import DecimalString Permutation Sorting.Sorted.
Import ListNotations.

Set Warnings "-register-all".

Local Open Scope string_scope.
Local Open Scope list_scope.
Local Open Scope Z_scope.

(* ================================================================== *)
(** ** Python built-ins used by the program *)
(* ================================================================== *)

Module Py.

(** ["...%s..." % (a, b)]: the pieces of a formatted string, in order. *)
Definition fmt (parts : list string) : string := String.concat EmptyString parts.

(** [str(n)] for an integer. *)
Definition str_of_int (n : Z) : string := NilZero.string_of_int (Z.to_int n).

(** [s.split(sep)] for a one-character separator: never empty. *)
Fixpoint split (sep : ascii) (s : string) : list string :=
  match s with
  | EmptyString => [EmptyString]
  | String c rest =>
      if Ascii.eqb c sep then EmptyString :: split sep rest
      else match split sep rest with
           | w :: ws => String c w :: ws
           | [] => [String c EmptyString]
           end
  end.

Definition rev_string (s : string) : string :=
  string_of_list_ascii (rev (list_ascii_of_string s)).

Fixpoint lstrip (c : ascii) (s : string) : string :=
  match s with
  | EmptyString => EmptyString
  | String a rest => if Ascii.eqb a c then lstrip c rest else s
  end.

(** [s.strip(c)] for a one-character set. *)
Definition strip (c : ascii) (s : string) : string :=
  rev_string (lstrip c (rev_string (lstrip c s))).

(** [re.sub] of the class of the comma and the single quote by nothing. *)
Fixpoint drop_commas_quotes (s : string) : string :=
  match s with
  | EmptyString => EmptyString
  | String a rest =>
      if Ascii.eqb a "," || Ascii.eqb a "'" then drop_commas_quotes rest
      else String a (drop_commas_quotes rest)
  end.

(** [l[i]] on a list: negative indices count from the end, anything out
    of range is an [IndexError] (here [None]). *)
Definition list_item {A : Type} (l : list A) (i : Z) : option A :=
  let n := Z.of_nat (List.length l) in
  if (0 <=? i) && (i <? n) then nth_error l (Z.to_nat i)
  else if (- n <=? i) && (i <? 0) then nth_error l (Z.to_nat (i + n))
  else None.

(** [l[-1]]. *)
Definition last_item (l : list string) : string := last l EmptyString.

(** *** The two regular expressions of the program

    ["JID_.+?,"] and ["JID_.+?'"]: the literal [JID_], one character
    that is not a newline, then as few such characters as possible up to
    the closing character [stop]. *)

Definition newline : ascii := "010"%char.

(** Shortest run of non-newline characters closed by [stop], inclusive. *)
Fixpoint lazy_until (stop : ascii) (s : string) : option string :=
  match s with
  | EmptyString => None
  | String c rest =>
      if Ascii.eqb c stop then Some (String c EmptyString)
      else if Ascii.eqb c newline then None
      else option_map (String c) (lazy_until stop rest)
  end.

(** The match that starts at the first character of [s], if any. *)
Definition match_JID_here (stop : ascii) (s : string) : option string :=
  match s with
  | String "J" (String "I" (String "D" (String "_" (String c rest)))) =>
      if Ascii.eqb c newline then None
      else option_map (fun m => String "J" (String "I" (String "D" (String "_" (String c m)))))
                      (lazy_until stop rest)
  | _ => None
  end.

(** [re.search(pattern, s)]: the leftmost match, [None] without one. *)
Fixpoint re_search_JID (stop : ascii) (s : string) : option string :=
  match match_JID_here stop s with
  | Some m => Some m
  | None => match s with
            | EmptyString => None
            | String _ rest => re_search_JID stop rest
            end
  end.

(** [re.findall(pattern, s)]: the matches from left to right, the scan
    resuming after the end of each ([skip] characters are still inside the
    last match). *)
Fixpoint re_findall_JID_from (skip : nat) (stop : ascii) (s : string) : list string :=
  match s with
  | EmptyString => []
  | String _ rest =>
      match skip with
      | S k => re_findall_JID_from k stop rest
      | O => match match_JID_here stop s with
             | Some m => m :: re_findall_JID_from (String.length m - 1) stop rest
             | None => re_findall_JID_from 0 stop rest
             end
      end
  end.

Definition re_findall_JID (stop : ascii) (s : string) : list string :=
  re_findall_JID_from 0 stop s.

End Py.

(* ================================================================== *)
(** ** JSON documents as [json.loads] returns them *)
(* ================================================================== *)

(** Dictionaries keep the order of their keys.  Numbers are integers: a
    document with a fractional number has no counterpart here. *)
Inductive Json : Type :=
| JNull
| JBool (b : bool)
| JNum (n : Z)
| JStr (s : string)
| JArr (items : list Json)
| JObj (members : list (string * Json)).

Module Repr.

Definition hex_digit (n : N) : ascii :=
  match n with
  | 0%N => "0" | 1%N => "1" | 2%N => "2" | 3%N => "3" | 4%N => "4"
  | 5%N => "5" | 6%N => "6" | 7%N => "7" | 8%N => "8" | 9%N => "9"
  | 10%N => "a" | 11%N => "b" | 12%N => "c" | 13%N => "d" | 14%N => "e"
  | _ => "f"
  end%char.

Fixpoint contains (c : ascii) (s : string) : bool :=
  match s with
  | EmptyString => false
  | String a rest => Ascii.eqb a c || contains c rest
  end.

(** The body of [repr(s)] between quotes [q]. *)
Fixpoint escape (q : ascii) (s : string) : string :=
  match s with
  | EmptyString => EmptyString
  | String a rest =>
      let n := N_of_ascii a in
      let tail := escape q rest in
      if Ascii.eqb a "\" then String "\" (String "\" tail)
      else if Ascii.eqb a q then String "\" (String q tail)
      else if Ascii.eqb a "010" then String "\" (String "n" tail)
      else if Ascii.eqb a "013" then String "\" (String "r" tail)
      else if Ascii.eqb a "009" then String "\" (String "t" tail)
      else if (n <? 32)%N || (n =? 127)%N then
        String "\" (String "x" (String (hex_digit (n / 16)) (String (hex_digit (n mod 16)) tail)))
      else String a tail
  end%char.

(** [repr(s)] of a string: single quotes unless the string holds a single
    quote and no double quote. *)
Definition repr_str (s : string) : string :=
  let q := if contains "'" s && negb (contains "034" s) then "034"%char else "'"%char in
  String q (escape q s ++ String q EmptyString)%string.

(** [repr(j)] ([str] of anything but a string) of a parsed document.
    Numbers are integers: the program reads no fractional member. *)
Fixpoint repr (j : Json) : string :=
  match j with
  | JNull => "None"
  | JBool true => "True"
  | JBool false => "False"
  | JNum n => Py.str_of_int n
  | JStr s => repr_str s
  | JArr items => Py.fmt ["["; String.concat ", " (map repr items); "]"]
  | JObj members =>
      Py.fmt ["{";
              String.concat ", "
                (map (fun kv => let '(k, v) := kv in Py.fmt [repr_str k; ": "; repr v]) members);
              "}"]
  end.

(** ["%s" % j] and ["{0}".format(j)]: a string prints as itself. *)
Definition str (j : Json) : string :=
  match j with
  | JStr s => s
  | _ => repr j
  end.

End Repr.

(* ================================================================== *)
(** ** The controller, the log and the ways a run ends *)
(* ================================================================== *)

(** What the program reads of a [requests.Response]: [status_code],
    [json()] ([None] when the body is not JSON, which raises [ValueError])
    and the text of [str(_response.__dict__)]. *)
Record Response : Type := mkResponse {
  status_code : Z;
  json : option Json;
  dict_str : string
}.

(** A request: its URL and, for a write, the payload given to [json.dumps].
    Every request carries the same credentials and [verify=False]. *)
Inductive Request : Type :=
| Get (url : string)
| Post (url : string) (payload : Json)
| Patch (url : string) (payload : Json)
| Delete (url : string).

Inductive Level : Type := INFO | WARNING | ERROR.

Inductive Event : Type :=
| Http (rq : Request) (rs : Response)
| Sleep (seconds : Z)
| Log (lvl : Level) (msg : string).

Inductive Exn : Type :=
| ValueError | KeyError | TypeError | AttributeError | IndexError
| IOError | ArgumentTypeError.

(** How a computation ends: it returns, calls [sys.exit(code)], dies of an
    uncaught exception, waits for ever for a response, or (only for the
    [while True] loop of the model) runs out of fuel. *)
Inductive Outcome (A : Type) : Type :=
| Return (a : A)
| Exit (code : Z)
| Raise (e : Exn)
| Blocked
| OutOfFuel.

Arguments Return {A} a.
Arguments Exit {A} code.
Arguments Raise {A} e.
Arguments Blocked {A}.
Arguments OutOfFuel {A}.

(** The responses still to come, per [requests] function. *)
Record Mock : Type := mkMock {
  on_get : list Response;
  on_post : list Response;
  on_patch : list Response;
  on_delete : list Response
}.

Definition M (A : Type) : Type := Mock -> Outcome A * Mock * list Event.

Definition ret {A : Type} (a : A) : M A := fun m => (Return a, m, []).

Definition bind {A B : Type} (c : M A) (k : A -> M B) : M B :=
  fun m =>
    match c m with
    | (Return a, m1, t1) => let '(o, m2, t2) := k a m1 in (o, m2, t1 ++ t2)
    | (Exit code, m1, t1) => (Exit code, m1, t1)
    | (Raise e, m1, t1) => (Raise e, m1, t1)
    | (Blocked, m1, t1) => (Blocked, m1, t1)
    | (OutOfFuel, m1, t1) => (OutOfFuel, m1, t1)
    end.

Declare Scope py_scope.
Delimit Scope py_scope with py.
Notation "x <- c ;; k" := (bind c (fun x => k))
  (at level 61, c at next level, right associativity) : py_scope.
Notation "c ;; k" := (bind c (fun _ => k))
  (at level 61, right associativity) : py_scope.
Local Open Scope py_scope.

Definition sys_exit {A : Type} (code : Z) : M A := fun m => (Exit code, m, []).
Definition raise {A : Type} (e : Exn) : M A := fun m => (Raise e, m, []).
Definition out_of_fuel {A : Type} : M A := fun m => (OutOfFuel, m, []).
Definition log (lvl : Level) (msg : string) : M unit := fun m => (Return tt, m, [Log lvl msg]).
Definition time_sleep (seconds : Z) : M unit := fun m => (Return tt, m, [Sleep seconds]).

(** [try: c  except ValueError: handler]. *)
Definition try_except_ValueError {A : Type} (c : M A) (handler : M A) : M A :=
  fun m =>
    match c m with
    | (Raise ValueError, m1, t1) => let '(o, m2, t2) := handler m1 in (o, m2, t1 ++ t2)
    | r => r
    end.

Definition requests_get (url : string) : M Response :=
  fun m =>
    match on_get m with
    | [] => (Blocked, m, [])
    | r :: rest =>
        (Return r, mkMock rest (on_post m) (on_patch m) (on_delete m), [Http (Get url) r])
    end.

Definition requests_post (url : string) (payload : Json) : M Response :=
  fun m =>
    match on_post m with
    | [] => (Blocked, m, [])
    | r :: rest =>
        (Return r, mkMock (on_get m) rest (on_patch m) (on_delete m), [Http (Post url payload) r])
    end.

Definition requests_patch (url : string) (payload : Json) : M Response :=
  fun m =>
    match on_patch m with
    | [] => (Blocked, m, [])
    | r :: rest =>
        (Return r, mkMock (on_get m) (on_post m) rest (on_delete m), [Http (Patch url payload) r])
    end.

Definition requests_delete (url : string) : M Response :=
  fun m =>
    match on_delete m with
    | [] => (Blocked, m, [])
    | r :: rest =>
        (Return r, mkMock (on_get m) (on_post m) (on_patch m) rest, [Http (Delete url) r])
    end.

(** [_response.json()]. *)
Definition response_json (r : Response) : M Json :=
  match json r with
  | Some j => ret j
  | None => raise ValueError
  end.

Fixpoint assoc {A : Type} (k : string) (kvs : list (string * A)) : option A :=
  match kvs with
  | [] => None
  | (k', v) :: rest => if String.eqb k k' then Some v else assoc k rest
  end.

(** [d[k]] with a string key: [KeyError] on a dictionary without the key,
    [TypeError] on anything that is not a dictionary. *)
Definition getitem (d : Json) (k : string) : M Json :=
  match d with
  | JObj members =>
      match assoc k members with
      | Some v => ret v
      | None => raise KeyError
      end
  | _ => raise TypeError
  end.

(** [j == "literal"]. *)
Definition eq_str (j : Json) (s : string) : bool :=
  match j with
  | JStr t => String.eqb t s
  | _ => false
  end.

(** Projections of a run. *)
Definition outcome {A : Type} (r : Outcome A * Mock * list Event) : Outcome A := fst (fst r).
Definition events {A : Type} (r : Outcome A * Mock * list Event) : list Event := snd r.

Definition requests_of (t : list Event) : list Request :=
  flat_map (fun e => match e with Http rq _ => [rq] | _ => [] end) t.

Definition logs_of (t : list Event) : list (Level * string) :=
  flat_map (fun e => match e with Log l s => [(l, s)] | _ => [] end) t.

Definition sleeps_of (t : list Event) : list Z :=
  flat_map (fun e => match e with Sleep n => [n] | _ => [] end) t.

(** The process exit status: [sys.exit(code)], [1] after an uncaught
    exception, none while the process has not ended. *)
Definition exit_status {A : Type} (o : Outcome A) : option Z :=
  match o with
  | Exit code => Some code
  | Raise _ => Some 1
  | _ => None
  end.

(* ================================================================== *)
(** ** Boot devices and the pure core of the reconciler *)
(* ================================================================== *)

(** What the program reads and writes of a well-formed entry of the
    controller's boot sequence: its name and its index.  The program
    itself works on the entries as they were parsed (see
    [reorder_boot_devices] and [sorted_entries] below); [assign_first],
    [reorder] and [sorted_by_index] are its two loops and its sort on
    entries that are dictionaries with a string [Name] and an integer
    [Index], whatever else they hold. *)
Record BootDevice : Type := mkDevice {
  Name : string;
  Index : Z
}.

Definition set_Index (device : BootDevice) (i : Z) : BootDevice :=
  {| Name := Name device; Index := i |}.

(** The entry made of the two members only, and the device an entry
    shows. *)
Definition json_of_device (device : BootDevice) : Json :=
  JObj [("Index", JNum (Index device)); ("Name", JStr (Name device))].

Definition device_of_json (j : Json) : option BootDevice :=
  match j with
  | JObj members =>
      match assoc "Name" members, assoc "Index" members with
      | Some (JStr n), Some (JNum i) => Some {| Name := n; Index := i |}
      | _, _ => None
      end
  | _ => None
  end.

Fixpoint devices_of_json (items : list Json) : option (list BootDevice) :=
  match items with
  | [] => Some []
  | j :: rest =>
      match device_of_json j, devices_of_json rest with
      | Some d, Some ds => Some (d :: ds)
      | _, _ => None
      end
  end.

(** The inner loop of [change_boot_order] for one desired position [i]:
<<
    for device in boot_devices:
        if interfaces[i] == device[u"Name"]:
            if device[u"Index"] != i:
                device[u"Index"] = i
                change = True
            break
>>
    The result is the device list after the assignment and whether an
    index was written. *)
Fixpoint assign_first (name : string) (i : Z) (boot_devices : list BootDevice)
  : list BootDevice * bool :=
  match boot_devices with
  | [] => ([], false)
  | device :: rest =>
      if String.eqb name (Name device) then
        if negb (Index device =? i) then (set_Index device i :: rest, true)
        else (device :: rest, false)
      else
        let '(rest', c) := assign_first name i rest in (device :: rest', c)
  end.

(** The outer loop, [for i in range(len(interfaces))], from position [i]. *)
Fixpoint reorder_from (i : nat) (interfaces : list string)
         (boot_devices : list BootDevice) (change : bool) : list BootDevice * bool :=
  match interfaces with
  | [] => (boot_devices, change)
  | name :: rest =>
      let '(devices', c) := assign_first name (Z.of_nat i) boot_devices in
      reorder_from (S i) rest devices' (change || c)
  end.

Definition reorder (interfaces : list string) (boot_devices : list BootDevice)
  : list BootDevice * bool :=
  reorder_from 0 interfaces boot_devices false.

(** [sorted(devices, key=lambda x: x[u"Index"])]: a stable sort. *)
Fixpoint insert_by_index (x : BootDevice) (l : list BootDevice) : list BootDevice :=
  match l with
  | [] => [x]
  | y :: ys => if Index x <=? Index y then x :: y :: ys else y :: insert_by_index x ys
  end.

Fixpoint sorted_by_index (l : list BootDevice) : list BootDevice :=
  match l with
  | [] => []
  | x :: xs => insert_by_index x (sorted_by_index xs)
  end.

(* ================================================================== *)
(** ** The class [Badfish] *)
(* ================================================================== *)

(** What [open(path)] followed by [yaml.safe_load] finds at the interfaces
    path: no file, a document that does not parse (with the text of the
    [YAMLError]), or the dictionary of the document. *)
Inductive File : Type :=
| NoSuchFile
| BadYaml (ex : string)
| Yaml (definitions : list (string * string)).

Definition BOOT_SOURCES_URI : string :=
  "/redfish/v1/Systems/System.Embedded.1/BootSources/Settings".
Definition BIOS_URI : string := "/redfish/v1/Systems/System.Embedded.1/Bios/Settings".

Definition TERMINAL_MESSAGE : string := "Task successfully scheduled.".

(** ["%s" % x] where [x] is a string or [None]. *)
Definition str_of_option (x : option string) : string :=
  match x with
  | Some s => s
  | None => "None"
  end.

(** [definitions[key]]. *)
Definition lookup_definition (definitions : list (string * string)) (key : string) : M string :=
  match assoc key definitions with
  | Some v => ret v
  | None => raise KeyError
  end.

(** [interfaces[_host] = value] on a dictionary kept in insertion order. *)
Fixpoint dict_set {A : Type} (d : list (string * A)) (k : string) (v : A) : list (string * A) :=
  match d with
  | [] => [(k, v)]
  | (k', v') :: rest => if String.eqb k k' then (k, v) :: rest else (k', v') :: dict_set rest k v
  end.

(* ================================================================== *)
(** ** The boot sequence as the controller sends it *)
(* ================================================================== *)

(** The program never checks what [data[u"Attributes"][_boot_seq]] is: it
    iterates over it, subscripts its entries with [u"Name"] and
    [u"Index"], compares, assigns, sorts and formats them.  The operations
    below are those of Python 3 on the values of [json.loads]; a [Result]
    is the value of an expression or the exception it raises. *)
Inductive Result (A : Type) : Type :=
| Ok (a : A)
| Err (e : Exn).

Arguments Ok {A} a.
Arguments Err {A} e.

Definition lift {A : Type} (r : Result A) : M A :=
  match r with
  | Ok a => ret a
  | Err e => raise e
  end.

(** [d[k]] with a string key, as an expression. *)
Definition subscript (d : Json) (k : string) : Result Json :=
  match d with
  | JObj members =>
      match assoc k members with
      | Some v => Ok v
      | None => Err KeyError
      end
  | _ => Err TypeError
  end.

(** The integer a value is where Python wants one: [True] is [1] and
    [False] is [0]. *)
Definition as_int (j : Json) : option Z :=
  match j with
  | JNum n => Some n
  | JBool true => Some 1
  | JBool false => Some 0
  | _ => None
  end.

(** [j == i] for an integer [i]. *)
Definition eq_int (j : Json) (i : Z) : bool :=
  match as_int j with
  | Some n => n =? i
  | None => false
  end.

(** [a == b]: numbers by value, lists member by member, dictionaries
    whatever the order of their keys. *)
Fixpoint py_eq (a b : Json) : bool :=
  match a, b with
  | JNull, JNull => true
  | JStr s, JStr t => String.eqb s t
  | JArr xs, JArr ys =>
      (fix all2 (xs ys : list Json) : bool :=
         match xs, ys with
         | [], [] => true
         | x :: xs', y :: ys' => py_eq x y && all2 xs' ys'
         | _, _ => false
         end) xs ys
  | JObj ms, JObj ns =>
      (List.length ms =? List.length ns)%nat &&
      (fix each (ms : list (string * Json)) : bool :=
         match ms with
         | [] => true
         | (k, v) :: ms' =>
             match assoc k ns with
             | Some w => py_eq v w
             | None => false
             end && each ms'
         end) ms
  | _, _ =>
      match as_int a, as_int b with
      | Some x, Some y => x =? y
      | _, _ => false
      end
  end.

(** [a < b]: between two integers, two strings (by code point, the order
    of the UTF-8 bytes) or two lists (at the first members that differ);
    [None] where Python raises [TypeError]. *)
Fixpoint py_lt (a b : Json) : option bool :=
  match a, b with
  | JStr s, JStr t => Some (String.ltb s t)
  | JArr xs, JArr ys =>
      (fix lex (xs ys : list Json) : option bool :=
         match xs, ys with
         | [], [] => Some false
         | [], _ :: _ => Some true
         | _ :: _, [] => Some false
         | x :: xs', y :: ys' => if py_eq x y then lex xs' ys' else py_lt x y
         end) xs ys
  | _, _ =>
      match as_int a, as_int b with
      | Some x, Some y => Some (x <? y)
      | _, _ => None
      end
  end.

(** [for device in boot_devices]: the members of a list, the keys of a
    dictionary, the characters of a string; nothing else is iterable.  (Of
    the characters only the first matters: the program subscripts it with
    a string, which fails.) *)
Definition iterate (j : Json) : Result (list Json) :=
  match j with
  | JArr items => Ok items
  | JObj members => Ok (map (fun kv => JStr (fst kv)) members)
  | JStr s => Ok (map (fun c => JStr (String c EmptyString)) (list_ascii_of_string s))
  | _ => Err TypeError
  end.

(** [boot_devices[: n]]: of a list or a string.  (A dictionary does not
    take a slice: [TypeError], and [KeyError] from Python 3.12 on.) *)
Definition slice_to (n : nat) (j : Json) : Result Json :=
  match j with
  | JArr items => Ok (JArr (firstn n items))
  | JStr s => Ok (JStr (String.substring 0 n s))
  | _ => Err TypeError
  end.

(** [lambda x: x[u"Index"]] on every entry in turn, as [sorted] does
    before it compares anything. *)
Fixpoint keys_of (items : list Json) : Result (list Json) :=
  match items with
  | [] => Ok []
  | x :: rest =>
      match subscript x "Index" with
      | Err e => Err e
      | Ok k =>
          match keys_of rest with
          | Err e => Err e
          | Ok ks => Ok (k :: ks)
          end
      end
  end.

Definition comparable (a b : Json) : bool :=
  match py_lt a b, py_lt b a with
  | Some _, Some _ => true
  | _, _ => false
  end.

Fixpoint all_comparable (keys : list Json) : bool :=
  match keys with
  | [] => true
  | k :: rest => forallb (comparable k) rest && all_comparable rest
  end.

(** [x] stays before [y] unless [y < x]. *)
Definition stays_before (x y : Json) : bool :=
  match py_lt y x with
  | Some true => false
  | _ => true
  end.

Fixpoint insert_by_key (x : Json * Json) (l : list (Json * Json)) : list (Json * Json) :=
  match l with
  | [] => [x]
  | y :: ys => if stays_before (fst x) (fst y) then x :: y :: ys else y :: insert_by_key x ys
  end.

Fixpoint sort_by_key (l : list (Json * Json)) : list (Json * Json) :=
  match l with
  | [] => []
  | x :: xs => insert_by_key x (sort_by_key xs)
  end.

(** [sorted(items, key=lambda x: x[u"Index"])]: the keys first, then a
    stable sort, which compares nothing when there is at most one entry
    and raises [TypeError] on keys that have no order (an integer and a
    string, [None], a dictionary).  Keys that are lists of which some pair
    has no order are taken to raise as well. *)
Definition sorted_entries (items : list Json) : Result (list Json) :=
  match keys_of items with
  | Err e => Err e
  | Ok keys =>
      if (List.length items <=? 1)%nat || all_comparable keys
      then Ok (map snd (sort_by_key (combine keys items)))
      else Err TypeError
  end.

(** [int(s)] for a string of ASCII text: white space around, a sign, then
    digits, single underscores allowed between digits.  (Python also
    takes the digits and spaces of other scripts; here a string with
    such characters is not a number.) *)
Definition is_space (c : ascii) : bool :=
  let n := N_of_ascii c in
  (((9 <=? n) && (n <=? 13)) || (n =? 32))%N.

Definition digit_of (c : ascii) : option Z :=
  let n := N_of_ascii c in
  if ((48 <=? n) && (n <=? 57))%N then Some (Z.of_N n - 48) else None.

Fixpoint lstrip_spaces (s : string) : string :=
  match s with
  | EmptyString => EmptyString
  | String c rest => if is_space c then lstrip_spaces rest else s
  end.

Definition strip_spaces (s : string) : string :=
  Py.rev_string (lstrip_spaces (Py.rev_string (lstrip_spaces s))).

Fixpoint digits_value (acc : Z) (after_digit : bool) (s : string) : option Z :=
  match s with
  | EmptyString => if after_digit then Some acc else None
  | String c rest =>
      match digit_of c with
      | Some d => digits_value (10 * acc + d) true rest
      | None =>
          if Ascii.eqb c "_" && after_digit then digits_value acc false rest
          else None
      end
  end.

Definition int_of_string (s : string) : option Z :=
  match strip_spaces s with
  | String "+" digits => digits_value 0 false digits
  | String "-" digits => option_map Z.opp (digits_value 0 false digits)
  | digits => digits_value 0 false digits
  end.

(** [int(j)]. *)
Definition py_int (j : Json) : Result Z :=
  match j with
  | JStr s =>
      match int_of_string s with
      | Some n => Ok n
      | None => Err ValueError
      end
  | _ =>
      match as_int j with
      | Some n => Ok n
      | None => Err TypeError
      end
  end.

(** [candidate[index]] on a list: the index has to be an integer. *)
Definition list_subscript (candidate : list string) (index : Json) : Result string :=
  match as_int index with
  | Some i =>
      match Py.list_item candidate i with
      | Some name => Ok name
      | None => Err IndexError
      end
  | None => Err TypeError
  end.

(** [device[u"Index"] = i], reached only after [device[u"Index"]] was
    read: the member is replaced where it stands. *)
Definition set_index (device : Json) (i : Z) : Json :=
  match device with
  | JObj members => JObj (dict_set members "Index" (JNum i))
  | _ => device
  end.

(** The inner loop of [change_boot_order] on the entries themselves. *)
Fixpoint assign_first_entry (name : string) (i : Z) (boot_devices : list Json)
  : Result (list Json * bool) :=
  match boot_devices with
  | [] => Ok ([], false)
  | device :: rest =>
      match subscript device "Name" with
      | Err e => Err e
      | Ok device_name =>
          if eq_str device_name name then
            match subscript device "Index" with
            | Err e => Err e
            | Ok index =>
                if negb (eq_int index i) then Ok (set_index device i :: rest, true)
                else Ok (device :: rest, false)
            end
          else
            match assign_first_entry name i rest with
            | Err e => Err e
            | Ok (rest', c) => Ok (device :: rest', c)
            end
      end
  end.

(** The outer loop on the entries. *)
Fixpoint reorder_entries_from (i : nat) (interfaces : list string)
         (boot_devices : list Json) (change : bool) : Result (list Json * bool) :=
  match interfaces with
  | [] => Ok (boot_devices, change)
  | name :: rest =>
      match assign_first_entry name (Z.of_nat i) boot_devices with
      | Err e => Err e
      | Ok (devices', c) => reorder_entries_from (S i) rest devices' (change || c)
      end
  end.

(** The two loops on whatever the controller sent: a list keeps its
    (updated) entries; of anything else nothing can be updated, since
    what it yields is a string. *)
Definition reorder_boot_devices (interfaces : list string) (boot_devices : Json)
  : Result (Json * bool) :=
  match interfaces with
  | [] => Ok (boot_devices, false)
  | _ :: _ =>
      match iterate boot_devices with
      | Err e => Err e
      | Ok entries =>
          match reorder_entries_from 0 interfaces entries false with
          | Err e => Err e
          | Ok (entries', change) =>
              Ok (match boot_devices with
                  | JArr _ => JArr entries'
                  | _ => boot_devices
                  end, change)
          end
      end
  end.

Section Badfish.

(** [self.host]; the credentials only travel with each request. *)
Variable host : string.

(** [self.host.split(".")[0].split("-")[-1]]. *)
Definition host_model : string :=
  Py.last_item (Py.split "-" (hd EmptyString (Py.split "." host))).

Definition system_url : string :=
  Py.fmt ["https://"; host; "/redfish/v1/Systems/System.Embedded.1/"].
Definition reset_url : string :=
  Py.fmt ["https://"; host; "/redfish/v1/Systems/System.Embedded.1/Actions/ComputerSystem.Reset"].
Definition jobs_url : string :=
  Py.fmt ["https://"; host; "/redfish/v1/Managers/iDRAC.Embedded.1/Jobs"].

Definition get_bios_boot_mode : M Json :=
  _response <- requests_get (Py.fmt ["https://"; host; "/redfish/v1/Systems/System.Embedded.1/Bios"]) ;;
  data <- try_except_ValueError (response_json _response)
            (log ERROR "Could not retrieve Bios Boot mode." ;; sys_exit 1) ;;
  attributes <- getitem data "Attributes" ;;
  getitem attributes "BootMode".

Definition get_boot_seq (bios_boot_mode : Json) : string :=
  if eq_str bios_boot_mode "Uefi" then "UefiBootSeq" else "BootSeq".

(** The boot sequence is returned as it was parsed. *)
Definition get_boot_devices (_boot_seq : string) : M Json :=
  _response <- requests_get (Py.fmt ["https://"; host; "/redfish/v1/Systems/System.Embedded.1/BootSources"]) ;;
  data <- response_json _response ;;
  attributes <- getitem data "Attributes" ;;
  getitem attributes _boot_seq.

(** [with open(path) as f: yaml.safe_load(f)] with the handler [on_error]
    of the [except yaml.YAMLError] clause. *)
Definition load_definitions {A : Type} (file : File)
           (on_error : string -> M A) (k : list (string * string) -> M A) : M A :=
  match file with
  | NoSuchFile => raise IOError
  | BadYaml ex => on_error ex
  | Yaml definitions => k definitions
  end.

Definition change_boot_order (file : File) (_host_type : option string) : M unit :=
  load_definitions file (fun ex => log ERROR ex ;; sys_exit 1) (fun definitions =>
  entry <- lookup_definition definitions
             (Py.fmt [str_of_option _host_type; "_"; host_model; "_interfaces"]) ;;
  let interfaces := Py.split "," entry in
  bios_boot_mode <- get_bios_boot_mode ;;
  let boot_seq := get_boot_seq bios_boot_mode in
  boot_devices <- get_boot_devices boot_seq ;;
  reordered <- lift (reorder_boot_devices interfaces boot_devices) ;;
  let '(boot_devices, change) := reordered in
  if change then
    let url := Py.fmt ["https://"; host; BOOT_SOURCES_URI] in
    let payload := JObj [("Attributes", JObj [(boot_seq, boot_devices)])] in
    response <- requests_patch url payload ;;
    if status_code response =? 200 then
      log INFO "- PASS: PATCH command passed to update boot order"
    else
      log ERROR "- FAIL: There was something wrong with your request"
  else
    log WARNING "- WARNING: No changes were made since the boot order already matches the requested." ;;
    sys_exit 0).

Definition set_next_boot_pxe : M unit :=
  let _url := Py.fmt ["https://"; host; "/redfish/v1/Systems/System.Embedded.1"] in
  let _payload := JObj [("Boot", JObj [("BootSourceOverrideTarget", JStr "Pxe")])] in
  _response <- requests_patch _url _payload ;;
  time_sleep 5 ;;
  if status_code _response =? 200 then
    log INFO (Py.fmt ["- PASS: PATCH command passed to set next boot onetime boot device to: ";
                      String "034" "Pxe"; String "034" EmptyString])
  else
    log ERROR (Py.fmt ["- FAIL: Command failed, error code is "; Py.str_of_int (status_code _response)]) ;;
    log ERROR (dict_str _response) ;;
    sys_exit 1.

Definition get_job_queue : M (list string) :=
  _response <- requests_get jobs_url ;;
  data <- response_json _response ;;
  let data := Repr.str data in
  ret (Py.re_findall_JID "'" data).

Fixpoint delete_jobs (_url : string) (_job_queue : list string) : M unit :=
  match _job_queue with
  | [] => ret tt
  | _job :: rest =>
      let job := Py.strip "'" _job in
      let url := Py.fmt [_url; "/"; job] in
      _ <- requests_delete url ;;
      delete_jobs _url rest
  end.

Definition clear_job_queue (_job_queue : list string) : M unit :=
  let _url := jobs_url in
  match _job_queue with
  | [] =>
      log WARNING (Py.fmt [String Py.newline "- WARNING, job queue already cleared for iDRAC ";
                           host; ", DELETE command will not execute"])
  | _ =>
      log WARNING (Py.fmt [String Py.newline "- WARNING, clearing job queue for job IDs: ";
                           Repr.repr (JArr (map JStr _job_queue)); String Py.newline EmptyString]) ;;
      delete_jobs _url _job_queue ;;
      job_queue <- get_job_queue ;;
      match job_queue with
      | [] => log INFO (Py.fmt ["- PASS, job queue for iDRAC "; host; " successfully cleared"])
      | _ =>
          log ERROR (Py.fmt ["- FAIL, job queue not cleared, current job queue contains jobs: ";
                             Repr.repr (JArr (map JStr job_queue))]) ;;
          sys_exit 1
      end
  end.

Definition create_bios_config_job (uri : string) : M string :=
  let _url := jobs_url in
  let _payload := JObj [("TargetSettingsURI", JStr uri)] in
  _response <- requests_post _url _payload ;;
  let status_code := status_code _response in
  (if status_code =? 200 then
     log INFO "- PASS: POST command passed to create target config job, status code 200 returned."
   else
     log ERROR (Py.fmt ["- FAIL: POST command failed to create BIOS config job, status code is ";
                        Py.str_of_int status_code]) ;;
     log ERROR (dict_str _response) ;;
     sys_exit 1) ;;
  let convert_to_string := dict_str _response in
  match Py.re_search_JID "," convert_to_string with
  | None => raise AttributeError
  | Some job_id_search =>
      let _job_id := Py.drop_commas_quotes job_id_search in
      log INFO (Py.fmt ["- INFO: "; _job_id; " job ID successfully created"]) ;;
      ret _job_id
  end.

(** [for _ in range(retries)] of [get_job_status], with [retries] rounds
    left, and the two lines after the loop. *)
Fixpoint job_status_loop (_job_id : string) (retries : nat) : M unit :=
  match retries with
  | O =>
      log ERROR "- FAIL: Not able to successfully schedule the job." ;;
      sys_exit 1
  | S retries' =>
      req <- requests_get (Py.fmt [jobs_url; "/"; _job_id]) ;;
      let status_code := status_code req in
      (if status_code =? 200 then
         log INFO "- PASS: Command passed to check job status, code 200 returned" ;;
         time_sleep 10
       else
         log ERROR (Py.fmt ["- FAIL: Command failed to check job status, return code is ";
                            Py.str_of_int status_code]) ;;
         extended <- response_json req ;;
         log ERROR (Py.fmt ["    Extended Info Message: "; Repr.str extended]) ;;
         sys_exit 1) ;;
      data <- response_json req ;;
      message <- getitem data "Message" ;;
      if eq_str message TERMINAL_MESSAGE then
        log INFO (Py.fmt ["- PASS: job id "; _job_id; " successfully scheduled"])
      else
        log WARNING (Py.fmt ["- WARNING: JobStatus not scheduled, current status is: ";
                             Repr.str message]) ;;
        job_status_loop _job_id retries'
  end.

Definition get_job_status (_job_id : string) : M unit :=
  let retries := 10%nat in
  job_status_loop _job_id retries.

(** A reset action and the check of its [204]: [passed] is the line logged
    on success, [failed] the one before the status code on failure. *)
Definition reset_failed (failed : string) (_response : Response) : M unit :=
  log ERROR (Py.fmt [failed; Py.str_of_int (status_code _response)]) ;;
  extended <- response_json _response ;;
  log ERROR (Py.fmt ["    Extended Info Message: "; Repr.str extended]) ;;
  sys_exit 1.

Definition power_on (_url : string) : M unit :=
  let _payload := JObj [("ResetType", JStr "On")] in
  _response <- requests_post _url _payload ;;
  if status_code _response =? 204 then
    log INFO (Py.fmt ["- PASS: Command passed to power ON server, code return is ";
                      Py.str_of_int (status_code _response)])
  else
    reset_failed "- FAIL: Command failed to power ON server, status code is: " _response.

(** The [while True] loop of [reboot_server]; [fuel] bounds the rounds of
    the model, the source has no bound. *)
Fixpoint wait_for_off (fuel : nat) (count : Z) : M unit :=
  match fuel with
  | O => out_of_fuel
  | S fuel' =>
      _response <- requests_get system_url ;;
      data <- response_json _response ;;
      state <- getitem data "PowerState" ;;
      if eq_str state "Off" then
        log INFO "- PASS: GET command passed to verify server is in OFF state"
      else if count =? 10 then
        log WARNING "- WARNING: unable to graceful shutdown the server, will perform forced shutdown now" ;;
        let _payload := JObj [("ResetType", JStr "ForceOff")] in
        _response <- requests_post reset_url _payload ;;
        (if status_code _response =? 204 then
           log INFO (Py.fmt ["- PASS: Command passed to forcefully power OFF server, code return is ";
                             Py.str_of_int (status_code _response)]) ;;
           time_sleep 10
         else
           reset_failed "- FAIL, Command failed to gracefully power OFF server, status code is: "
                        _response) ;;
        wait_for_off fuel' count
      else
        time_sleep 1 ;;
        wait_for_off fuel' (count + 1)
  end.

Definition reboot_server (fuel : nat) : M unit :=
  _response <- requests_get system_url ;;
  data <- response_json _response ;;
  state <- getitem data "PowerState" ;;
  log WARNING (Py.fmt ["- WARNING: Current server power state is: "; Repr.str state]) ;;
  if eq_str state "On" then
    let _payload := JObj [("ResetType", JStr "GracefulRestart")] in
    _response <- requests_post reset_url _payload ;;
    (if status_code _response =? 204 then
       log INFO (Py.fmt ["- PASS: Command passed to gracefully restart server, code return is ";
                         Py.str_of_int (status_code _response)]) ;;
       time_sleep 3
     else
       reset_failed "- FAIL: Command failed to gracefully restart server, status code is: "
                    _response) ;;
    let count := 0 in
    wait_for_off fuel count ;;
    power_on reset_url
  else if eq_str state "Off" then
    power_on reset_url
  else
    log ERROR "- FAIL: unable to get current server power state to perform either reboot or power on" ;;
    sys_exit 1.

Definition boot_to_device (_boot_to : string) : M unit :=
  let _url := Py.fmt ["https://"; host; BIOS_URI] in
  let _payload := JObj [("Attributes", JObj [("OneTimeBootMode", JStr "OneTimeBootSeq");
                                             ("OneTimeBootSeqDev", JStr _boot_to)])] in
  _response <- requests_patch _url _payload ;;
  let status_code := status_code _response in
  if status_code =? 200 then
    log INFO "- PASS: Command passed to set BIOS attribute pending values"
  else
    log ERROR (Py.fmt ["- FAIL: command failed, error code is: "; Py.str_of_int status_code]) ;;
    log ERROR (dict_str _response) ;;
    sys_exit 1.

(** ["%s: %s" % (int(device[u"Index"]) + 1, device[u"Name"])] for every
    device of [sorted(boot_devices, key=...)]. *)
Fixpoint log_devices (devices : list Json) : M unit :=
  match devices with
  | [] => ret tt
  | device :: rest =>
      index <- getitem device "Index" ;;
      number <- lift (py_int index) ;;
      name <- getitem device "Name" ;;
      log INFO (Py.fmt [Py.str_of_int (number + 1); ": "; Repr.str name]) ;;
      log_devices rest
  end.

(** The two lines that list the devices:
<<
    for device in sorted(boot_devices, key=lambda x: x[u"Index"]):
        self.logger.info(...)
>> *)
Definition log_boot_order (boot_devices : Json) : M unit :=
  entries <- lift (iterate boot_devices) ;;
  devices <- lift (sorted_entries entries) ;;
  log_devices devices.

(** The inner loop of [check_boot]: [true] when it ends with [match]
    still set. *)
Fixpoint names_match (candidate : list string) (devices : list Json) : M bool :=
  match devices with
  | [] => ret true
  | device :: rest =>
      device_name <- getitem device "Name" ;;
      index <- getitem device "Index" ;;
      name <- lift (list_subscript candidate index) ;;
      if eq_str device_name name then names_match candidate rest else ret false
  end.

(** [for _host in hosts] of [check_boot], with the dictionary [interfaces]
    filled so far: [true] when a profile was reported (the [return] inside
    the loop). *)
Fixpoint check_profiles (hosts : list string) (interfaces : list (string * list string))
         (definitions : list (string * string)) (boot_devices : Json) : M bool :=
  match hosts with
  | [] => ret false
  | _host :: rest =>
      entry <- lookup_definition definitions (Py.fmt [_host; "_"; host_model; "_interfaces"]) ;;
      let interfaces := dict_set interfaces _host (Py.split "," entry) in
      head <- lift (slice_to (List.length interfaces) boot_devices) ;;
      entries <- lift (iterate head) ;;
      devices <- lift (sorted_entries entries) ;;
      candidate <- match assoc _host interfaces with Some c => ret c | None => raise KeyError end ;;
      matched <- names_match candidate devices ;;
      if matched then
        log INFO (Py.fmt ["Current boot order is set to '"; _host; "'"]) ;;
        ret true
      else check_profiles rest interfaces definitions boot_devices
  end.

(** [check_boot] returns [1] after a YAML error and [None] otherwise. *)
Definition check_boot (_interfaces_path : option string) (file : File) : M (option Z) :=
  bios_boot_mode <- get_bios_boot_mode ;;
  let boot_seq := get_boot_seq bios_boot_mode in
  boot_devices <- get_boot_devices boot_seq ;;
  match _interfaces_path with
  | Some (String _ _) =>
      load_definitions file (fun ex => log ERROR ex ;; ret (Some 1)) (fun definitions =>
      reported <- check_profiles ["foreman"; "director"] [] definitions boot_devices ;;
      if reported : bool then ret None
      else
        log WARNING "- WARN: Current boot order does not match any of the given." ;;
        log INFO "Current boot order:" ;;
        log_boot_order boot_devices ;;
        ret None)
  | _ =>
      log INFO "Current boot order:" ;;
      log_boot_order boot_devices ;;
      ret None
  end.

End Badfish.

(* ================================================================== *)
(** ** [main] *)
(* ================================================================== *)

(** The parsed command line ([username], [password] and [--log] play no
    part in what follows). *)
Record Args : Type := mkArgs {
  arg_H : string;
  arg_t : option string;
  arg_i : option string;
  arg_pxe : bool;
  arg_boot_to : option string;
  arg_reboot_only : bool;
  arg_check_boot : bool
}.

(** [if x:] on a string or [None]. *)
Definition truthy (x : option string) : bool :=
  match x with
  | Some (String _ _) => true
  | _ => false
  end.

Definition lower_ascii (a : ascii) : ascii :=
  let n := N_of_ascii a in
  if (65 <=? n)%N && (n <=? 90)%N then ascii_of_N (n + 32) else a.

(** [s.lower()]. *)
Fixpoint lower (s : string) : string :=
  match s with
  | EmptyString => EmptyString
  | String a rest => String (lower_ascii a) (lower rest)
  end.

(** [jobs_queue = get_job_queue(); if jobs_queue: clear_job_queue(...)],
    job creation, job polling and reboot: the tail shared by two branches
    of [main]. *)
Definition run_job_and_reboot (host : string) (fuel : nat) : M Z :=
  jobs_queue <- get_job_queue host ;;
  match jobs_queue with
  | [] => ret tt
  | _ => clear_job_queue host jobs_queue
  end ;;
  job_id <- create_bios_config_job host BIOS_URI ;;
  get_job_status host job_id ;;
  reboot_server host fuel ;;
  ret 0.

(** [main]: [file] is what lies at the path of [-i], [fuel] bounds the
    power-off wait of the model. *)
Definition main (args : Args) (file : File) (fuel : nat) : M Z :=
  let host := arg_H args in
  let host_type := arg_t args in
  let interfaces_path := arg_i args in
  if arg_reboot_only args then
    reboot_server host fuel ;;
    ret 0
  else if truthy (arg_boot_to args) then
    boot_to_device host (str_of_option (arg_boot_to args)) ;;
    run_job_and_reboot host fuel
  else if arg_check_boot args then
    check_boot host interfaces_path file ;;
    ret 0
  else
    (if truthy host_type then
       if negb (existsb (String.eqb (lower (str_of_option host_type))) ["foreman"; "director"])
       then raise ArgumentTypeError
       else ret tt
     else ret tt) ;;
    if truthy interfaces_path then
      match file with
      | NoSuchFile =>
          log ERROR (Py.fmt ["- FAIL: No such file or directory: "; str_of_option interfaces_path]) ;;
          ret 1
      | _ =>
          change_boot_order host file host_type ;;
          (if arg_pxe args then set_next_boot_pxe host else ret tt) ;;
          run_job_and_reboot host fuel
      end
    else
      log ERROR "- FAIL: You must provide a path to the interfaces yaml via `-i` optional argument." ;;
      ret 1.

(** [sys.exit(main())]. *)
Definition program (args : Args) (file : File) (fuel : nat) : M unit :=
  code <- main args file fuel ;;
  sys_exit code.

(* ================================================================== *)
(** ** The vocabulary of the statements *)
(* ================================================================== *)

(** *** Job polling: [get_job_status] *)

Definition job_url (host _job_id : string) : string :=
  Py.fmt [jobs_url host; "/"; _job_id].

(** [req.json()[u"Message"]] when the body is a dictionary that has it. *)
Definition message_of (r : Response) : option Json :=
  match json r with
  | Some (JObj members) => assoc "Message" members
  | _ => None
  end.

(** The response carries the terminal message. *)
Definition scheduled (r : Response) : bool :=
  match message_of r with
  | Some v => eq_str v TERMINAL_MESSAGE
  | None => false
  end.

(** A job-status response with HTTP status 200 and a message. *)
Definition status_200 (r : Response) : Prop :=
  status_code r = 200 /\ message_of r <> None.

(** 1-based position of the first response with the terminal message. *)
Fixpoint first_scheduled (rs : list Response) : option nat :=
  match rs with
  | [] => None
  | r :: rest => if scheduled r then Some 1%nat else option_map S (first_scheduled rest)
  end.

(** The timeline without the log lines. *)
Definition io_of (t : list Event) : list Event :=
  filter (fun e => match e with Log _ _ => false | _ => true end) t.

(** Every request of [t], each one with status 200 followed by a sleep of
    10. *)
Definition reads_with_delays (t : list Event) : list Event :=
  flat_map (fun e => match e with
                     | Http rq rs => Http rq rs :: (if status_code rs =? 200 then [Sleep 10] else [])
                     | _ => []
                     end) t.

Definition reads_200 (t : list Event) : nat :=
  List.length (filter (fun e => match e with
                                | Http (Get _) rs => status_code rs =? 200
                                | _ => false
                                end) t).

Definition job_response (message : string) : Response :=
  mkResponse 200 (Some (JObj [("Message", JStr message)])) "{'status_code': 200}".

(** *** Draining the job queue: [clear_job_queue] *)

Definition delete_url (host _job : string) : string :=
  Py.fmt [jobs_url host; "/"; Py.strip "'" _job].

Definition deletions (host : string) (_job_queue : list string) (answers : list Response) : list Event :=
  map (fun jr => Http (Delete (delete_url host (fst jr))) (snd jr)) (combine _job_queue answers).

(** *** The power cycle: [reboot_server] *)

(** [data[u"PowerState"]] when the body is a dictionary that has it. *)
Definition power_state_of (r : Response) : option Json :=
  match json r with
  | Some (JObj members) => assoc "PowerState" members
  | _ => None
  end.

(** The poll reads [Off]. *)
Definition reads_off (r : Response) : bool :=
  match power_state_of r with
  | Some v => eq_str v "Off"
  | None => false
  end.

(** The poll answers with a power state other than [Off]. *)
Definition still_up (r : Response) : Prop :=
  exists v, power_state_of r = Some v /\ eq_str v "Off" = false.

(** The [ResetType] of every reset action sent, in order. *)
Definition reset_types_of (t : list Event) : list string :=
  flat_map (fun e => match e with
                     | Http (Post _ (JObj [("ResetType", JStr s)])) _ => [s]
                     | _ => []
                     end) t.

Definition power_response (state : string) : Response :=
  mkResponse 200 (Some (JObj [("PowerState", JStr state)])) "{'status_code': 200}".

Definition no_content : Response := mkResponse 204 None "{'status_code': 204}".

(** *** Reading the boot devices *)

(** The two documents the reconciler and the inspection read. *)
Definition bios_document (mode : Json) : Json :=
  JObj [("Attributes", JObj [("BootMode", mode)])].

Definition boot_sources_document (boot_seq : string) (devices : list BootDevice) : Json :=
  JObj [("Attributes", JObj [(boot_seq, JArr (map json_of_device devices))])].

Definition bios_url (host : string) : string :=
  Py.fmt ["https://"; host; "/redfish/v1/Systems/System.Embedded.1/Bios"].

Definition boot_sources_url (host : string) : string :=
  Py.fmt ["https://"; host; "/redfish/v1/Systems/System.Embedded.1/BootSources"].


(** The entry [e] is a dictionary with the name and the index of [d],
    whatever else it holds. *)
Definition shows (e : Json) (d : BootDevice) : Prop := device_of_json e = Some d.

(** The entries with the indices of [devices], each otherwise whole. *)
Fixpoint with_indices (entries : list Json) (devices : list BootDevice) : list Json :=
  match entries, devices with
  | e :: es, d :: ds => set_index e (Index d) :: with_indices es ds
  | _, _ => []
  end.

(** *** The reconciler: first match, no-op, patch *)



(** The current boot order as [check_boot] lists it: the devices sorted
    by index, each with its index and name. *)
Definition boot_order (devices : list BootDevice) : list (Z * string) :=
  map (fun d => (Index d, Name d)) (sorted_by_index devices).

(** The desired order: each interface with its position. *)
Definition desired_order (interfaces : list string) : list (Z * string) :=
  combine (map Z.of_nat (seq 0 (List.length interfaces))) interfaces.

(** The device [d] sits where its name stands in [interfaces], counted
    from [i]. *)
Definition at_place (i : nat) (interfaces : list string) (d : BootDevice) : Prop :=
  forall k, nth_error interfaces k = Some (Name d) -> Index d = Z.of_nat (i + k).

Definition interfaces_key (host : string) (_host_type : option string) : string :=
  Py.fmt [str_of_option _host_type; "_"; host_model host; "_interfaces"].

Definition NOOP_LINE : string :=
  "- WARNING: No changes were made since the boot order already matches the requested.".




(** *** Failures of the controller *)

(** How a failed check that logs [response.json()] ends: [sys.exit(1)]
    after the body, or the [ValueError] of a body that is not JSON. *)
Definition after_extended_info {A : Type} (r : Response) : Outcome A :=
  match json r with
  | Some _ => Exit 1
  | None => Raise ValueError
  end.

Definition extended_info (r : Response) : list Event :=
  match json r with
  | Some doc => [Log ERROR (Py.fmt ["    Extended Info Message: "; Repr.str doc])]
  | None => []
  end.

(** How a run ends when it does not return. *)
Inductive Ending : Type :=
| Exits (code : Z)
| Raises (e : Exn).

Definition ended {A : Type} (e : Ending) : Outcome A :=
  match e with
  | Exits code => Exit code
  | Raises x => Raise x
  end.

(** A run stops at what [alarm] recognises: when [alarm e] is
    [Some (ending, tail)] and [e] occurs in the run, the run ends as
    [ending] says and [tail] is all that follows [e]. *)
Definition stops_at {A : Type} (alarm : Event -> option (Ending * list Event))
           (run : Outcome A * Mock * list Event) : Prop :=
  forall t1 e t2 ending tail,
    events run = t1 ++ e :: t2 ->
    alarm e = Some (ending, tail) ->
    outcome run = ended ending /\ t2 = tail.

(** The end after [response.json()] was logged. *)
Definition extended_ending (r : Response) : Ending :=
  match json r with
  | Some _ => Exits 1
  | None => Raises ValueError
  end.

(** A job-status read answered by anything but 200, and what follows. *)
Definition job_status_alarm (e : Event) : option (Ending * list Event) :=
  match e with
  | Http (Get _) r =>
      if status_code r =? 200 then None
      else Some (extended_ending r,
                 Log ERROR (Py.fmt ["- FAIL: Command failed to check job status, return code is ";
                                    Py.str_of_int (status_code r)])
                 :: extended_info r)
  | _ => None
  end.

(** The exception of [req.json()[u"Message"]] on a body without one. *)
Definition no_message_error (r : Response) : Exn :=
  match json r with
  | None => ValueError
  | Some (JObj _) => KeyError
  | Some _ => TypeError
  end.

(** A job-status read answered by 200 without a message, and what
    follows. *)
Definition no_message_alarm (e : Event) : option (Ending * list Event) :=
  match e with
  | Http (Get _) r =>
      if (status_code r =? 200) && match message_of r with None => true | Some _ => false end
      then Some (Raises (no_message_error r),
                 [Log INFO "- PASS: Command passed to check job status, code 200 returned";
                  Sleep 10])
      else None
  | _ => None
  end.

(** The line that reports a refused reset action. *)
Definition reset_failure_line (reset_type : string) : string :=
  if String.eqb reset_type "GracefulRestart" then
    "- FAIL: Command failed to gracefully restart server, status code is: "
  else if String.eqb reset_type "ForceOff" then
    "- FAIL, Command failed to gracefully power OFF server, status code is: "
  else "- FAIL: Command failed to power ON server, status code is: ".

(** A reset action answered by anything but 204, and what follows. *)
Definition reset_alarm (e : Event) : option (Ending * list Event) :=
  match e with
  | Http (Post _ (JObj [("ResetType", JStr reset_type)])) r =>
      if status_code r =? 204 then None
      else Some (extended_ending r,
                 Log ERROR (Py.fmt [reset_failure_line reset_type; Py.str_of_int (status_code r)])
                 :: extended_info r)
  | _ => None
  end.

(** A whole run of [--boot-to] with one job in the queue. *)
Definition boot_to_args : Args :=
  mkArgs "mgmt-f21-h01-000-r620.example.com" None None false (Some "NIC.Slot.2-1-1") false false.

Definition queue_document (jobs : list string) : Json :=
  JObj [("Members",
         JArr (map (fun j => JObj [("@odata.id",
                                    JStr (Py.fmt ["/redfish/v1/Managers/iDRAC.Embedded.1/Jobs/"; j]))])
                   jobs))].

Definition ok (doc : Json) : Response := mkResponse 200 (Some doc) "{'status_code': 200}".

Definition job_created : Response :=
  mkResponse 200 None
    "{'status_code': 200, 'headers': {'Location': '/redfish/v1/TaskService/Tasks/JID_471269252012', 'Content-Length': '0'}}".

Definition delete_refused : Response :=
  mkResponse 500 (Some (JObj [("error", JStr "Internal Server Error")])) "{'status_code': 500}".

(** *** Further properties of the program *)

(** What the loop from position [i] over [n] desired names may do to a
    device: keep its name, and keep its index or give it one of the
    positions [i .. i + n - 1]. *)
Definition reassigned (i n : nat) (before after : BootDevice) : Prop :=
  Name after = Name before /\
  (Index after = Index before \/ Z.of_nat i <= Index after < Z.of_nat (i + n)).

(** The default branch of [main]: none of [--reboot-only], [--boot-to] and
    [--check-boot]. *)
Definition default_branch (args : Args) : Prop :=
  arg_reboot_only args = false /\ truthy (arg_boot_to args) = false /\ arg_check_boot args = false.

(** [-t] is given and is neither [foreman] nor [director], whatever the
    case of its letters. *)
Definition bad_host_type (args : Args) : Prop :=
  truthy (arg_t args) = true /\
  existsb (String.eqb (lower (str_of_option (arg_t args)))) ["foreman"; "director"] = false.

(** What [main] turns down before it talks to the controller. *)
Definition rejected_input (args : Args) (file : File) : Prop :=
  bad_host_type args \/
  truthy (arg_i args) = false \/
  file = NoSuchFile \/
  (exists ex, file = BadYaml ex) \/
  (exists definitions,
      file = Yaml definitions /\
      assoc (interfaces_key (arg_H args) (arg_t args)) definitions = None).

(** A computation that sends nothing and leaves the scripted responses as
    they are. *)
Definition quiet {A : Type} (c : M A) : Prop :=
  forall m, requests_of (events (c m)) = [] /\ snd (fst (c m)) = m.

(** The line of [check_boot] for one device. *)
Definition device_line (device : BootDevice) : Level * string :=
  (INFO, Py.fmt [Py.str_of_int (Index device + 1); ": "; Name device]).

(** The string [s] holds no character [c]. *)
Definition without (c : ascii) (s : string) : Prop := Repr.contains c s = false.

(** The payloads of the POST requests sent to [url], in order. *)
Definition posted_to (url : string) (t : list Event) : list Json :=
  flat_map (fun e => match e with
                     | Http (Post u payload) _ => if String.eqb u url then [payload] else []
                     | _ => []
                     end) t.


(** A computation that sends no POST to [url]. *)
Definition posts_nothing_to {A : Type} (url : string) (c : M A) : Prop :=
  forall m, posted_to url (events (c m)) = [].

(** The string ends with the character [c]. *)
Fixpoint ends_with (c : ascii) (s : string) : bool :=
  match s with
  | EmptyString => false
  | String a EmptyString => Ascii.eqb a c
  | String _ rest => ends_with c rest
  end.

(** The string starts with [JID_] and goes on. *)
Definition starts_with_JID (s : string) : bool :=
  match s with
  | String "J" (String "I" (String "D" (String "_" (String _ _)))) => true
  | _ => false
  end.

(* ================================================================== *)
(** ** The embedding on small inputs *)
(* ================================================================== *)

Example repr_sample :
  Repr.repr (JObj [("Members", JArr [JObj [("@odata.id", JStr "/Jobs/JID_12")]]); ("n", JNum 3)])
  = "{'Members': [{'@odata.id': '/Jobs/JID_12'}], 'n': 3}".
Proof. reflexivity. Qed.

Example findall_sample :
  Py.re_findall_JID "'" "{'a': '/Jobs/JID_12', 'b': '/Jobs/JID_7'}" = ["JID_12'"; "JID_7'"].
Proof. reflexivity. Qed.

Example search_sample :
  Py.re_search_JID "," "'Location': '/Jobs/JID_471269252011', 'X': 1" = Some "JID_471269252011',".
Proof. reflexivity. Qed.

Example split_sample :
  Py.split "," "a,,b" = ["a"; EmptyString; "b"] /\ Py.split "." EmptyString = [EmptyString].
Proof. split; reflexivity. Qed.

Example sorted_is_stable :
  sorted_by_index [mkDevice "c" 1; mkDevice "a" 0; mkDevice "b" 1; mkDevice "d" 0]
  = [mkDevice "a" 0; mkDevice "d" 0; mkDevice "c" 1; mkDevice "b" 1].
Proof. reflexivity. Qed.

Example reorder_sample :
  reorder ["B"; "A"] [mkDevice "A" 0; mkDevice "B" 1; mkDevice "C" 2]
  = ([mkDevice "A" 1; mkDevice "B" 0; mkDevice "C" 2], true).
Proof. reflexivity. Qed.

(** The boot sequence is taken as the controller sends it.  An entry with
    a string for [Index] is compared with the position as any value is,
    found different, and given the position. *)
Example string_index_is_renumbered :
  reorder_boot_devices ["NIC.Slot.2-1-1"]
    (JArr [JObj [("Index", JStr "0"); ("Name", JStr "NIC.Slot.2-1-1"); ("Enabled", JBool true)]])
  = Ok (JArr [JObj [("Index", JNum 0); ("Name", JStr "NIC.Slot.2-1-1"); ("Enabled", JBool true)]],
        true).
Proof. reflexivity. Qed.

(** An entry is only looked at when the loops reach it: what follows the
    first device of every desired name may be anything. *)
Example entries_are_read_when_needed :
  reorder_boot_devices ["A"] (JArr [JObj [("Index", JNum 3); ("Name", JStr "A")]; JNull])
  = Ok (JArr [JObj [("Index", JNum 0); ("Name", JStr "A")]; JNull], true) /\
  reorder_boot_devices ["B"] (JArr [JObj [("Index", JNum 3); ("Name", JStr "A")]; JNull])
  = Err TypeError /\
  reorder_boot_devices ["A"] (JArr [JObj [("Name", JStr "A")]]) = Err KeyError.
Proof. repeat split. Qed.

(** [sorted] on the keys the controller may send: integers, strings,
    one entry whatever its key, keys without an order. *)
Example sorted_entries_samples :
  sorted_entries [JObj [("Index", JNum 2)]; JObj [("Index", JBool true)]; JObj [("Index", JNum 0)]]
  = Ok [JObj [("Index", JNum 0)]; JObj [("Index", JBool true)]; JObj [("Index", JNum 2)]] /\
  sorted_entries [JObj [("Index", JStr "10")]; JObj [("Index", JStr "9")]]
  = Ok [JObj [("Index", JStr "10")]; JObj [("Index", JStr "9")]] /\
  sorted_entries [JObj [("Index", JNull)]] = Ok [JObj [("Index", JNull)]] /\
  sorted_entries [JObj [("Index", JNum 1)]; JObj [("Index", JStr "0")]] = Err TypeError /\
  sorted_entries [JObj [("Index", JNum 1)]; JObj [("Name", JStr "A")]] = Err KeyError.
Proof. repeat split. Qed.

Example int_samples :
  py_int (JStr " 12 ") = Ok 12 /\ py_int (JStr "-1_0") = Ok (-10) /\
  py_int (JStr "1__0") = Err ValueError /\ py_int (JStr EmptyString) = Err ValueError /\
  py_int (JBool true) = Ok 1 /\ py_int JNull = Err TypeError.
Proof. repeat split. Qed.

(** Without an interfaces path [check_boot] logs its heading before it
    sorts: an entry without [Index] is a [KeyError] after the heading. *)
Example missing_index_fails_after_heading :
  let entries := JArr [JObj [("Index", JNum 0); ("Name", JStr "HardDisk.List.1-1")];
                       JObj [("Name", JStr "NIC.Slot.2-1-1")]] in
  let mock := mkMock [ok (bios_document (JStr "Bios"));
                      ok (JObj [("Attributes", JObj [("BootSeq", entries)])])] [] [] [] in
  let run := check_boot "mgmt-f21-h01-000-r620.example.com" None NoSuchFile mock in
  outcome run = Raise KeyError /\
  logs_of (events run) = [(INFO, "Current boot order:")] /\
  List.length (requests_of (events run)) = 2%nat.
Proof. vm_compute. repeat split. Qed.

(** The listing takes [int()] of the index and any name. *)
Example listing_of_odd_entries :
  let entries := JArr [JObj [("Index", JStr "1"); ("Name", JStr "NIC.Slot.2-1-1")];
                       JObj [("Index", JStr "0"); ("Name", JNull)]] in
  let mock := mkMock [ok (bios_document (JStr "Bios"));
                      ok (JObj [("Attributes", JObj [("BootSeq", entries)])])] [] [] [] in
  logs_of (events (check_boot "mgmt-f21-h01-000-r620.example.com" None NoSuchFile mock))
  = [(INFO, "Current boot order:"); (INFO, "1: None"); (INFO, "2: NIC.Slot.2-1-1")].
Proof. vm_compute. reflexivity. Qed.

(* ================================================================== *)
(** ** Job polling: [get_job_status] *)
(* ================================================================== *)

Lemma requests_of_app (t1 t2 : list Event) :
  requests_of (t1 ++ t2) = requests_of t1 ++ requests_of t2.
Proof. unfold requests_of. apply flat_map_app. Qed.

Lemma message_of_inv (r : Response) (v : Json) :
  message_of r = Some v ->
  exists members, json r = Some (JObj members) /\ assoc "Message" members = Some v.
Proof.
  unfold message_of. destruct (json r) as [[ | | | | | members]|]; try discriminate.
  intros H. exists members. split; [reflexivity | exact H].
Qed.

(** One round of the loop on a 200 response with a message. *)
Lemma job_status_round (host _job_id : string) (n : nat) (r : Response) (v : Json)
      (gets po pa de : list Response) :
  status_code r = 200 ->
  message_of r = Some v ->
  job_status_loop host _job_id (S n) (mkMock (r :: gets) po pa de)
  = if eq_str v TERMINAL_MESSAGE then
      (Return tt, mkMock gets po pa de,
       [Http (Get (job_url host _job_id)) r;
        Log INFO "- PASS: Command passed to check job status, code 200 returned";
        Sleep 10;
        Log INFO (Py.fmt ["- PASS: job id "; _job_id; " successfully scheduled"])])
    else
      let '(o, m, t) := job_status_loop host _job_id n (mkMock gets po pa de) in
      (o, m,
       [Http (Get (job_url host _job_id)) r;
        Log INFO "- PASS: Command passed to check job status, code 200 returned";
        Sleep 10;
        Log WARNING (Py.fmt ["- WARNING: JobStatus not scheduled, current status is: "; Repr.str v])]
       ++ t).
Proof.
  intros Hs Hm. destruct (message_of_inv r v Hm) as [members [Hj Ha]].
  cbn [job_status_loop]. unfold bind at 1. cbn [requests_get on_get on_post on_patch on_delete].
  rewrite Hs. change (200 =? 200) with true. cbv iota.
  unfold bind at 1. unfold bind at 1. cbn [log time_sleep].
  unfold bind at 1. unfold response_json. rewrite Hj. cbn [ret].
  unfold bind at 1. cbn [getitem]. rewrite Ha. cbn [ret].
  destruct (eq_str v TERMINAL_MESSAGE).
  - reflexivity.
  - unfold bind at 1. cbn [log].
    destruct (job_status_loop host _job_id n (mkMock gets po pa de)) as [[o m] t].
    reflexivity.
Qed.

Lemma first_scheduled_firstn (n k : nat) (rs : list Response) :
  first_scheduled rs = Some k -> (k <= n)%nat -> first_scheduled (firstn n rs) = Some k.
Proof.
  revert n k. induction rs as [|r rs IH]; intros n k H Hk; [discriminate|].
  cbn in H. destruct n as [|n].
  - destruct (scheduled r); [inversion H; subst; lia|].
    destruct (first_scheduled rs); cbn in H; [inversion H; subst; lia | discriminate].
  - cbn. destruct (scheduled r); [exact H|].
    destruct (first_scheduled rs) as [j|] eqn:E; cbn in H; [|discriminate].
    inversion H; subst. rewrite (IH n j eq_refl); [reflexivity | lia].
Qed.

Lemma first_scheduled_bound (rs : list Response) (k : nat) :
  first_scheduled rs = Some k -> (1 <= k <= List.length rs)%nat.
Proof.
  revert k. induction rs as [|r rs IH]; intros k H; [discriminate|].
  cbn in H. destruct (scheduled r).
  - inversion H; subst. cbn. lia.
  - destruct (first_scheduled rs) as [j|]; cbn in H; [|discriminate].
    inversion H; subst. specialize (IH j eq_refl). cbn. lia.
Qed.

Lemma first_scheduled_beyond (n k : nat) (rs : list Response) :
  first_scheduled rs = Some k -> (n < k)%nat -> first_scheduled (firstn n rs) = None.
Proof.
  revert n k. induction rs as [|r rs IH]; intros n k H Hk; [discriminate|].
  cbn in H. destruct n as [|n]; [reflexivity|].
  cbn. destruct (scheduled r); [inversion H; subst; lia|].
  destruct (first_scheduled rs) as [j|] eqn:E; cbn in H; [|discriminate].
  inversion H; subst. rewrite (IH n j eq_refl); [reflexivity | lia].
Qed.

(** The loop with [n] rounds left on responses that are all 200. *)
Lemma job_status_loop_reads (host _job_id : string) (n : nat) :
  forall gets po pa de,
    Forall status_200 gets ->
    let r := job_status_loop host _job_id n (mkMock gets po pa de) in
    match first_scheduled (firstn n gets) with
    | Some k =>
        outcome r = Return tt /\
        requests_of (events r) = repeat (Get (job_url host _job_id)) k
    | None =>
        (n <= List.length gets)%nat ->
        outcome r = Exit 1 /\
        requests_of (events r) = repeat (Get (job_url host _job_id)) n
    end.
Proof.
  induction n as [|n IH]; intros gets po pa de Hall.
  - cbn. intros _. split; reflexivity.
  - destruct gets as [|r gets].
    + cbn. intros H. inversion H.
    + inversion Hall as [|? ? [Hs Hm] Hrest]; subst.
      destruct (message_of r) as [v|] eqn:Ev; [|contradiction Hm; reflexivity].
      cbv zeta. rewrite (job_status_round host _job_id n r v gets po pa de Hs Ev).
      cbn [firstn first_scheduled]. unfold scheduled. rewrite Ev.
      destruct (eq_str v TERMINAL_MESSAGE).
      * split; reflexivity.
      * specialize (IH gets po pa de Hrest). cbv zeta in IH.
        destruct (job_status_loop host _job_id n (mkMock gets po pa de)) as [[o m] t].
        unfold outcome, events in *. cbn [fst snd] in *.
        destruct (first_scheduled (firstn n gets)) as [k|]; cbn [option_map].
        -- destruct IH as [Ho Hr]. split; [exact Ho|].
           rewrite requests_of_app, Hr. reflexivity.
        -- intros Hlen. cbn in Hlen. destruct IH as [Ho Hr]; [lia|]. split; [exact Ho|].
           rewrite requests_of_app, Hr. reflexivity.
Qed.

(** C6: on job-status responses that all have HTTP status 200,
    [get_job_status] makes exactly [min k 10] reads, [k] being the position
    of the first response with the message "Task successfully scheduled.":
    it returns after exactly [k] reads when [k <= 10], and leaves with
    [sys.exit(1)] after exactly 10 reads when none of the first 10 messages
    is the terminal one. *)
Theorem get_job_status_reads (host _job_id : string) (gets po pa de : list Response) :
  Forall status_200 gets ->
  let r := get_job_status host _job_id (mkMock gets po pa de) in
  (forall k, first_scheduled gets = Some k ->
             requests_of (events r) = repeat (Get (job_url host _job_id)) (Nat.min k 10) /\
             outcome r = if (k <=? 10)%nat then Return tt else Exit 1) /\
  (first_scheduled (firstn 10 gets) = None -> (10 <= List.length gets)%nat ->
   requests_of (events r) = repeat (Get (job_url host _job_id)) 10 /\
   outcome r = Exit 1).
Proof.
  intros Hall r.
  pose proof (job_status_loop_reads host _job_id 10 gets po pa de Hall) as H.
  cbv zeta in H. fold (get_job_status host _job_id) in H. fold r in H.
  split.
  - intros k Hk. destruct (Nat.leb_spec k 10) as [Hle|Hgt].
    + rewrite (first_scheduled_firstn 10 k gets Hk Hle) in H.
      rewrite Nat.min_l by exact Hle. destruct H as [Ho Hr]. split; assumption.
    + rewrite (first_scheduled_beyond 10 k gets Hk Hgt) in H.
      pose proof (first_scheduled_bound gets k Hk) as Hb.
      rewrite Nat.min_r by lia. destruct H as [Ho Hr]; [lia|]. split; assumption.
  - intros Hnone Hlen. rewrite Hnone in H. destruct (H Hlen) as [Ho Hr]. split; assumption.
Qed.

Lemma get_job_status_reads_witness :
  let gets := [job_response "Pending"; job_response "Pending"; job_response TERMINAL_MESSAGE] in
  let r := get_job_status "idrac-r620" "JID_1" (mkMock gets [] [] []) in
  Forall status_200 gets /\
  requests_of (events r) = repeat (Get (job_url "idrac-r620" "JID_1")) 3 /\
  outcome r = Return tt.
Proof.
  assert (Hall : Forall status_200
                   [job_response "Pending"; job_response "Pending"; job_response TERMINAL_MESSAGE]).
  { repeat constructor; discriminate. }
  split; [exact Hall|].
  exact (proj1 (get_job_status_reads "idrac-r620" "JID_1" _ [] [] [] Hall) 3%nat eq_refl).
Defined.

Lemma io_of_app (t1 t2 : list Event) : io_of (t1 ++ t2) = io_of t1 ++ io_of t2.
Proof. unfold io_of. apply filter_app. Qed.

Lemma reads_with_delays_app (t1 t2 : list Event) :
  reads_with_delays (t1 ++ t2) = reads_with_delays t1 ++ reads_with_delays t2.
Proof. unfold reads_with_delays. apply flat_map_app. Qed.

Lemma sleeps_of_app (t1 t2 : list Event) : sleeps_of (t1 ++ t2) = sleeps_of t1 ++ sleeps_of t2.
Proof. unfold sleeps_of. apply flat_map_app. Qed.

Lemma reads_200_app (t1 t2 : list Event) : reads_200 (t1 ++ t2) = (reads_200 t1 + reads_200 t2)%nat.
Proof. unfold reads_200. rewrite filter_app. apply length_app. Qed.

(** Unfold the primitives of [M] in the goal. *)
Ltac run_prims :=
  unfold bind, requests_get, requests_post, requests_patch, requests_delete,
    response_json, getitem, log, time_sleep, sys_exit, ret, raise;
  cbn [on_get on_post on_patch on_delete].

Ltac timeline_done Es :=
  unfold events, io_of, reads_with_delays; cbn [snd filter flat_map app];
  rewrite ?Es; reflexivity.

Ltac sleeps_done Es :=
  unfold events, sleeps_of, reads_200;
  cbn [snd filter flat_map app List.length repeat Nat.add];
  rewrite ?Es; cbn [snd filter flat_map app List.length repeat Nat.add]; reflexivity.

(** Logs apart, a run of the loop is its reads, each 200 read followed at
    once by a sleep of 10. *)
Lemma job_status_loop_timeline (host _job_id : string) (n : nat) :
  forall m, io_of (events (job_status_loop host _job_id n m))
            = reads_with_delays (events (job_status_loop host _job_id n m)).
Proof.
  induction n as [|n IH]; intros [g po pa de]; [reflexivity|].
  destruct g as [|r g]; [reflexivity|].
  specialize (IH (mkMock g po pa de)).
  cbn [job_status_loop]. run_prims.
  destruct (status_code r =? 200) eqn:Es.
  - destruct (json r) as [[ | | | | |members]|]; try timeline_done Es.
    destruct (assoc "Message" members) as [v|]; [|timeline_done Es].
    destruct (eq_str v TERMINAL_MESSAGE); [timeline_done Es|].
    fold (log WARNING (Py.fmt ["- WARNING: JobStatus not scheduled, current status is: "; Repr.str v])).
    destruct (job_status_loop host _job_id n (mkMock g po pa de)) as [[o m] t].
    unfold events in *. cbn [snd] in *.
    rewrite !io_of_app, !reads_with_delays_app, IH.
    timeline_done Es.
  - destruct (json r) as [j|]; timeline_done Es.
Qed.

Lemma job_status_loop_sleeps (host _job_id : string) (n : nat) :
  forall m, sleeps_of (events (job_status_loop host _job_id n m))
            = repeat 10 (reads_200 (events (job_status_loop host _job_id n m))).
Proof.
  induction n as [|n IH]; intros [g po pa de]; [reflexivity|].
  destruct g as [|r g]; [reflexivity|].
  specialize (IH (mkMock g po pa de)).
  cbn [job_status_loop]. run_prims.
  destruct (status_code r =? 200) eqn:Es.
  - destruct (json r) as [[ | | | | |members]|]; try sleeps_done Es.
    destruct (assoc "Message" members) as [v|]; [|sleeps_done Es].
    destruct (eq_str v TERMINAL_MESSAGE); [sleeps_done Es|].
    fold (log WARNING (Py.fmt ["- WARNING: JobStatus not scheduled, current status is: "; Repr.str v])).
    destruct (job_status_loop host _job_id n (mkMock g po pa de)) as [[o m] t].
    unfold events in *. cbn [snd] in *.
    rewrite !sleeps_of_app, !reads_200_app, !repeat_app, IH.
    sleeps_done Es.
  - destruct (json r) as [j|]; sleeps_done Es.
Qed.

(** C9: in [get_job_status] the sleep of 10 follows every read that
    returns 200, before the message is looked at: logs apart, any run is its
    reads, each 200 read followed at once by [Sleep 10], so the number of
    sleeps is the number of 200 reads; and a run whose first response
    already carries the terminal message still sleeps once before it reports
    success. *)
Theorem get_job_status_delays (host _job_id : string) :
  (forall m, let t := events (get_job_status host _job_id m) in
             io_of t = reads_with_delays t /\
             sleeps_of t = repeat 10 (reads_200 t)) /\
  (forall r gets po pa de,
      status_code r = 200 -> scheduled r = true ->
      get_job_status host _job_id (mkMock (r :: gets) po pa de)
      = (Return tt, mkMock gets po pa de,
         [Http (Get (job_url host _job_id)) r;
          Log INFO "- PASS: Command passed to check job status, code 200 returned";
          Sleep 10;
          Log INFO (Py.fmt ["- PASS: job id "; _job_id; " successfully scheduled"])])).
Proof.
  split.
  - intros m. split.
    + apply job_status_loop_timeline.
    + apply job_status_loop_sleeps.
  - intros r gets po pa de Hs Hsch. unfold scheduled in Hsch.
    destruct (message_of r) as [v|] eqn:Ev; [|discriminate].
    unfold get_job_status.
    rewrite (job_status_round host _job_id 9 r v gets po pa de Hs Ev), Hsch. reflexivity.
Qed.

Lemma get_job_status_delays_witness :
  status_code (job_response TERMINAL_MESSAGE) = 200 /\
  scheduled (job_response TERMINAL_MESSAGE) = true /\
  sleeps_of (events (get_job_status "idrac-r620" "JID_1"
                       (mkMock [job_response TERMINAL_MESSAGE] [] [] []))) = [10].
Proof.
  split; [reflexivity|]. split; [reflexivity|].
  rewrite (proj2 (get_job_status_delays "idrac-r620" "JID_1")
             (job_response TERMINAL_MESSAGE) [] [] [] [] eq_refl eq_refl).
  reflexivity.
Defined.

(* ================================================================== *)
(** ** Draining the job queue: [clear_job_queue] *)
(* ================================================================== *)

Lemma requests_of_log (l : Level) (s : string) (t : list Event) :
  requests_of (Log l s :: t) = requests_of t.
Proof. reflexivity. Qed.

Lemma requests_of_sleep (n : Z) (t : list Event) : requests_of (Sleep n :: t) = requests_of t.
Proof. reflexivity. Qed.

Lemma requests_of_http (rq : Request) (rs : Response) (t : list Event) :
  requests_of (Http rq rs :: t) = rq :: requests_of t.
Proof. reflexivity. Qed.

Lemma requests_of_nil : requests_of [] = [].
Proof. reflexivity. Qed.

Create Rewrite HintDb trace.
#[local] Hint Rewrite requests_of_app requests_of_log requests_of_sleep requests_of_http
  requests_of_nil app_nil_r : trace.

Lemma logs_of_app (t1 t2 : list Event) : logs_of (t1 ++ t2) = logs_of t1 ++ logs_of t2.
Proof. unfold logs_of. apply flat_map_app. Qed.

Lemma logs_of_http (rq : Request) (rs : Response) (t : list Event) :
  logs_of (Http rq rs :: t) = logs_of t.
Proof. reflexivity. Qed.

Lemma logs_of_log (l : Level) (s : string) (t : list Event) :
  logs_of (Log l s :: t) = (l, s) :: logs_of t.
Proof. reflexivity. Qed.

Lemma delete_jobs_run (host : string) (q : list string) :
  forall ds ds' g po pa,
    List.length ds = List.length q ->
    delete_jobs (jobs_url host) q (mkMock g po pa (ds ++ ds'))
    = (Return tt, mkMock g po pa ds', deletions host q ds).
Proof.
  induction q as [|j q IH]; intros ds ds' g po pa Hlen.
  - destruct ds; [reflexivity | discriminate].
  - destruct ds as [|d ds]; [discriminate|].
    cbn [delete_jobs]. unfold bind at 1. cbn [requests_delete on_get on_post on_patch on_delete app].
    rewrite IH by (cbn in Hlen; lia). reflexivity.
Qed.

Lemma requests_of_deletions (host : string) (q : list string) :
  forall ds, List.length ds = List.length q ->
  requests_of (deletions host q ds) = map (fun j => Delete (delete_url host j)) q.
Proof.
  induction q as [|j q IH]; intros [|d ds] Hlen; try discriminate; [reflexivity|].
  unfold deletions in *. cbn. f_equal. apply IH. cbn in Hlen. lia.
Qed.

(** The three ways a run on a non-empty queue ends once the deletions are
    answered: the outcome depends on the re-query alone. *)
Lemma clear_job_queue_run (host : string) (j : string) (q : list string)
      (ds ds' : list Response) (rq : Response) (g po pa : list Response) :
  List.length ds = List.length (j :: q) ->
  let start := Log WARNING (Py.fmt [String Py.newline "- WARNING, clearing job queue for job IDs: ";
                                    Repr.repr (JArr (map JStr (j :: q)));
                                    String Py.newline EmptyString]) in
  let sent := start :: deletions host (j :: q) ds ++ [Http (Get (jobs_url host)) rq] in
  clear_job_queue host (j :: q) (mkMock (rq :: g) po pa (ds ++ ds'))
  = match json rq with
    | None => (Raise ValueError, mkMock g po pa ds', sent)
    | Some doc =>
        match Py.re_findall_JID "'" (Repr.str doc) with
        | [] =>
            (Return tt, mkMock g po pa ds',
             sent ++ [Log INFO (Py.fmt ["- PASS, job queue for iDRAC "; host; " successfully cleared"])])
        | job_queue =>
            (Exit 1, mkMock g po pa ds',
             sent ++ [Log ERROR (Py.fmt ["- FAIL, job queue not cleared, current job queue contains jobs: ";
                                         Repr.repr (JArr (map JStr job_queue))])])
        end
    end.
Proof.
  intros Hlen start sent. subst start sent.
  unfold clear_job_queue. cbv iota. unfold bind at 1. cbn [log].
  unfold bind at 1. rewrite (delete_jobs_run host (j :: q) ds ds' (rq :: g) po pa Hlen).
  unfold get_job_queue. run_prims.
  destruct (json rq) as [doc|].
  - destruct (Py.re_findall_JID "'" (Repr.str doc)) as [|left_over more];
      cbn [app]; rewrite ?app_nil_r, <- ?app_assoc; reflexivity.
  - cbn [app]. rewrite ?app_nil_r. reflexivity.
Qed.

Lemma get_job_queue_run (host : string) (rq : Response) (g po pa de : list Response) :
  get_job_queue host (mkMock (rq :: g) po pa de)
  = match json rq with
    | None => (Raise ValueError, mkMock g po pa de, [Http (Get (jobs_url host)) rq])
    | Some doc => (Return (Py.re_findall_JID "'" (Repr.str doc)), mkMock g po pa de,
                   [Http (Get (jobs_url host)) rq])
    end.
Proof. unfold get_job_queue. run_prims. destruct (json rq); reflexivity. Qed.

(** C10: [clear_job_queue] never looks at the responses of its DELETE
    requests.  On an empty list it sends nothing and returns.  On a
    non-empty list, whatever the deletions answer ([ds] is arbitrary), it
    sends one DELETE per identifier, then re-queries the queue once; it
    returns exactly when the re-query finds no job, and the process ends
    with status 1 otherwise. *)
Theorem clear_job_queue_ignores_deletes (host : string) :
  (forall m, outcome (clear_job_queue host [] m) = Return tt /\
             requests_of (events (clear_job_queue host [] m)) = []) /\
  (forall q ds ds' rq g po pa,
      q <> [] -> List.length ds = List.length q ->
      let r := clear_job_queue host q (mkMock (rq :: g) po pa (ds ++ ds')) in
      let requery := get_job_queue host (mkMock (rq :: g) po pa ds') in
      requests_of (events r)
      = map (fun j => Delete (delete_url host j)) q ++ [Get (jobs_url host)] /\
      (outcome r = Return tt <-> outcome requery = Return []) /\
      (outcome requery <> Return [] -> exit_status (outcome r) = Some 1)).
Proof.
  split.
  - intros m. split; reflexivity.
  - intros q ds ds' rq g po pa Hq Hlen r requery. subst r requery.
    destruct q as [|j q]; [contradiction Hq; reflexivity|].
    pose proof (clear_job_queue_run host j q ds ds' rq g po pa Hlen) as Hrun. cbv zeta in Hrun.
    rewrite Hrun, get_job_queue_run. clear Hrun.
    pose proof (requests_of_deletions host (j :: q) ds Hlen) as Hd.
    destruct (json rq) as [doc|].
    + destruct (Py.re_findall_JID "'" (Repr.str doc)) as [|left_over more];
        unfold outcome, events; cbn [fst snd]; autorewrite with trace; rewrite Hd.
      * split; [reflexivity|]. split; [split; reflexivity|]. intros H. contradiction H. reflexivity.
      * split; [reflexivity|]. split; [split; discriminate|]. reflexivity.
    + unfold outcome, events; cbn [fst snd]; autorewrite with trace; rewrite Hd.
      split; [reflexivity|]. split; [split; discriminate|]. reflexivity.
Qed.

Lemma clear_job_queue_ignores_deletes_witness :
  let q := ["JID_1'"; "JID_2'"] in
  let ds := [mkResponse 500 None "error"; mkResponse 404 None "gone"] in
  let rq := mkResponse 200 (Some (JObj [("Members", JArr [])])) "{}" in
  q <> [] /\ List.length ds = List.length q /\
  requests_of (events (clear_job_queue "idrac-r620" q (mkMock [rq] [] [] (ds ++ []))))
  = map (fun j => Delete (delete_url "idrac-r620" j)) q ++ [Get (jobs_url "idrac-r620")].
Proof.
  split; [discriminate|]. split; [reflexivity|].
  exact (proj1 (proj2 (clear_job_queue_ignores_deletes "idrac-r620")
                  ["JID_1'"; "JID_2'"]
                  [mkResponse 500 None "error"; mkResponse 404 None "gone"] []
                  (mkResponse 200 (Some (JObj [("Members", JArr [])])) "{}") [] [] []
                  ltac:(discriminate) eq_refl)).
Defined.

(* ================================================================== *)
(** ** Job creation: [create_bios_config_job] *)
(* ================================================================== *)

(** C7: the specification asks for a logged diagnostic and a fatal exit when a
    successful job-creation response holds no job identifier.  The code
    has no such branch: [re.search] returns [None], [.group()] raises, and
    the run ends in an uncaught [AttributeError] right after the PASS line,
    with no error line and no [sys.exit(1)]. *)
Theorem create_bios_config_job_without_id (host uri : string) (r : Response)
        (g po pa de : list Response) :
  status_code r = 200 ->
  Py.re_search_JID "," (dict_str r) = None ->
  create_bios_config_job host uri (mkMock g (r :: po) pa de)
  = (Raise AttributeError, mkMock g po pa de,
     [Http (Post (jobs_url host) (JObj [("TargetSettingsURI", JStr uri)])) r;
      Log INFO "- PASS: POST command passed to create target config job, status code 200 returned."]).
Proof.
  intros Hs Hnone. unfold create_bios_config_job. run_prims.
  rewrite Hs, Hnone. reflexivity.
Qed.

Lemma create_bios_config_job_without_id_witness :
  let r := mkResponse 200 (Some (JObj []))
             "{'status_code': 200, 'headers': {'Location': '/redfish/v1/TaskService/Tasks/42'}}" in
  let run := create_bios_config_job "idrac-r620" BIOS_URI (mkMock [] [r] [] []) in
  outcome run = Raise AttributeError /\
  logs_of (events run)
  = [(INFO, "- PASS: POST command passed to create target config job, status code 200 returned.")].
Proof.
  cbv zeta.
  rewrite (create_bios_config_job_without_id "idrac-r620" BIOS_URI
             (mkResponse 200 (Some (JObj []))
                "{'status_code': 200, 'headers': {'Location': '/redfish/v1/TaskService/Tasks/42'}}")
             [] [] [] [] eq_refl eq_refl).
  split; reflexivity.
Defined.

(* ================================================================== *)
(** ** The power cycle: [reboot_server] *)
(* ================================================================== *)

Lemma reset_types_of_app (t1 t2 : list Event) :
  reset_types_of (t1 ++ t2) = reset_types_of t1 ++ reset_types_of t2.
Proof. unfold reset_types_of. apply flat_map_app. Qed.

Lemma power_state_of_inv (r : Response) (v : Json) :
  power_state_of r = Some v ->
  exists members, json r = Some (JObj members) /\ assoc "PowerState" members = Some v.
Proof.
  unfold power_state_of. destruct (json r) as [[ | | | | | members]|]; try discriminate.
  intros H. exists members. split; [reflexivity | exact H].
Qed.

(** The three rounds of the loop that go on or end well. *)
Lemma wait_for_off_done (host : string) (fuel : nat) (count : Z) (r : Response)
      (g po pa de : list Response) :
  reads_off r = true ->
  wait_for_off host (S fuel) count (mkMock (r :: g) po pa de)
  = (Return tt, mkMock g po pa de,
     [Http (Get (system_url host)) r;
      Log INFO "- PASS: GET command passed to verify server is in OFF state"]).
Proof.
  unfold reads_off. intros H. destruct (power_state_of r) as [v|] eqn:Ev; [|discriminate].
  destruct (power_state_of_inv r v Ev) as [members [Hj Ha]].
  cbn [wait_for_off]. run_prims. rewrite Hj, Ha, H. reflexivity.
Qed.

Lemma wait_for_off_sleep (host : string) (fuel : nat) (count : Z) (r : Response)
      (g po pa de : list Response) :
  still_up r -> count <> 10 ->
  wait_for_off host (S fuel) count (mkMock (r :: g) po pa de)
  = let '(o, m, t) := wait_for_off host fuel (count + 1) (mkMock g po pa de) in
    (o, m, [Http (Get (system_url host)) r; Sleep 1] ++ t).
Proof.
  intros [v [Ev Hup]] Hc. destruct (power_state_of_inv r v Ev) as [members [Hj Ha]].
  cbn [wait_for_off]. run_prims. rewrite Hj, Ha, Hup.
  destruct (Z.eqb_spec count 10) as [E|_]; [contradiction|].
  destruct (wait_for_off host fuel (count + 1) (mkMock g po pa de)) as [[o m] t]. reflexivity.
Qed.

Lemma wait_for_off_force (host : string) (fuel : nat) (r f : Response)
      (g po pa de : list Response) :
  still_up r -> status_code f = 204 ->
  wait_for_off host (S fuel) 10 (mkMock (r :: g) (f :: po) pa de)
  = let '(o, m, t) := wait_for_off host fuel 10 (mkMock g po pa de) in
    (o, m,
     [Http (Get (system_url host)) r;
      Log WARNING "- WARNING: unable to graceful shutdown the server, will perform forced shutdown now";
      Http (Post (reset_url host) (JObj [("ResetType", JStr "ForceOff")])) f;
      Log INFO (Py.fmt ["- PASS: Command passed to forcefully power OFF server, code return is ";
                        Py.str_of_int (status_code f)]);
      Sleep 10] ++ t).
Proof.
  intros [v [Ev Hup]] Hf. destruct (power_state_of_inv r v Ev) as [members [Hj Ha]].
  cbn [wait_for_off]. run_prims. rewrite Hj, Ha, Hup. change (10 =? 10) with true.
  cbn [on_get on_post on_patch on_delete]. rewrite Hf. change (204 =? 204) with true.
  cbn [on_get on_post on_patch on_delete].
  destruct (wait_for_off host fuel 10 (mkMock g po pa de)) as [[o m] t]. reflexivity.
Qed.

(** With the budget spent ([count = 10]) every poll that is not [Off]
    sends a [ForceOff] and the loop polls again. *)
Lemma wait_for_off_forced (host : string) (r_off : Response) (g po pa de : list Response) :
  reads_off r_off = true ->
  forall polls forces fuel,
    Forall still_up polls ->
    Forall (fun f => status_code f = 204) forces ->
    List.length forces = List.length polls ->
    (List.length polls < fuel)%nat ->
    exists t,
      wait_for_off host fuel 10 (mkMock (polls ++ r_off :: g) (forces ++ po) pa de)
      = (Return tt, mkMock g po pa de, t) /\
      reset_types_of t = repeat "ForceOff" (List.length polls).
Proof.
  intros Hoff. induction polls as [|p polls IH]; intros forces fuel Hup Hf Hlen Hfuel.
  - destruct forces; [|discriminate]. destruct fuel as [|fuel]; [inversion Hfuel|].
    cbn [app]. rewrite (wait_for_off_done host fuel 10 r_off g po pa de Hoff).
    eexists. split; reflexivity.
  - destruct forces as [|f forces]; [discriminate|]. destruct fuel as [|fuel]; [inversion Hfuel|].
    inversion Hup as [|? ? Hp Hup']; subst. inversion Hf as [|? ? Hf1 Hf']; subst.
    cbn [app]. rewrite (wait_for_off_force host fuel p f _ _ pa de Hp Hf1).
    destruct (IH forces fuel Hup' Hf') as [t [Hrun Ht]]; [cbn in Hlen; lia | cbn in Hfuel; lia |].
    rewrite Hrun. eexists. split; [reflexivity|].
    rewrite reset_types_of_app, Ht. reflexivity.
Qed.

(** From [count <= 10]: the first [10 - count] polls that are not [Off]
    only sleep, each later one sends a [ForceOff]. *)
Lemma wait_for_off_budget (host : string) (r_off : Response) (g po pa de : list Response) :
  reads_off r_off = true ->
  forall polls count forces fuel,
    0 <= count <= 10 ->
    Forall still_up polls ->
    Forall (fun f => status_code f = 204) forces ->
    List.length forces = (List.length polls - Z.to_nat (10 - count))%nat ->
    (List.length polls < fuel)%nat ->
    exists t,
      wait_for_off host fuel count (mkMock (polls ++ r_off :: g) (forces ++ po) pa de)
      = (Return tt, mkMock g po pa de, t) /\
      reset_types_of t = repeat "ForceOff" (List.length forces).
Proof.
  intros Hoff. induction polls as [|p polls IH]; intros count forces fuel Hc Hup Hf Hlen Hfuel.
  - destruct forces; [|discriminate]. destruct fuel as [|fuel]; [inversion Hfuel|].
    cbn [app]. rewrite (wait_for_off_done host fuel count r_off g po pa de Hoff).
    eexists. split; reflexivity.
  - destruct (Z.eq_dec count 10) as [E|E].
    + subst count. rewrite Hlen. change (Z.to_nat (10 - 10)) with 0%nat. rewrite Nat.sub_0_r.
      apply (wait_for_off_forced host r_off g po pa de Hoff (p :: polls) forces fuel Hup Hf);
        [rewrite Hlen; change (Z.to_nat (10 - 10)) with 0%nat; lia | exact Hfuel].
    + destruct fuel as [|fuel]; [inversion Hfuel|].
      inversion Hup as [|? ? Hp Hup']; subst.
      cbn [app]. rewrite (wait_for_off_sleep host fuel count p _ _ pa de Hp E).
      destruct (IH (count + 1) forces fuel) as [t [Hrun Ht]];
        [lia | exact Hup' | exact Hf | cbn [List.length] in Hlen; lia | cbn in Hfuel; lia |].
      rewrite Hrun. eexists. split; [reflexivity|].
      rewrite reset_types_of_app, Ht. reflexivity.
Qed.

(** C1, as the code has it: with the server [On] and the graceful reset
    answered by 204, the first 10 polls that do not read [Off] only wait,
    and every later poll that does not read [Off] sends a [ForceOff] (the
    loop polls again after each one).  So [n] such polls before [Off] is
    read give [n - 10] forced power-offs (none up to 10 polls, exactly one
    for 11), and then exactly one power-On is sent. *)
Theorem reboot_server_escalation (host : string) (n fuel : nat)
        (r_on r_off r_graceful r_power_on : Response) (polls forces g po pa de : list Response) :
  power_state_of r_on = Some (JStr "On") ->
  status_code r_graceful = 204 ->
  List.length polls = n ->
  Forall still_up polls ->
  reads_off r_off = true ->
  Forall (fun f => status_code f = 204) forces ->
  List.length forces = (n - 10)%nat ->
  status_code r_power_on = 204 ->
  (n < fuel)%nat ->
  let r := reboot_server host fuel
             (mkMock (r_on :: polls ++ r_off :: g)
                     (r_graceful :: forces ++ r_power_on :: po) pa de) in
  outcome r = Return tt /\
  reset_types_of (events r) = "GracefulRestart" :: repeat "ForceOff" (n - 10) ++ ["On"].
Proof.
  intros Hon Hg Hn Hup Hoff Hf Hlen Hp Hfuel r. subst r.
  destruct (power_state_of_inv r_on _ Hon) as [members [Hj Ha]].
  destruct (wait_for_off_budget host r_off g (r_power_on :: po) pa de Hoff polls 0 forces fuel)
    as [t [Hrun Ht]]; [lia | exact Hup | exact Hf | | lia |].
  { rewrite Hlen, Hn. reflexivity. }
  unfold reboot_server, power_on. run_prims. rewrite Hj, Ha. cbn [eq_str String.eqb Ascii.eqb Bool.eqb].
  cbn [on_get on_post on_patch on_delete]. rewrite Hg. change (204 =? 204) with true.
  cbn [on_get on_post on_patch on_delete]. rewrite Hrun.
  cbn [on_get on_post on_patch on_delete]. rewrite Hp. change (204 =? 204) with true.
  unfold outcome, events. cbn [fst snd]. split; [reflexivity|].
  rewrite !reset_types_of_app, Ht, Hlen. reflexivity.
Qed.

Lemma reboot_server_escalation_witness :
  let r := reboot_server "idrac-r620" 12
             (mkMock (power_response "On" :: repeat (power_response "On") 11
                        ++ power_response "Off" :: [])
                     (no_content :: [no_content] ++ no_content :: []) [] []) in
  outcome r = Return tt /\
  reset_types_of (events r) = ["GracefulRestart"; "ForceOff"; "On"].
Proof.
  apply (reboot_server_escalation "idrac-r620" 11 12
           (power_response "On") (power_response "Off") no_content no_content
           (repeat (power_response "On") 11) [no_content] [] [] [] []);
    try reflexivity; try lia.
  - repeat constructor; exists (JStr "On"); split; reflexivity.
  - repeat constructor.
Defined.

(** C1 as the specification words it fails on the code both ways: twelve polls that read
    [On] send two forced power-offs, and ten polls that read [On] followed
    by [Off] send none. *)
Lemma reboot_server_escalation_counterexample :
  let twelve := repeat (power_response "On") 12 ++ [power_response "Off"] in
  let ten := repeat (power_response "On") 10 ++ [power_response "Off"] in
  let run polls := reboot_server "idrac-r620" 20
                     (mkMock (power_response "On" :: polls) (repeat no_content 4) [] []) in
  firstn 10 twelve = repeat (power_response "On") 10 /\
  firstn 10 ten = repeat (power_response "On") 10 /\
  outcome (run twelve) = Return tt /\
  reset_types_of (events (run twelve)) = ["GracefulRestart"; "ForceOff"; "ForceOff"; "On"] /\
  outcome (run ten) = Return tt /\
  reset_types_of (events (run ten)) = ["GracefulRestart"; "On"].
Proof. vm_compute. repeat split. Qed.

(* ================================================================== *)
(** ** Reading the boot devices *)
(* ================================================================== *)

(** *** Entries and the devices they show *)

Lemma devices_of_json_of_device (devices : list BootDevice) :
  devices_of_json (map json_of_device devices) = Some devices.
Proof.
  induction devices as [|[name index] devices IH]; [reflexivity|].
  cbn [map devices_of_json]. rewrite IH. reflexivity.
Qed.

Lemma assoc_dict_set_same {A : Type} (k : string) (v : A) (d : list (string * A)) :
  assoc k (dict_set d k v) = Some v.
Proof.
  induction d as [|[k0 v0] d IH]; cbn [dict_set assoc].
  - rewrite String.eqb_refl. reflexivity.
  - destruct (String.eqb k k0) eqn:E; cbn [assoc].
    + rewrite String.eqb_refl. reflexivity.
    + rewrite E. exact IH.
Qed.

Lemma assoc_dict_set_other {A : Type} (k k' : string) (v : A) (d : list (string * A)) :
  k' <> k -> assoc k' (dict_set d k v) = assoc k' d.
Proof.
  intros Hne. assert (Hb : String.eqb k' k = false) by (apply String.eqb_neq; exact Hne).
  induction d as [|[k0 v0] d IH]; cbn [dict_set assoc].
  - rewrite Hb. reflexivity.
  - destruct (String.eqb k k0) eqn:E; cbn [assoc].
    + apply String.eqb_eq in E. subst k0. rewrite Hb. reflexivity.
    + destruct (String.eqb k' k0); [reflexivity | exact IH].
Qed.

Lemma dict_set_twice {A : Type} (k : string) (v w : A) (d : list (string * A)) :
  dict_set (dict_set d k v) k w = dict_set d k w.
Proof.
  induction d as [|[k0 v0] d IH]; cbn [dict_set].
  - rewrite String.eqb_refl. reflexivity.
  - destruct (String.eqb k k0) eqn:E; cbn [dict_set].
    + rewrite String.eqb_refl. reflexivity.
    + rewrite E, IH. reflexivity.
Qed.

Lemma set_index_twice (e : Json) (i j : Z) : set_index (set_index e i) j = set_index e j.
Proof. destruct e; try reflexivity. cbn [set_index]. rewrite dict_set_twice. reflexivity. Qed.

(** An entry keeps every member but [Index] when it is renumbered. *)
Lemma subscript_set_index (e : Json) (i : Z) (k : string) :
  k <> "Index" -> subscript (set_index e i) k = subscript e k.
Proof.
  intros Hne. destruct e; try reflexivity. cbn [set_index subscript].
  rewrite assoc_dict_set_other by exact Hne. reflexivity.
Qed.

Lemma shows_inv (e : Json) (d : BootDevice) :
  shows e d ->
  exists members, e = JObj members /\
                  assoc "Name" members = Some (JStr (Name d)) /\
                  assoc "Index" members = Some (JNum (Index d)).
Proof.
  unfold shows. destruct e as [| | | | |members]; try discriminate. cbn [device_of_json].
  destruct (assoc "Name" members) as [[| | |n| |]|] eqn:En; try discriminate.
  destruct (assoc "Index" members) as [[| |i| | |]|] eqn:Ei; try discriminate.
  intros [= <-]. exists members. cbn [Name Index]. repeat split; assumption.
Qed.

Lemma shows_reads (e : Json) (d : BootDevice) :
  shows e d ->
  subscript e "Name" = Ok (JStr (Name d)) /\ subscript e "Index" = Ok (JNum (Index d)).
Proof.
  intros H. destruct (shows_inv e d H) as [members [-> [Hn Hi]]].
  cbn [subscript]. rewrite Hn, Hi. split; reflexivity.
Qed.

Lemma shows_set_index (e : Json) (d : BootDevice) (i : Z) :
  shows e d -> shows (set_index e i) (set_Index d i).
Proof.
  intros H. destruct (shows_inv e d H) as [members [-> [Hn Hi]]].
  unfold shows. cbn [set_index device_of_json].
  rewrite assoc_dict_set_other by discriminate. rewrite assoc_dict_set_same, Hn. reflexivity.
Qed.

Lemma shows_json_of_device (d : BootDevice) : shows (json_of_device d) d.
Proof. destruct d. reflexivity. Qed.

Lemma Forall2_shows (entries : list Json) (devices : list BootDevice) :
  Forall2 shows entries devices <-> devices_of_json entries = Some devices.
Proof.
  split.
  - induction 1 as [|e d entries devices Hed _ IH]; [reflexivity|].
    cbn [devices_of_json]. unfold shows in Hed. rewrite Hed, IH. reflexivity.
  - revert devices. induction entries as [|e entries IH]; intros devices H.
    + injection H as <-. constructor.
    + cbn [devices_of_json] in H. destruct (device_of_json e) as [d|] eqn:Ed; [|discriminate].
      destruct (devices_of_json entries) as [ds|]; [|discriminate].
      injection H as <-. constructor; [exact Ed | apply IH; reflexivity].
Qed.

Section Entries.

(** A way to read an entry as a device that the two members bear out and
    that a new index preserves: the entries [shows] relates, or only those
    made of the two members. *)
Variable R : Json -> BootDevice -> Prop.
Hypothesis R_reads : forall e d, R e d ->
  subscript e "Name" = Ok (JStr (Name d)) /\ subscript e "Index" = Ok (JNum (Index d)).
Hypothesis R_set : forall e d i, R e d -> R (set_index e i) (set_Index d i).

Lemma assign_first_entry_refines (name : string) (i : Z)
      (entries : list Json) (devices : list BootDevice) :
  Forall2 R entries devices ->
  exists entries',
    assign_first_entry name i entries = Ok (entries', snd (assign_first name i devices)) /\
    Forall2 R entries' (fst (assign_first name i devices)).
Proof.
  induction 1 as [|e d entries devices Hed Hrest IH].
  - exists []. split; [reflexivity | constructor].
  - cbn [assign_first_entry assign_first].
    destruct (R_reads _ _ Hed) as [Hn Hi]. rewrite Hn. cbn [eq_str].
    rewrite (String.eqb_sym (Name d) name). destruct (String.eqb name (Name d)).
    + rewrite Hi. unfold eq_int. cbn [as_int]. destruct (Index d =? i); cbn [negb fst snd].
      * eexists. split; [reflexivity | constructor; assumption].
      * eexists. split; [reflexivity|]. constructor; [apply R_set; assumption | assumption].
    + destruct IH as [entries' [Heq HF]]. rewrite Heq.
      destruct (assign_first name i devices) as [rest' c]. cbn [fst snd] in *.
      eexists. split; [reflexivity|]. constructor; assumption.
Qed.

Lemma reorder_entries_from_refines (interfaces : list string) :
  forall (i : nat) (entries : list Json) (devices : list BootDevice) (change : bool),
  Forall2 R entries devices ->
  exists entries',
    reorder_entries_from i interfaces entries change
    = Ok (entries', snd (reorder_from i interfaces devices change)) /\
    Forall2 R entries' (fst (reorder_from i interfaces devices change)).
Proof.
  induction interfaces as [|name rest IH]; intros i entries devices change HF.
  - exists entries. split; [reflexivity | exact HF].
  - cbn [reorder_entries_from reorder_from].
    destruct (assign_first_entry_refines name (Z.of_nat i) entries devices HF)
      as [entries1 [Heq HF1]].
    rewrite Heq. destruct (assign_first name (Z.of_nat i) devices) as [devices1 c].
    cbn [fst snd] in *. apply IH. exact HF1.
Qed.

(** On a list of such entries the two loops of the program do what
    [reorder] does to the devices. *)
Lemma reorder_boot_devices_refines (interfaces : list string)
      (entries : list Json) (devices : list BootDevice) :
  Forall2 R entries devices ->
  exists entries',
    reorder_boot_devices interfaces (JArr entries)
    = Ok (JArr entries', snd (reorder interfaces devices)) /\
    Forall2 R entries' (fst (reorder interfaces devices)).
Proof.
  intros HF. unfold reorder_boot_devices, reorder. destruct interfaces as [|name rest].
  - exists entries. split; [reflexivity | exact HF].
  - cbn [iterate].
    destruct (reorder_entries_from_refines (name :: rest) 0 entries devices false HF)
      as [entries' [Heq HF']].
    rewrite Heq. exists entries'. split; [reflexivity | exact HF'].
Qed.

Lemma keys_of_refines (entries : list Json) (devices : list BootDevice) :
  Forall2 R entries devices ->
  keys_of entries = Ok (map (fun d => JNum (Index d)) devices).
Proof.
  induction 1 as [|e d entries devices Hed _ IH]; [reflexivity|].
  cbn [keys_of map]. destruct (R_reads _ _ Hed) as [_ Hi]. rewrite Hi, IH. reflexivity.
Qed.

Lemma insert_by_key_refines (e : Json) (d : BootDevice)
      (pairs : list (Json * Json)) (devices : list BootDevice) :
  R e d ->
  Forall2 (fun p d => fst p = JNum (Index d) /\ R (snd p) d) pairs devices ->
  Forall2 (fun p d => fst p = JNum (Index d) /\ R (snd p) d)
          (insert_by_key (JNum (Index d), e) pairs) (insert_by_index d devices).
Proof.
  intros Hed. induction 1 as [|[k e'] d' pairs devices [Hk Hd'] Hrest IH].
  - constructor; [split; [reflexivity | exact Hed] | constructor].
  - cbn [insert_by_key insert_by_index fst snd] in *. subst k.
    unfold stays_before. cbn [py_lt as_int].
    destruct (Index d <=? Index d') eqn:E.
    + assert (Hlt : (Index d' <? Index d) = false) by lia. rewrite Hlt.
      constructor; [split; [reflexivity | exact Hed]|].
      constructor; [split; [reflexivity | exact Hd'] | exact Hrest].
    + assert (Hlt : (Index d' <? Index d) = true) by lia. rewrite Hlt.
      constructor; [split; [reflexivity | exact Hd'] | exact IH].
Qed.

Lemma sort_by_key_refines (entries : list Json) (devices : list BootDevice) :
  Forall2 R entries devices ->
  Forall2 (fun p d => fst p = JNum (Index d) /\ R (snd p) d)
          (sort_by_key (combine (map (fun d => JNum (Index d)) devices) entries))
          (sorted_by_index devices).
Proof.
  induction 1 as [|e d entries devices Hed _ IH]; [constructor|].
  cbn [map combine sort_by_key sorted_by_index].
  apply insert_by_key_refines; assumption.
Qed.

Lemma all_comparable_numbers (devices : list BootDevice) :
  all_comparable (map (fun d => JNum (Index d)) devices) = true.
Proof.
  induction devices as [|d devices IH]; [reflexivity|].
  cbn [map all_comparable]. rewrite IH, andb_true_r.
  apply forallb_forall. intros k Hk. apply in_map_iff in Hk. destruct Hk as [d' [<- _]].
  reflexivity.
Qed.

(** Sorting such entries sorts the devices. *)
Lemma sorted_entries_refines (entries : list Json) (devices : list BootDevice) :
  Forall2 R entries devices ->
  exists entries',
    sorted_entries entries = Ok entries' /\ Forall2 R entries' (sorted_by_index devices).
Proof.
  intros HF. unfold sorted_entries. rewrite (keys_of_refines _ _ HF).
  rewrite all_comparable_numbers, orb_true_r.
  eexists. split; [reflexivity|].
  pose proof (sort_by_key_refines entries devices HF) as H.
  induction H as [|p d pairs sorted [_ Hp] _ IH]; [constructor|].
  cbn [map]. constructor; assumption.
Qed.

End Entries.

Lemma Forall2_json_of_device (entries : list Json) (devices : list BootDevice) :
  Forall2 (fun e d => e = json_of_device d) entries devices <-> entries = map json_of_device devices.
Proof.
  split.
  - induction 1 as [|e d entries devices -> _ IH]; [reflexivity|]. cbn [map]. rewrite IH. reflexivity.
  - intros ->. induction devices as [|d devices IH]; constructor; [reflexivity | exact IH].
Qed.

Lemma set_index_json_of_device (d : BootDevice) (i : Z) :
  set_index (json_of_device d) i = json_of_device (set_Index d i).
Proof. destruct d. reflexivity. Qed.

(** The documents made of the two members only. *)
Lemma reorder_boot_devices_of_devices (interfaces : list string) (devices : list BootDevice) :
  reorder_boot_devices interfaces (JArr (map json_of_device devices))
  = Ok (JArr (map json_of_device (fst (reorder interfaces devices))),
        snd (reorder interfaces devices)).
Proof.
  destruct (reorder_boot_devices_refines (fun e d => e = json_of_device d)) with
    (interfaces := interfaces) (entries := map json_of_device devices) (devices := devices)
    as [entries' [Heq HF]].
  - intros e d ->. apply shows_reads, shows_json_of_device.
  - intros e d i ->. apply set_index_json_of_device.
  - apply Forall2_json_of_device. reflexivity.
  - apply Forall2_json_of_device in HF. rewrite Heq, HF. reflexivity.
Qed.

Lemma sorted_entries_of_devices (devices : list BootDevice) :
  sorted_entries (map json_of_device devices)
  = Ok (map json_of_device (sorted_by_index devices)).
Proof.
  destruct (sorted_entries_refines (fun e d => e = json_of_device d)) with
    (entries := map json_of_device devices) (devices := devices) as [entries' [Heq HF]].
  - intros e d ->. apply shows_reads, shows_json_of_device.
  - apply Forall2_json_of_device. reflexivity.
  - apply Forall2_json_of_device in HF. rewrite Heq, HF. reflexivity.
Qed.

(** *** The two reads *)

Lemma subscript_inv (d : Json) (k : string) (v : Json) :
  subscript d k = Ok v -> exists members, d = JObj members /\ assoc k members = Some v.
Proof.
  destruct d as [| | | | |members]; try discriminate. cbn [subscript].
  destruct (assoc k members) eqn:E; [|discriminate]. intros [= ->]. exists members. split; trivial.
Qed.

Lemma getitem_subscript (d : Json) (k : string) (v : Json) :
  subscript d k = Ok v -> getitem d k = ret v.
Proof.
  intros H. destruct (subscript_inv d k v H) as [members [-> E]].
  cbn [getitem]. rewrite E. reflexivity.
Qed.

Lemma get_bios_boot_mode_reads (host : string) (document attributes mode : Json) (r : Response)
      (g po pa de : list Response) :
  json r = Some document ->
  subscript document "Attributes" = Ok attributes ->
  subscript attributes "BootMode" = Ok mode ->
  get_bios_boot_mode host (mkMock (r :: g) po pa de)
  = (Return mode, mkMock g po pa de, [Http (Get (bios_url host)) r]).
Proof.
  intros Hj Ha Hm.
  destruct (subscript_inv _ _ _ Ha) as [members [-> Ea]].
  destruct (subscript_inv _ _ _ Hm) as [members' [-> Em]].
  unfold get_bios_boot_mode, try_except_ValueError. run_prims.
  rewrite Hj, Ea, Em. reflexivity.
Qed.

Lemma get_bios_boot_mode_run (host : string) (mode : Json) (r : Response)
      (g po pa de : list Response) :
  json r = Some (bios_document mode) ->
  get_bios_boot_mode host (mkMock (r :: g) po pa de)
  = (Return mode, mkMock g po pa de, [Http (Get (bios_url host)) r]).
Proof.
  intros Hj.
  apply (get_bios_boot_mode_reads host (bios_document mode) (JObj [("BootMode", mode)]) mode r);
    trivial.
Qed.

Lemma get_boot_devices_reads (host boot_seq : string) (document attributes boot_devices : Json)
      (r : Response) (g po pa de : list Response) :
  json r = Some document ->
  subscript document "Attributes" = Ok attributes ->
  subscript attributes boot_seq = Ok boot_devices ->
  get_boot_devices host boot_seq (mkMock (r :: g) po pa de)
  = (Return boot_devices, mkMock g po pa de, [Http (Get (boot_sources_url host)) r]).
Proof.
  intros Hj Ha Hd.
  destruct (subscript_inv _ _ _ Ha) as [members [-> Ea]].
  destruct (subscript_inv _ _ _ Hd) as [members' [-> Ed]].
  unfold get_boot_devices. run_prims.
  rewrite Hj, Ea, Ed. reflexivity.
Qed.

Lemma get_boot_devices_run (host boot_seq : string) (devices : list BootDevice) (r : Response)
      (g po pa de : list Response) :
  json r = Some (boot_sources_document boot_seq devices) ->
  get_boot_devices host boot_seq (mkMock (r :: g) po pa de)
  = (Return (JArr (map json_of_device devices)), mkMock g po pa de,
     [Http (Get (boot_sources_url host)) r]).
Proof.
  intros Hj.
  apply (get_boot_devices_reads host boot_seq (boot_sources_document boot_seq devices)
           (JObj [(boot_seq, JArr (map json_of_device devices))])
           (JArr (map json_of_device devices)) r); trivial.
  cbn [subscript assoc]. rewrite String.eqb_refl. reflexivity.
Qed.

(* ================================================================== *)
(** ** Boot inspection: [check_boot] *)
(* ================================================================== *)

Lemma bind_ret (A B : Type) (a : A) (k : A -> M B) (m : Mock) : bind (ret a) k m = k a m.
Proof. unfold bind, ret. destruct (k a m) as [[o m2] t2]. reflexivity. Qed.

Lemma bind_getitem (B : Type) (d : Json) (key : string) (v : Json) (k : Json -> M B) (m : Mock) :
  subscript d key = Ok v -> bind (getitem d key) k m = k v m.
Proof. intros H. rewrite (getitem_subscript d key v H). apply bind_ret. Qed.

(** One round of the inner loop of [check_boot] on an entry made of the
    two members. *)
Lemma names_match_step (candidate : list string) (d : BootDevice) (rest : list Json) (m : Mock) :
  names_match candidate (json_of_device d :: rest) m
  = match Py.list_item candidate (Index d) with
    | None => (Raise IndexError, m, [])
    | Some name =>
        if String.eqb (Name d) name then names_match candidate rest m
        else (Return false, m, [])
    end.
Proof.
  cbn [names_match]. destruct d as [n i]. cbn [json_of_device Name Index].
  rewrite (bind_getitem _ _ "Name" (JStr n)) by reflexivity.
  rewrite (bind_getitem _ _ "Index" (JNum i)) by reflexivity.
  unfold list_subscript. cbn [as_int]. destruct (Py.list_item candidate i) as [name|].
  - cbn [lift]. rewrite bind_ret. cbn [eq_str]. destruct (String.eqb n name); reflexivity.
  - reflexivity.
Qed.

(** One round of [for _host in ...] on such entries: the slice, the sort
    and the comparison. *)
Lemma check_profiles_step (host _host entry : string) (rest : list string)
      (interfaces : list (string * list string)) (definitions : list (string * string))
      (devices : list BootDevice) (m : Mock) :
  assoc (Py.fmt [_host; "_"; host_model host; "_interfaces"]) definitions = Some entry ->
  check_profiles host (_host :: rest) interfaces definitions (JArr (map json_of_device devices)) m
  = (matched <- names_match (Py.split "," entry)
                  (map json_of_device
                       (sorted_by_index
                          (firstn (List.length (dict_set interfaces _host (Py.split "," entry)))
                                  devices))) ;;
     if matched : bool then
       log INFO (Py.fmt ["Current boot order is set to '"; _host; "'"]) ;;
       ret true
     else check_profiles host rest (dict_set interfaces _host (Py.split "," entry)) definitions
                         (JArr (map json_of_device devices))) m.
Proof.
  intros He. cbn [check_profiles]. unfold lookup_definition. rewrite He.
  rewrite bind_ret. cbv zeta. cbn [slice_to lift]. rewrite bind_ret.
  cbn [iterate lift]. rewrite bind_ret.
  rewrite firstn_map, sorted_entries_of_devices. cbn [lift]. rewrite bind_ret.
  rewrite assoc_dict_set_same. rewrite bind_ret. reflexivity.
Qed.

(** C3: the specification compares the first N names of the sorted device list, N
    the length of the candidate ordering.  The code slices with
    [len(interfaces)], the length of the dictionary of candidates read so
    far, which is 1 when the first profile is tried: once the first listed
    device sits at its place in the [foreman] ordering, [foreman] is
    reported whatever the other devices are. *)
Theorem check_boot_looks_at_one_device (host path_tail entry : string) (path_head : ascii)
        (definitions : list (string * string)) (mode : Json)
        (first : BootDevice) (others : list BootDevice)
        (r_bios r_sources : Response) (g po pa de : list Response) :
  assoc (Py.fmt ["foreman"; "_"; host_model host; "_interfaces"]) definitions = Some entry ->
  Py.list_item (Py.split "," entry) (Index first) = Some (Name first) ->
  json r_bios = Some (bios_document mode) ->
  json r_sources = Some (boot_sources_document (get_boot_seq mode) (first :: others)) ->
  check_boot host (Some (String path_head path_tail)) (Yaml definitions)
             (mkMock (r_bios :: r_sources :: g) po pa de)
  = (Return None, mkMock g po pa de,
     [Http (Get (bios_url host)) r_bios;
      Http (Get (boot_sources_url host)) r_sources;
      Log INFO (Py.fmt ["Current boot order is set to '"; "foreman"; "'"])]).
Proof.
  intros Hentry Hfirst Hb Hs.
  unfold check_boot. unfold bind at 1.
  rewrite (get_bios_boot_mode_run host mode r_bios _ po pa de Hb).
  unfold bind at 1.
  rewrite (get_boot_devices_run host _ (first :: others) r_sources g po pa de Hs).
  unfold load_definitions. unfold bind at 1.
  rewrite (check_profiles_step host "foreman" entry _ _ _ _ _ Hentry).
  cbn [dict_set List.length firstn sorted_by_index insert_by_index map].
  unfold bind at 1. rewrite names_match_step, Hfirst, String.eqb_refl.
  reflexivity.
Qed.

Lemma check_boot_looks_at_one_device_witness :
  let devices := [mkDevice "NIC.Integrated.1-3-1" 0; mkDevice "NIC.Slot.2-1-1" 1;
                  mkDevice "HardDisk.List.1-1" 2] in
  let foreman := "NIC.Integrated.1-3-1,HardDisk.List.1-1,NIC.Slot.2-1-1" in
  let director := "NIC.Integrated.1-3-1,NIC.Slot.2-1-1,HardDisk.List.1-1" in
  let definitions := [("foreman_r620_interfaces", foreman); ("director_r620_interfaces", director)] in
  let r_bios := mkResponse 200 (Some (bios_document (JStr "Bios"))) "{'status_code': 200}" in
  let r_sources := mkResponse 200 (Some (boot_sources_document "BootSeq" devices))
                              "{'status_code': 200}" in
  map Name (sorted_by_index devices) <> Py.split "," foreman /\
  map Name (sorted_by_index devices) = Py.split "," director /\
  logs_of (events (check_boot "mgmt-f21-h01-000-r620.example.com" (Some "interfaces.yml")
                              (Yaml definitions) (mkMock [r_bios; r_sources] [] [] [])))
  = [(INFO, "Current boot order is set to 'foreman'")].
Proof.
  cbv zeta. split; [discriminate|]. split; [reflexivity|].
  rewrite (check_boot_looks_at_one_device "mgmt-f21-h01-000-r620.example.com"
             "nterfaces.yml" "NIC.Integrated.1-3-1,HardDisk.List.1-1,NIC.Slot.2-1-1" "i"
             [("foreman_r620_interfaces", "NIC.Integrated.1-3-1,HardDisk.List.1-1,NIC.Slot.2-1-1");
              ("director_r620_interfaces", "NIC.Integrated.1-3-1,NIC.Slot.2-1-1,HardDisk.List.1-1")]
             (JStr "Bios") (mkDevice "NIC.Integrated.1-3-1" 0)
             [mkDevice "NIC.Slot.2-1-1" 1; mkDevice "HardDisk.List.1-1" 2]
             (mkResponse 200 (Some (bios_document (JStr "Bios"))) "{'status_code': 200}")
             (mkResponse 200
                (Some (boot_sources_document "BootSeq"
                         [mkDevice "NIC.Integrated.1-3-1" 0; mkDevice "NIC.Slot.2-1-1" 1;
                          mkDevice "HardDisk.List.1-1" 2]))
                "{'status_code': 200}")
             [] [] [] [] eq_refl eq_refl eq_refl eq_refl).
  reflexivity.
Defined.

(** When no profile is reported the devices are listed by index, each with
    its index plus one. *)
Example check_boot_lists_devices :
  let devices := [mkDevice "NIC.Slot.2-1-1" 1; mkDevice "HardDisk.List.1-1" 0] in
  let definitions := [("foreman_r620_interfaces", "NIC.Integrated.1-3-1,HardDisk.List.1-1");
                      ("director_r620_interfaces", "NIC.Slot.2-1-1,HardDisk.List.1-1")] in
  let r_bios := mkResponse 200 (Some (bios_document (JStr "Uefi"))) "{'status_code': 200}" in
  let r_sources := mkResponse 200 (Some (boot_sources_document "UefiBootSeq" devices))
                              "{'status_code': 200}" in
  logs_of (events (check_boot "mgmt-f21-h01-000-r620.example.com" (Some "interfaces.yml")
                              (Yaml definitions) (mkMock [r_bios; r_sources] [] [] [])))
  = [(WARNING, "- WARN: Current boot order does not match any of the given.");
     (INFO, "Current boot order:");
     (INFO, "1: HardDisk.List.1-1");
     (INFO, "2: NIC.Slot.2-1-1")].
Proof. reflexivity. Qed.

(* ================================================================== *)
(** ** The reconciler: first match, no-op, patch *)
(* ================================================================== *)




Lemma assign_first_names (name : string) (i : Z) (devices : list BootDevice) :
  map Name (fst (assign_first name i devices)) = map Name devices.
Proof.
  induction devices as [|d rest IH]; [reflexivity|].
  cbn [assign_first]. destruct (String.eqb name (Name d)).
  - destruct (negb (Index d =? i)); reflexivity.
  - destruct (assign_first name i rest) as [rest' c]. cbn [fst map] in *. rewrite IH. reflexivity.
Qed.




(** *** The loops on the entries and on the devices they show *)

Lemma dict_set_same {A : Type} (k : string) (v : A) (d : list (string * A)) :
  assoc k d = Some v -> dict_set d k v = d.
Proof.
  induction d as [|[k0 v0] d IH]; cbn [assoc dict_set]; [discriminate|].
  destruct (String.eqb_spec k k0) as [E|E].
  - intros [= ->]. subst k0. reflexivity.
  - intros H. rewrite (IH H). reflexivity.
Qed.

Lemma set_index_shown (e : Json) (d : BootDevice) : shows e d -> set_index e (Index d) = e.
Proof.
  intros H. destruct (shows_inv e d H) as [members [-> [_ Hi]]].
  cbn [set_index]. rewrite (dict_set_same _ _ _ Hi). reflexivity.
Qed.

Lemma with_indices_shown (entries : list Json) (devices : list BootDevice) :
  Forall2 shows entries devices -> with_indices entries devices = entries.
Proof.
  induction 1 as [|e d entries devices Hed _ IH]; [reflexivity|].
  cbn [with_indices]. rewrite (set_index_shown e d Hed), IH. reflexivity.
Qed.

Lemma with_indices_twice (entries : list Json) :
  forall ds1 ds2 : list BootDevice,
    (List.length entries <= List.length ds1)%nat ->
    with_indices (with_indices entries ds1) ds2 = with_indices entries ds2.
Proof.
  induction entries as [|e entries IH]; intros ds1 ds2 Hlen; [reflexivity|].
  destruct ds1 as [|d1 ds1]; [cbn in Hlen; lia|].
  destruct ds2 as [|d2 ds2]; [reflexivity|].
  cbn [with_indices]. rewrite set_index_twice, IH; [reflexivity | cbn in Hlen; lia].
Qed.

Lemma assign_first_entry_shown (name : string) (i : Z)
      (entries : list Json) (devices : list BootDevice) :
  Forall2 shows entries devices ->
  assign_first_entry name i entries
  = Ok (with_indices entries (fst (assign_first name i devices)),
        snd (assign_first name i devices)).
Proof.
  induction 1 as [|e d entries devices Hed Hrest IH]; [reflexivity|].
  cbn [assign_first_entry assign_first].
  destruct (shows_reads _ _ Hed) as [Hn Hi]. rewrite Hn. cbn [eq_str].
  rewrite (String.eqb_sym (Name d) name). destruct (String.eqb name (Name d)).
  - rewrite Hi. unfold eq_int. cbn [as_int]. destruct (Index d =? i); cbn [negb fst snd with_indices].
    + rewrite (set_index_shown e d Hed), (with_indices_shown _ _ Hrest). reflexivity.
    + cbn [set_Index Index]. rewrite (with_indices_shown _ _ Hrest). reflexivity.
  - rewrite IH. destruct (assign_first name i devices) as [rest' c]. cbn [fst snd with_indices].
    rewrite (set_index_shown e d Hed). reflexivity.
Qed.

Lemma reorder_entries_from_shown (interfaces : list string) :
  forall (i : nat) (entries : list Json) (devices : list BootDevice) (change : bool),
  Forall2 shows entries devices ->
  reorder_entries_from i interfaces entries change
  = Ok (with_indices entries (fst (reorder_from i interfaces devices change)),
        snd (reorder_from i interfaces devices change)).
Proof.
  induction interfaces as [|name rest IH]; intros i entries devices change HF.
  - cbn [reorder_entries_from reorder_from fst snd].
    rewrite (with_indices_shown _ _ HF). reflexivity.
  - cbn [reorder_entries_from reorder_from].
    destruct (assign_first_entry_refines shows shows_reads shows_set_index
                name (Z.of_nat i) entries devices HF) as [entries1 [Heq HF1]].
    rewrite (assign_first_entry_shown name (Z.of_nat i) entries devices HF) in Heq.
    rewrite (assign_first_entry_shown name (Z.of_nat i) entries devices HF).
    injection Heq as Heq. subst entries1.
    pose proof (assign_first_names name (Z.of_nat i) devices) as Hnames.
    destruct (assign_first name (Z.of_nat i) devices) as [devices1 c]. cbn [fst snd] in *.
    rewrite (IH (S i) _ devices1 (change || c)%bool HF1).
    rewrite with_indices_twice; [reflexivity|].
    rewrite (Forall2_length HF), <- (length_map Name devices), <- Hnames, length_map. lia.
Qed.

(** On entries that show devices, the two loops of the program are
    [reorder]: the answer of the controller with the indices [reorder]
    gives, every entry otherwise whole. *)
Lemma reorder_boot_devices_shown (interfaces : list string)
      (entries : list Json) (devices : list BootDevice) :
  Forall2 shows entries devices ->
  reorder_boot_devices interfaces (JArr entries)
  = Ok (JArr (with_indices entries (fst (reorder interfaces devices))),
        snd (reorder interfaces devices)).
Proof.
  intros HF. unfold reorder_boot_devices, reorder. destruct interfaces as [|name rest].
  - cbn [reorder_from fst snd]. rewrite (with_indices_shown _ _ HF). reflexivity.
  - cbn [iterate]. rewrite (reorder_entries_from_shown (name :: rest) 0 entries devices false HF).
    reflexivity.
Qed.









(** *** The current order and the desired order *)

Lemma insert_by_index_perm (x : BootDevice) (l : list BootDevice) :
  Permutation (insert_by_index x l) (x :: l).
Proof.
  induction l as [|y ys IH]; [apply Permutation_refl|].
  cbn [insert_by_index]. destruct (Index x <=? Index y); [apply Permutation_refl|].
  apply perm_trans with (y :: x :: ys); [apply perm_skip; exact IH | apply perm_swap].
Qed.

Lemma sorted_by_index_perm (l : list BootDevice) : Permutation (sorted_by_index l) l.
Proof.
  induction l as [|x xs IH]; [apply perm_nil|].
  cbn [sorted_by_index].
  apply perm_trans with (x :: sorted_by_index xs); [apply insert_by_index_perm|].
  apply perm_skip. exact IH.
Qed.

Lemma in_positions (l : list string) :
  forall (a : nat) (z : Z) (s : string),
    In (z, s) (combine (map Z.of_nat (seq a (List.length l))) l) ->
    exists j, nth_error l j = Some s /\ z = Z.of_nat (a + j).
Proof.
  induction l as [|x l IH]; intros a z s H; [contradiction|].
  cbn in H. destruct H as [H|H].
  - inversion H; subst. exists 0%nat. split; [reflexivity|]. f_equal. lia.
  - destruct (IH (S a) z s H) as [j [Hj Hz]]. exists (S j). split; [exact Hj|]. rewrite Hz. f_equal. lia.
Qed.

Lemma assign_first_noop (name : string) (i : Z) (devices : list BootDevice) :
  Forall (fun d => Name d = name -> Index d = i) devices ->
  assign_first name i devices = (devices, false).
Proof.
  induction 1 as [|d rest Hd _ IH]; [reflexivity|].
  cbn [assign_first]. destruct (String.eqb_spec name (Name d)) as [E|E].
  - rewrite (Hd (eq_sym E)), Z.eqb_refl. reflexivity.
  - rewrite IH. reflexivity.
Qed.

Lemma reorder_from_noop (interfaces : list string) :
  forall (i : nat) (devices : list BootDevice) (change : bool),
    Forall (at_place i interfaces) devices ->
    reorder_from i interfaces devices change = (devices, change).
Proof.
  induction interfaces as [|name rest IH]; intros i devices change H; [reflexivity|].
  cbn [reorder_from]. rewrite assign_first_noop.
  - rewrite orb_false_r. apply IH. apply Forall_impl with (2 := H).
    intros d Hd k Hk. rewrite (Hd (S k) Hk). f_equal. lia.
  - apply Forall_impl with (2 := H). intros d Hd Hname.
    rewrite (Hd 0%nat); [f_equal; lia | cbn; rewrite Hname; reflexivity].
Qed.

Lemma same_order_at_place (interfaces : list string) (devices : list BootDevice) :
  NoDup interfaces ->
  boot_order devices = desired_order interfaces ->
  Forall (at_place 0 interfaces) devices.
Proof.
  intros Hnodup Heq. apply Forall_forall. intros d Hd k Hk.
  assert (Hin : In (Index d, Name d) (desired_order interfaces)).
  { rewrite <- Heq. unfold boot_order.
    apply (in_map (fun d => (Index d, Name d))).
    apply Permutation_in with (1 := Permutation_sym (sorted_by_index_perm devices)). exact Hd. }
  destruct (in_positions interfaces 0 _ _ Hin) as [j [Hj Hz]].
  rewrite Hz. f_equal. f_equal.
  assert (Hjlt : (j < List.length interfaces)%nat) by (apply nth_error_Some; rewrite Hj; discriminate).
  apply (proj1 (NoDup_nth_error interfaces) Hnodup j k Hjlt). rewrite Hj, Hk. reflexivity.
Qed.

(** No repeated desired name and the same order: nothing to do. *)
Lemma reorder_noop (interfaces : list string) (devices : list BootDevice) :
  NoDup interfaces ->
  boot_order devices = desired_order interfaces ->
  reorder interfaces devices = (devices, false).
Proof.
  intros Hnodup Heq. apply reorder_from_noop. apply same_order_at_place; assumption.
Qed.

(** [change_boot_order] up to the decision: what it does with the result
    of [reorder]. *)
Lemma change_boot_order_reads (host entry : string) (_host_type : option string)
      (definitions : list (string * string))
      (bios attributes mode sources source_attributes boot_devices patched : Json)
      (change : bool) (r_bios r_sources : Response) (g po pa de : list Response) :
  assoc (interfaces_key host _host_type) definitions = Some entry ->
  json r_bios = Some bios ->
  subscript bios "Attributes" = Ok attributes ->
  subscript attributes "BootMode" = Ok mode ->
  json r_sources = Some sources ->
  subscript sources "Attributes" = Ok source_attributes ->
  subscript source_attributes (get_boot_seq mode) = Ok boot_devices ->
  reorder_boot_devices (Py.split "," entry) boot_devices = Ok (patched, change) ->
  change_boot_order host (Yaml definitions) _host_type (mkMock (r_bios :: r_sources :: g) po pa de)
  = let fetched := [Http (Get (bios_url host)) r_bios; Http (Get (boot_sources_url host)) r_sources] in
    if change then
      match pa with
      | [] => (Blocked, mkMock g po pa de, fetched)
      | response :: pa' =>
          (Return tt, mkMock g po pa' de,
           fetched
           ++ [Http (Patch (Py.fmt ["https://"; host; BOOT_SOURCES_URI])
                           (JObj [("Attributes", JObj [(get_boot_seq mode, patched)])])) response;
               Log (if status_code response =? 200 then INFO else ERROR)
                   (if status_code response =? 200
                    then "- PASS: PATCH command passed to update boot order"
                    else "- FAIL: There was something wrong with your request")])
      end
    else (Exit 0, mkMock g po pa de, fetched ++ [Log WARNING NOOP_LINE]).
Proof.
  intros Hentry Hb Hba Hbm Hs Hsa Hsd Hre.
  unfold change_boot_order, load_definitions. unfold bind at 1.
  unfold lookup_definition. fold (interfaces_key host _host_type). rewrite Hentry. cbn [ret].
  unfold bind at 1.
  rewrite (get_bios_boot_mode_reads host bios attributes mode r_bios _ po pa de Hb Hba Hbm).
  unfold bind at 1.
  rewrite (get_boot_devices_reads host _ sources source_attributes boot_devices r_sources
             g po pa de Hs Hsa Hsd).
  cbv zeta. rewrite Hre. cbn [lift]. rewrite bind_ret.
  destruct change.
  - run_prims. destruct pa as [|response pa']; [reflexivity|].
    destruct (status_code response =? 200); reflexivity.
  - run_prims. reflexivity.
Qed.

Lemma change_boot_order_run (host entry : string) (_host_type : option string)
      (definitions : list (string * string)) (mode : Json) (devices : list BootDevice)
      (r_bios r_sources : Response) (g po pa de : list Response) :
  assoc (interfaces_key host _host_type) definitions = Some entry ->
  json r_bios = Some (bios_document mode) ->
  json r_sources = Some (boot_sources_document (get_boot_seq mode) devices) ->
  change_boot_order host (Yaml definitions) _host_type (mkMock (r_bios :: r_sources :: g) po pa de)
  = let fetched := [Http (Get (bios_url host)) r_bios; Http (Get (boot_sources_url host)) r_sources] in
    let '(boot_devices, change) := reorder (Py.split "," entry) devices in
    if change then
      match pa with
      | [] => (Blocked, mkMock g po pa de, fetched)
      | response :: pa' =>
          (Return tt, mkMock g po pa' de,
           fetched
           ++ [Http (Patch (Py.fmt ["https://"; host; BOOT_SOURCES_URI])
                           (boot_sources_document (get_boot_seq mode) boot_devices)) response;
               Log (if status_code response =? 200 then INFO else ERROR)
                   (if status_code response =? 200
                    then "- PASS: PATCH command passed to update boot order"
                    else "- FAIL: There was something wrong with your request")])
      end
    else (Exit 0, mkMock g po pa de, fetched ++ [Log WARNING NOOP_LINE]).
Proof.
  intros Hentry Hb Hs.
  pose proof (reorder_boot_devices_of_devices (Py.split "," entry) devices) as Hre.
  destruct (reorder (Py.split "," entry) devices) as [boot_devices change]. cbn [fst snd] in Hre.
  apply (change_boot_order_reads host entry _host_type definitions
           (bios_document mode) (JObj [("BootMode", mode)]) mode
           (boot_sources_document (get_boot_seq mode) devices)
           (JObj [(get_boot_seq mode, JArr (map json_of_device devices))])
           (JArr (map json_of_device devices)) (JArr (map json_of_device boot_devices)) change);
    trivial.
  cbn [subscript assoc]. rewrite String.eqb_refl. reflexivity.
Qed.

(** C5, as the code has it: when no desired name is repeated and the
    desired order is the current order, position for position,
    [change_boot_order] changes no index, sends no PATCH (its two reads are
    its only requests), reports the no-op and leaves by [sys.exit()] with
    status 0. *)
Theorem change_boot_order_noop (host entry : string) (_host_type : option string)
        (definitions : list (string * string)) (mode : Json) (devices : list BootDevice)
        (r_bios r_sources : Response) (g po pa de : list Response) :
  assoc (interfaces_key host _host_type) definitions = Some entry ->
  NoDup (Py.split "," entry) ->
  boot_order devices = desired_order (Py.split "," entry) ->
  json r_bios = Some (bios_document mode) ->
  json r_sources = Some (boot_sources_document (get_boot_seq mode) devices) ->
  reorder (Py.split "," entry) devices = (devices, false) /\
  change_boot_order host (Yaml definitions) _host_type (mkMock (r_bios :: r_sources :: g) po pa de)
  = (Exit 0, mkMock g po pa de,
     [Http (Get (bios_url host)) r_bios;
      Http (Get (boot_sources_url host)) r_sources;
      Log WARNING NOOP_LINE]).
Proof.
  intros Hentry Hnodup Heq Hb Hs.
  pose proof (reorder_noop _ devices Hnodup Heq) as Hnoop.
  split; [exact Hnoop|].
  rewrite (change_boot_order_run host entry _host_type definitions mode devices
             r_bios r_sources g po pa de Hentry Hb Hs).
  cbv zeta. rewrite Hnoop. reflexivity.
Qed.

Lemma change_boot_order_noop_witness :
  let host := "mgmt-f21-h01-000-r620.example.com" in
  let entry := "NIC.Slot.2-1-1,HardDisk.List.1-1" in
  let devices := [mkDevice "HardDisk.List.1-1" 1; mkDevice "NIC.Slot.2-1-1" 0] in
  let r_bios := mkResponse 200 (Some (bios_document (JStr "Bios"))) "{'status_code': 200}" in
  let r_sources := mkResponse 200 (Some (boot_sources_document "BootSeq" devices))
                              "{'status_code': 200}" in
  outcome (change_boot_order host (Yaml [("director_r620_interfaces", entry)]) (Some "director")
                             (mkMock [r_bios; r_sources] [] [] []))
  = Exit 0.
Proof.
  cbv zeta.
  rewrite (proj2 (change_boot_order_noop
                    "mgmt-f21-h01-000-r620.example.com" "NIC.Slot.2-1-1,HardDisk.List.1-1"
                    (Some "director")
                    [("director_r620_interfaces", "NIC.Slot.2-1-1,HardDisk.List.1-1")]
                    (JStr "Bios")
                    [mkDevice "HardDisk.List.1-1" 1; mkDevice "NIC.Slot.2-1-1" 0]
                    (mkResponse 200 (Some (bios_document (JStr "Bios"))) "{'status_code': 200}")
                    (mkResponse 200
                       (Some (boot_sources_document "BootSeq"
                                [mkDevice "HardDisk.List.1-1" 1; mkDevice "NIC.Slot.2-1-1" 0]))
                       "{'status_code': 200}")
                    [] [] [] [] eq_refl
                    ltac:(vm_compute; repeat constructor; cbn; intuition discriminate)
                    eq_refl eq_refl eq_refl)).
  reflexivity.
Defined.

(** C5 as the specification words it fails when a name is repeated: the desired order is
    the current order, position for position, and yet the second position
    moves the first device of that name, and the PATCH is sent. *)
Lemma change_boot_order_noop_counterexample :
  let host := "mgmt-f21-h01-000-r620.example.com" in
  let entry := "NIC.Slot.2-1-1,NIC.Slot.2-1-1" in
  let devices := [mkDevice "NIC.Slot.2-1-1" 0; mkDevice "NIC.Slot.2-1-1" 1] in
  let r_bios := mkResponse 200 (Some (bios_document (JStr "Bios"))) "{'status_code': 200}" in
  let r_sources := mkResponse 200 (Some (boot_sources_document "BootSeq" devices))
                              "{'status_code': 200}" in
  let r_patch := mkResponse 200 None "{'status_code': 200}" in
  let run := change_boot_order host (Yaml [("director_r620_interfaces", entry)]) (Some "director")
                               (mkMock [r_bios; r_sources] [] [r_patch] []) in
  boot_order devices = desired_order (Py.split "," entry) /\
  reorder (Py.split "," entry) devices
  = ([mkDevice "NIC.Slot.2-1-1" 1; mkDevice "NIC.Slot.2-1-1" 1], true) /\
  outcome run = Return tt /\
  requests_of (events run)
  = [Get (bios_url host); Get (boot_sources_url host);
     Patch (Py.fmt ["https://"; host; BOOT_SOURCES_URI])
           (boot_sources_document "BootSeq"
              [mkDevice "NIC.Slot.2-1-1" 1; mkDevice "NIC.Slot.2-1-1" 1])].
Proof. vm_compute. repeat split. Qed.

(** *** When the patch reproduces the desired order *)







(** *** Sorting by index *)



















(* ================================================================== *)
(** ** Failures of the controller *)
(* ================================================================== *)

Lemma reset_failed_run (failed : string) (r : Response) (m : Mock) :
  reset_failed failed r m
  = (after_extended_info r, m,
     Log ERROR (Py.fmt [failed; Py.str_of_int (status_code r)]) :: extended_info r).
Proof.
  unfold reset_failed, after_extended_info, extended_info. run_prims.
  destruct (json r); reflexivity.
Qed.

(** *** A refusal ends the run, wherever it comes

    [stops_at alarm run] is proved along the structure of the program:
    it holds of the primitives, passes through [bind], and a checked
    request either raises the alarm and ends the run or lets it go on. *)

Lemma ended_extended_ending (A : Type) (r : Response) :
  @ended A (extended_ending r) = after_extended_info r.
Proof. unfold extended_ending, after_extended_info. destruct (json r); reflexivity. Qed.

Lemma stops_at_quiet (A : Type) (alarm : Event -> option (Ending * list Event))
      (run : Outcome A * Mock * list Event) :
  (forall e, In e (events run) -> alarm e = None) -> stops_at alarm run.
Proof.
  intros Hq t1 e t2 ending tail Ht Ha.
  rewrite (Hq e) in Ha; [discriminate|]. rewrite Ht. apply in_elt.
Qed.

Lemma stops_at_cons (A : Type) (alarm : Event -> option (Ending * list Event))
      (o : Outcome A) (m m' : Mock) (e0 : Event) (t : list Event) :
  alarm e0 = None -> stops_at alarm (o, m, t) -> stops_at alarm (o, m', e0 :: t).
Proof.
  intros H0 Hs t1 e t2 ending tail Ht Ha. unfold events, outcome in *. cbn [fst snd] in *.
  destruct t1 as [|e1 t1]; cbn [app] in Ht.
  - injection Ht as <- <-. rewrite H0 in Ha. discriminate.
  - injection Ht as <- Ht. exact (Hs t1 e t2 ending tail Ht Ha).
Qed.

Lemma stops_at_alarm (A : Type) (alarm : Event -> option (Ending * list Event))
      (m : Mock) (e0 : Event) (ending : Ending) (tail : list Event) :
  alarm e0 = Some (ending, tail) ->
  (forall e, In e tail -> alarm e = None) ->
  stops_at alarm (@ended A ending, m, e0 :: tail).
Proof.
  intros H0 Hq t1 e t2 ending' tail' Ht Ha. unfold events, outcome in *. cbn [fst snd] in *.
  destruct t1 as [|e1 t1]; cbn [app] in Ht.
  - injection Ht as <- <-. rewrite H0 in Ha. injection Ha as <- <-. split; reflexivity.
  - injection Ht as _ Ht. rewrite (Hq e) in Ha; [discriminate|]. rewrite Ht. apply in_elt.
Qed.

Lemma stops_at_bind (A B : Type) (alarm : Event -> option (Ending * list Event))
      (c : M A) (k : A -> M B) (m : Mock) :
  stops_at alarm (c m) -> (forall a m1, stops_at alarm (k a m1)) -> stops_at alarm (bind c k m).
Proof.
  intros Hc Hk t1 e t2 ending tail Ht Ha. unfold bind, events, outcome in *.
  destruct (c m) as [[o m1] tc]. cbn [fst snd] in *.
  destruct o as [a| | | |].
  - specialize (Hk a m1). unfold events, outcome in Hk.
    destruct (k a m1) as [[o2 m2] tk]. cbn [fst snd] in *.
    apply app_eq_app in Ht. destruct Ht as [l [[H1 H2]|[H1 H2]]].
    + destruct l as [|e' l].
      * cbn [app] in H2. apply (Hk [] e t2 ending tail); [symmetry; exact H2 | exact Ha].
      * cbn [app] in H2. injection H2 as <- H2.
        destruct (Hc t1 e l ending tail H1 Ha) as [Ho _]. destruct ending; discriminate.
    + exact (Hk l e t2 ending tail H2 Ha).
  - destruct (Hc t1 e t2 ending tail Ht Ha) as [Ho Ht2]. split; [|exact Ht2].
    destruct ending; cbn [ended] in *; [injection Ho as ->; reflexivity | discriminate].
  - destruct (Hc t1 e t2 ending tail Ht Ha) as [Ho Ht2]. split; [|exact Ht2].
    destruct ending; cbn [ended] in *; [discriminate | injection Ho as ->; reflexivity].
  - destruct (Hc t1 e t2 ending tail Ht Ha) as [Ho _]. destruct ending; discriminate.
  - destruct (Hc t1 e t2 ending tail Ht Ha) as [Ho _]. destruct ending; discriminate.
Qed.

(** One round of the polling loop, whatever the controller answers. *)
Lemma job_status_loop_step (host _job_id : string) (n : nat) (r : Response)
      (g po pa de : list Response) :
  job_status_loop host _job_id (S n) (mkMock (r :: g) po pa de)
  = if status_code r =? 200 then
      let head := [Http (Get (job_url host _job_id)) r;
                   Log INFO "- PASS: Command passed to check job status, code 200 returned";
                   Sleep 10] in
      match message_of r with
      | None => (Raise (no_message_error r), mkMock g po pa de, head)
      | Some v =>
          if eq_str v TERMINAL_MESSAGE then
            (Return tt, mkMock g po pa de,
             head ++ [Log INFO (Py.fmt ["- PASS: job id "; _job_id; " successfully scheduled"])])
          else
            let '(o, m, t) := job_status_loop host _job_id n (mkMock g po pa de) in
            (o, m,
             head ++ Log WARNING (Py.fmt ["- WARNING: JobStatus not scheduled, current status is: ";
                                          Repr.str v]) :: t)
      end
    else
      (after_extended_info r, mkMock g po pa de,
       Http (Get (job_url host _job_id)) r
       :: Log ERROR (Py.fmt ["- FAIL: Command failed to check job status, return code is ";
                             Py.str_of_int (status_code r)])
       :: extended_info r).
Proof.
  cbn [job_status_loop]. unfold bind at 1. cbn [requests_get on_get on_post on_patch on_delete].
  destruct (status_code r =? 200) eqn:Es.
  - unfold bind at 1. unfold bind at 1. cbn [log time_sleep].
    unfold message_of, no_message_error.
    unfold bind at 1. unfold response_json.
    destruct (json r) as [[ | | | | |members]|]; try reflexivity.
    cbn [ret]. unfold bind at 1. cbn [getitem].
    destruct (assoc "Message" members) as [v|]; [|reflexivity]. cbn [ret].
    destruct (eq_str v TERMINAL_MESSAGE); [reflexivity|].
    unfold bind at 1. cbn [log].
    destruct (job_status_loop host _job_id n (mkMock g po pa de)) as [[o m] t]. reflexivity.
  - unfold bind at 1. unfold bind at 1. cbn [log].
    unfold after_extended_info, extended_info. run_prims. destruct (json r); reflexivity.
Qed.

Lemma extended_info_quiet (alarm : Event -> option (Ending * list Event)) (r : Response) :
  (forall l s, alarm (Log l s) = None) ->
  forall e, In e (extended_info r) -> alarm e = None.
Proof.
  intros Hl e He. unfold extended_info in He. destruct (json r); [|contradiction].
  destruct He as [<-|[]]. apply Hl.
Qed.

Lemma job_status_loop_stops (host _job_id : string) (n : nat) :
  forall m, stops_at job_status_alarm (job_status_loop host _job_id n m).
Proof.
  induction n as [|n IH]; intros [g po pa de].
  - apply stops_at_quiet. cbn. intros e [<-|[]]. reflexivity.
  - destruct g as [|r g].
    + apply stops_at_quiet. cbn. intros e [].
    + rewrite job_status_loop_step. destruct (status_code r =? 200) eqn:Es.
      * cbv zeta. assert (H0 : job_status_alarm (Http (Get (job_url host _job_id)) r) = None).
        { cbn [job_status_alarm]. rewrite Es. reflexivity. }
        destruct (message_of r) as [v|].
        -- destruct (eq_str v TERMINAL_MESSAGE).
           ++ apply stops_at_quiet. unfold events. cbn [snd app].
              intros e [<-|[<-|[<-|[<-|[]]]]]; trivial.
           ++ specialize (IH (mkMock g po pa de)).
              destruct (job_status_loop host _job_id n (mkMock g po pa de)) as [[o m] t].
              cbn [app]. apply stops_at_cons with (m := m); [exact H0|].
              apply stops_at_cons with (m := m); [reflexivity|].
              apply stops_at_cons with (m := m); [reflexivity|].
              apply stops_at_cons with (m := m); [reflexivity|]. exact IH.
        -- apply stops_at_quiet. unfold events. cbn [snd].
           intros e [<-|[<-|[<-|[]]]]; trivial.
      * rewrite <- (ended_extended_ending unit r).
        apply stops_at_alarm.
        -- cbn [job_status_alarm]. rewrite Es. reflexivity.
        -- intros e [<-|He]; [reflexivity|].
           apply (extended_info_quiet job_status_alarm r); [reflexivity | exact He].
Qed.

Lemma job_status_loop_no_message (host _job_id : string) (n : nat) :
  forall m, stops_at no_message_alarm (job_status_loop host _job_id n m).
Proof.
  induction n as [|n IH]; intros [g po pa de].
  - apply stops_at_quiet. cbn. intros e [<-|[]]. reflexivity.
  - destruct g as [|r g].
    + apply stops_at_quiet. cbn. intros e [].
    + rewrite job_status_loop_step. destruct (status_code r =? 200) eqn:Es.
      * cbv zeta. destruct (message_of r) as [v|] eqn:Em.
        -- assert (H0 : no_message_alarm (Http (Get (job_url host _job_id)) r) = None).
           { cbn [no_message_alarm]. rewrite Es, Em. reflexivity. }
           destruct (eq_str v TERMINAL_MESSAGE).
           ++ apply stops_at_quiet. unfold events. cbn [snd app].
              intros e [<-|[<-|[<-|[<-|[]]]]]; trivial.
           ++ specialize (IH (mkMock g po pa de)).
              destruct (job_status_loop host _job_id n (mkMock g po pa de)) as [[o m] t].
              cbn [app]. apply stops_at_cons with (m := m); [exact H0|].
              apply stops_at_cons with (m := m); [reflexivity|].
              apply stops_at_cons with (m := m); [reflexivity|].
              apply stops_at_cons with (m := m); [reflexivity|]. exact IH.
        -- change (Raise (no_message_error r)) with (@ended unit (Raises (no_message_error r))).
           apply stops_at_alarm.
           ++ cbn [no_message_alarm]. rewrite Es, Em. reflexivity.
           ++ intros e [<-|[<-|[]]]; reflexivity.
      * apply stops_at_quiet. unfold events. cbn [snd].
        intros e [<-|[<-|He]].
        -- cbn [no_message_alarm]. rewrite Es. reflexivity.
        -- reflexivity.
        -- apply (extended_info_quiet no_message_alarm r); [reflexivity | exact He].
Qed.

Lemma stops_at_ret (A : Type) (alarm : Event -> option (Ending * list Event)) (a : A) (m : Mock) :
  stops_at alarm (ret a m).
Proof. apply stops_at_quiet. intros e []. Qed.

Lemma stops_at_raise (A : Type) (alarm : Event -> option (Ending * list Event)) (x : Exn)
      (m : Mock) :
  stops_at alarm (@raise A x m).
Proof. apply stops_at_quiet. intros e []. Qed.

Lemma stops_at_exit (A : Type) (alarm : Event -> option (Ending * list Event)) (code : Z)
      (m : Mock) :
  stops_at alarm (@sys_exit A code m).
Proof. apply stops_at_quiet. intros e []. Qed.

Lemma stops_at_log (alarm : Event -> option (Ending * list Event)) (l : Level) (s : string)
      (m : Mock) :
  alarm (Log l s) = None -> stops_at alarm (log l s m).
Proof. intros H. apply stops_at_quiet. intros e [<-|[]]. exact H. Qed.

Lemma stops_at_sleep (alarm : Event -> option (Ending * list Event)) (n : Z) (m : Mock) :
  alarm (Sleep n) = None -> stops_at alarm (time_sleep n m).
Proof. intros H. apply stops_at_quiet. intros e [<-|[]]. exact H. Qed.

Lemma stops_at_get (alarm : Event -> option (Ending * list Event)) (url : string) (m : Mock) :
  (forall r, alarm (Http (Get url) r) = None) -> stops_at alarm (requests_get url m).
Proof.
  intros H. apply stops_at_quiet. unfold requests_get. destruct (on_get m) as [|r rest].
  - intros e [].
  - intros e [<-|[]]. apply H.
Qed.

Lemma stops_at_response_json (alarm : Event -> option (Ending * list Event)) (r : Response)
      (m : Mock) :
  stops_at alarm (response_json r m).
Proof. unfold response_json. destruct (json r); [apply stops_at_ret | apply stops_at_raise]. Qed.

Lemma stops_at_getitem (alarm : Event -> option (Ending * list Event)) (d : Json) (k : string)
      (m : Mock) :
  stops_at alarm (getitem d k m).
Proof.
  destruct d as [| | | | |members]; try apply stops_at_raise.
  cbn [getitem]. destruct (assoc k members); [apply stops_at_ret | apply stops_at_raise].
Qed.

(** A reset action and its check: accepted, the run goes on; refused, it
    ends after the two lines of [reset_failed]. *)
Lemma stops_at_reset_post (B : Type) (url reset_type : string) (k : Response -> M B) (m : Mock) :
  (forall r m1, status_code r = 204 -> stops_at reset_alarm (k r m1)) ->
  (forall r m1, status_code r <> 204 ->
                k r m1 = (after_extended_info r, m1,
                          Log ERROR (Py.fmt [reset_failure_line reset_type;
                                             Py.str_of_int (status_code r)])
                          :: extended_info r)) ->
  stops_at reset_alarm (bind (requests_post url (JObj [("ResetType", JStr reset_type)])) k m).
Proof.
  intros Hok Hko. unfold bind, requests_post. destruct (on_post m) as [|r rest].
  - apply stops_at_quiet. intros e [].
  - destruct (Z.eqb_spec (status_code r) 204) as [E|E].
    + specialize (Hok r (mkMock (on_get m) rest (on_patch m) (on_delete m)) E).
      destruct (k r _) as [[o m2] t2]. cbn [app].
      apply stops_at_cons with (m := m2); [|exact Hok].
      cbn [reset_alarm]. rewrite E. reflexivity.
    + rewrite (Hko r _ E). cbn [app]. rewrite <- (ended_extended_ending B r).
      apply stops_at_alarm.
      * cbn [reset_alarm]. destruct (Z.eqb_spec (status_code r) 204); [contradiction | reflexivity].
      * intros e [<-|He]; [reflexivity|].
        apply (extended_info_quiet reset_alarm r); [reflexivity | exact He].
Qed.

Lemma bind_reset_failed (B : Type) (failed : string) (r : Response) (k : unit -> M B) (m : Mock) :
  bind (reset_failed failed r) k m
  = (after_extended_info r, m,
     Log ERROR (Py.fmt [failed; Py.str_of_int (status_code r)]) :: extended_info r).
Proof.
  unfold bind. rewrite reset_failed_run. unfold after_extended_info.
  destruct (json r); reflexivity.
Qed.

Lemma power_on_stops (host : string) (m : Mock) :
  stops_at reset_alarm (power_on (reset_url host) m).
Proof.
  unfold power_on. apply (stops_at_reset_post unit (reset_url host) "On").
  - intros r m1 E. rewrite E. apply stops_at_log. reflexivity.
  - intros r m1 E. destruct (Z.eqb_spec (status_code r) 204); [contradiction|].
    apply reset_failed_run.
Qed.

Lemma wait_for_off_stops (host : string) (fuel : nat) :
  forall count m, stops_at reset_alarm (wait_for_off host fuel count m).
Proof.
  induction fuel as [|fuel IH]; intros count m.
  - apply stops_at_quiet. intros e [].
  - cbn [wait_for_off].
    apply stops_at_bind; [apply stops_at_get; reflexivity | intros _response m1].
    apply stops_at_bind; [apply stops_at_response_json | intros data m2].
    apply stops_at_bind; [apply stops_at_getitem | intros state m3].
    destruct (eq_str state "Off"); [apply stops_at_log; reflexivity|].
    destruct (count =? 10).
    + apply stops_at_bind; [apply stops_at_log; reflexivity | intros _ m4].
      apply (stops_at_reset_post unit (reset_url host) "ForceOff").
      * intros r m5 E. rewrite E. change (204 =? 204) with true. cbv iota.
        apply stops_at_bind; [|intros _ m6; apply IH].
        apply stops_at_bind; [apply stops_at_log; reflexivity | intros _ m6].
        apply stops_at_sleep. reflexivity.
      * intros r m5 E. destruct (Z.eqb_spec (status_code r) 204); [contradiction|].
        apply bind_reset_failed.
    + apply stops_at_bind; [apply stops_at_sleep; reflexivity | intros _ m4]. apply IH.
Qed.

Lemma reboot_server_stops (host : string) (fuel : nat) (m : Mock) :
  stops_at reset_alarm (reboot_server host fuel m).
Proof.
  unfold reboot_server.
  apply stops_at_bind; [apply stops_at_get; reflexivity | intros _response m1].
  apply stops_at_bind; [apply stops_at_response_json | intros data m2].
  apply stops_at_bind; [apply stops_at_getitem | intros state m3].
  apply stops_at_bind; [apply stops_at_log; reflexivity | intros _ m4].
  destruct (eq_str state "On").
  - apply (stops_at_reset_post unit (reset_url host) "GracefulRestart").
    + intros r m5 E. rewrite E. change (204 =? 204) with true. cbv iota.
      apply stops_at_bind.
      * apply stops_at_bind; [apply stops_at_log; reflexivity | intros _ m6].
        apply stops_at_sleep. reflexivity.
      * intros _ m6. apply stops_at_bind; [apply wait_for_off_stops | intros _ m7].
        apply power_on_stops.
    + intros r m5 E. destruct (Z.eqb_spec (status_code r) 204); [contradiction|].
      apply bind_reset_failed.
  - destruct (eq_str state "Off"); [apply power_on_stops|].
    apply stops_at_bind; [apply stops_at_log; reflexivity | intros _ m5]. apply stops_at_exit.
Qed.

Lemma logs_of_deletions (host : string) (q : list string) (ds : list Response) :
  logs_of (deletions host q ds) = [].
Proof.
  unfold deletions. induction (combine q ds) as [|jr l IH]; [reflexivity|].
  cbn [map]. rewrite logs_of_http. exact IH.
Qed.

Lemma clear_job_queue_blocked (host : string) (j : string) (q : list string)
      (ds ds' : list Response) (po pa : list Response) :
  List.length ds = List.length (j :: q) ->
  clear_job_queue host (j :: q) (mkMock [] po pa (ds ++ ds'))
  = (Blocked, mkMock [] po pa ds',
     Log WARNING (Py.fmt [String Py.newline "- WARNING, clearing job queue for job IDs: ";
                          Repr.repr (JArr (map JStr (j :: q)));
                          String Py.newline EmptyString])
     :: deletions host (j :: q) ds).
Proof.
  intros Hlen. unfold clear_job_queue. cbv iota. unfold bind at 1. cbn [log].
  unfold bind at 1. rewrite (delete_jobs_run host (j :: q) ds ds' [] po pa Hlen).
  unfold get_job_queue. run_prims. cbn [app]. rewrite app_nil_r. reflexivity.
Qed.

(** The answers to the DELETE requests play no part in what
    [clear_job_queue] does. *)
Lemma clear_job_queue_whatever_deleted (host : string) (queue : list string)
      (g po pa ds1 ds2 : list Response) :
  (List.length queue <= List.length ds1)%nat ->
  (List.length queue <= List.length ds2)%nat ->
  let run1 := clear_job_queue host queue (mkMock g po pa ds1) in
  let run2 := clear_job_queue host queue (mkMock g po pa ds2) in
  outcome run1 = outcome run2 /\
  requests_of (events run1) = requests_of (events run2) /\
  logs_of (events run1) = logs_of (events run2).
Proof.
  intros H1 H2. cbv zeta. destruct queue as [|j q]; [repeat split|].
  rewrite <- (firstn_skipn (List.length (j :: q)) ds1).
  rewrite <- (firstn_skipn (List.length (j :: q)) ds2).
  assert (L1 : List.length (firstn (List.length (j :: q)) ds1) = List.length (j :: q))
    by (apply firstn_length_le; exact H1).
  assert (L2 : List.length (firstn (List.length (j :: q)) ds2) = List.length (j :: q))
    by (apply firstn_length_le; exact H2).
  set (a1 := firstn (List.length (j :: q)) ds1) in *.
  set (a2 := firstn (List.length (j :: q)) ds2) in *.
  set (b1 := skipn (List.length (j :: q)) ds1).
  set (b2 := skipn (List.length (j :: q)) ds2).
  pose proof (requests_of_deletions host (j :: q) a1 L1) as R1.
  pose proof (requests_of_deletions host (j :: q) a2 L2) as R2.
  pose proof (logs_of_deletions host (j :: q) a1) as G1.
  pose proof (logs_of_deletions host (j :: q) a2) as G2.
  destruct g as [|rq g].
  - rewrite (clear_job_queue_blocked host j q a1 b1 po pa L1).
    rewrite (clear_job_queue_blocked host j q a2 b2 po pa L2).
    unfold outcome, events. cbn [fst snd].
    rewrite !requests_of_log, !logs_of_log, R1, R2, G1, G2. repeat split.
  - pose proof (clear_job_queue_run host j q a1 b1 rq g po pa L1) as E1.
    pose proof (clear_job_queue_run host j q a2 b2 rq g po pa L2) as E2.
    cbv zeta in E1, E2. rewrite E1, E2. clear E1 E2.
    destruct (json rq) as [doc|];
      [destruct (Py.re_findall_JID "'" (Repr.str doc)) as [|left_over more]|];
      unfold outcome, events; cbn [fst snd];
      rewrite ?requests_of_app, ?logs_of_app, !requests_of_log, !logs_of_log,
        ?requests_of_app, ?logs_of_app, R1, R2, G1, G2; repeat split.
Qed.

(** C2, as the code has it: the operations that check their status end
    the process with status 1, the status code logged and nothing sent
    after it.  These are the one-shot PXE PATCH, the one-time-boot PATCH and
    the job-creation POST (anything but 200: [sys.exit(1)] after the
    response's detail string), a job-status read at any round of the
    polling (anything but 200) and each reset action wherever
    [reboot_server] sends it (anything but 204), which log the JSON body
    and leave by [sys.exit(1)], or die of the [ValueError] of a body that
    is not JSON.  A boot-mode read whose body is not JSON ends by
    [sys.exit(1)] after a fixed line.  And what the DELETE requests of
    [clear_job_queue] are answered changes nothing to its outcome, its
    requests and its log. *)
Theorem checked_failures_are_fatal (host : string) (r : Response) (g po pa de : list Response) :
  (status_code r <> 200 ->
   set_next_boot_pxe host (mkMock g po (r :: pa) de)
   = (Exit 1, mkMock g po pa de,
      [Http (Patch (Py.fmt ["https://"; host; "/redfish/v1/Systems/System.Embedded.1"])
                   (JObj [("Boot", JObj [("BootSourceOverrideTarget", JStr "Pxe")])])) r;
       Sleep 5;
       Log ERROR (Py.fmt ["- FAIL: Command failed, error code is "; Py.str_of_int (status_code r)]);
       Log ERROR (dict_str r)])) /\
  (status_code r <> 200 ->
   forall _boot_to,
     boot_to_device host _boot_to (mkMock g po (r :: pa) de)
     = (Exit 1, mkMock g po pa de,
        [Http (Patch (Py.fmt ["https://"; host; BIOS_URI])
                     (JObj [("Attributes", JObj [("OneTimeBootMode", JStr "OneTimeBootSeq");
                                                 ("OneTimeBootSeqDev", JStr _boot_to)])])) r;
         Log ERROR (Py.fmt ["- FAIL: command failed, error code is: ";
                            Py.str_of_int (status_code r)]);
         Log ERROR (dict_str r)])) /\
  (status_code r <> 200 ->
   forall uri,
     create_bios_config_job host uri (mkMock g (r :: po) pa de)
     = (Exit 1, mkMock g po pa de,
        [Http (Post (jobs_url host) (JObj [("TargetSettingsURI", JStr uri)])) r;
         Log ERROR (Py.fmt ["- FAIL: POST command failed to create BIOS config job, status code is ";
                            Py.str_of_int (status_code r)]);
         Log ERROR (dict_str r)])) /\
  (status_code r <> 200 ->
   forall _job_id (m : Mock) (before after : list Event) (url : string),
     events (get_job_status host _job_id m) = before ++ Http (Get url) r :: after ->
     outcome (get_job_status host _job_id m) = after_extended_info r /\
     after = Log ERROR (Py.fmt ["- FAIL: Command failed to check job status, return code is ";
                                Py.str_of_int (status_code r)])
             :: extended_info r) /\
  (status_code r <> 204 ->
   forall (fuel : nat) (m : Mock) (before after : list Event) (url reset_type : string),
     events (reboot_server host fuel m)
     = before ++ Http (Post url (JObj [("ResetType", JStr reset_type)])) r :: after ->
     outcome (reboot_server host fuel m) = after_extended_info r /\
     after = Log ERROR (Py.fmt [reset_failure_line reset_type; Py.str_of_int (status_code r)])
             :: extended_info r) /\
  (status_code r <> 200 ->
   forall _job_id,
     get_job_status host _job_id (mkMock (r :: g) po pa de)
     = (after_extended_info r, mkMock g po pa de,
        Http (Get (job_url host _job_id)) r
        :: Log ERROR (Py.fmt ["- FAIL: Command failed to check job status, return code is ";
                              Py.str_of_int (status_code r)])
        :: extended_info r)) /\
  (status_code r <> 204 ->
   forall fuel r_on,
     power_state_of r_on = Some (JStr "On") ->
     reboot_server host fuel (mkMock (r_on :: g) (r :: po) pa de)
     = (after_extended_info r, mkMock g po pa de,
        Http (Get (system_url host)) r_on
        :: Log WARNING (Py.fmt ["- WARNING: Current server power state is: "; "On"])
        :: Http (Post (reset_url host) (JObj [("ResetType", JStr "GracefulRestart")])) r
        :: Log ERROR (Py.fmt ["- FAIL: Command failed to gracefully restart server, status code is: ";
                              Py.str_of_int (status_code r)])
        :: extended_info r)) /\
  (status_code r <> 204 ->
   forall fuel r_poll,
     still_up r_poll ->
     wait_for_off host (S fuel) 10 (mkMock (r_poll :: g) (r :: po) pa de)
     = (after_extended_info r, mkMock g po pa de,
        Http (Get (system_url host)) r_poll
        :: Log WARNING "- WARNING: unable to graceful shutdown the server, will perform forced shutdown now"
        :: Http (Post (reset_url host) (JObj [("ResetType", JStr "ForceOff")])) r
        :: Log ERROR (Py.fmt ["- FAIL, Command failed to gracefully power OFF server, status code is: ";
                              Py.str_of_int (status_code r)])
        :: extended_info r)) /\
  (status_code r <> 204 ->
   forall fuel r_off,
     power_state_of r_off = Some (JStr "Off") ->
     reboot_server host fuel (mkMock (r_off :: g) (r :: po) pa de)
     = (after_extended_info r, mkMock g po pa de,
        Http (Get (system_url host)) r_off
        :: Log WARNING (Py.fmt ["- WARNING: Current server power state is: "; "Off"])
        :: Http (Post (reset_url host) (JObj [("ResetType", JStr "On")])) r
        :: Log ERROR (Py.fmt ["- FAIL: Command failed to power ON server, status code is: ";
                              Py.str_of_int (status_code r)])
        :: extended_info r)) /\
  (json r = None ->
   get_bios_boot_mode host (mkMock (r :: g) po pa de)
   = (Exit 1, mkMock g po pa de,
      [Http (Get (bios_url host)) r; Log ERROR "Could not retrieve Bios Boot mode."])) /\
  (forall (queue : list string) (answers answers' : list Response),
     (List.length queue <= List.length answers)%nat ->
     (List.length queue <= List.length answers')%nat ->
     let run := clear_job_queue host queue (mkMock g po pa answers) in
     let run' := clear_job_queue host queue (mkMock g po pa answers') in
     outcome run = outcome run' /\
     requests_of (events run) = requests_of (events run') /\
     logs_of (events run) = logs_of (events run')).
Proof.
  repeat match goal with |- _ /\ _ => split end.
  - intros Hs. unfold set_next_boot_pxe. run_prims.
    destruct (Z.eqb_spec (status_code r) 200) as [E|_]; [contradiction|]. reflexivity.
  - intros Hs _boot_to. unfold boot_to_device. run_prims.
    destruct (Z.eqb_spec (status_code r) 200) as [E|_]; [contradiction|]. reflexivity.
  - intros Hs uri. unfold create_bios_config_job. run_prims.
    destruct (Z.eqb_spec (status_code r) 200) as [E|_]; [contradiction|]. reflexivity.
  - intros Hs _job_id m before after url Ht.
    rewrite <- (ended_extended_ending unit r).
    apply (job_status_loop_stops host _job_id 10 m before (Http (Get url) r) after); [exact Ht|].
    cbn [job_status_alarm].
    destruct (Z.eqb_spec (status_code r) 200) as [E|_]; [contradiction | reflexivity].
  - intros Hs fuel m before after url reset_type Ht.
    rewrite <- (ended_extended_ending unit r).
    apply (reboot_server_stops host fuel m before
             (Http (Post url (JObj [("ResetType", JStr reset_type)])) r) after); [exact Ht|].
    cbn [reset_alarm].
    destruct (Z.eqb_spec (status_code r) 204) as [E|_]; [contradiction | reflexivity].
  - intros Hs _job_id. unfold get_job_status. rewrite job_status_loop_step.
    destruct (Z.eqb_spec (status_code r) 200) as [E|_]; [contradiction | reflexivity].
  - intros Hs fuel r_on Hon. destruct (power_state_of_inv r_on _ Hon) as [members [Hj Ha]].
    unfold reboot_server. unfold bind at 1. cbn [requests_get on_get on_post on_patch on_delete].
    unfold bind at 1. unfold response_json. rewrite Hj. cbn [ret].
    unfold bind at 1. cbn [getitem]. rewrite Ha. cbn [ret].
    unfold bind at 1. cbn [log Repr.str eq_str].
    change (String.eqb "On" "On") with true. cbv iota.
    unfold bind at 1. unfold bind at 1.
    cbn [requests_post on_get on_post on_patch on_delete].
    destruct (Z.eqb_spec (status_code r) 204) as [E|_]; [contradiction|].
    rewrite reset_failed_run.
    unfold after_extended_info, extended_info. destruct (json r); reflexivity.
  - intros Hs fuel r_poll [v [Ev Hup]]. destruct (power_state_of_inv r_poll v Ev) as [members [Hj Ha]].
    cbn [wait_for_off]. unfold bind at 1. cbn [requests_get on_get on_post on_patch on_delete].
    unfold bind at 1. unfold response_json. rewrite Hj. cbn [ret].
    unfold bind at 1. cbn [getitem]. rewrite Ha. cbn [ret]. rewrite Hup.
    change (10 =? 10) with true. cbv iota.
    unfold bind at 1. cbn [log]. unfold bind at 1. unfold bind at 1.
    cbn [requests_post on_get on_post on_patch on_delete].
    destruct (Z.eqb_spec (status_code r) 204) as [E|_]; [contradiction|].
    rewrite reset_failed_run.
    unfold after_extended_info, extended_info. destruct (json r); reflexivity.
  - intros Hs fuel r_off Hoff. destruct (power_state_of_inv r_off _ Hoff) as [members [Hj Ha]].
    unfold reboot_server. unfold bind at 1. cbn [requests_get on_get on_post on_patch on_delete].
    unfold bind at 1. unfold response_json. rewrite Hj. cbn [ret].
    unfold bind at 1. cbn [getitem]. rewrite Ha. cbn [ret].
    unfold bind at 1. cbn [log Repr.str eq_str].
    change (String.eqb "Off" "On") with false. change (String.eqb "Off" "Off") with true. cbv iota.
    unfold power_on. unfold bind at 1.
    cbn [requests_post on_get on_post on_patch on_delete].
    destruct (Z.eqb_spec (status_code r) 204) as [E|_]; [contradiction|].
    rewrite reset_failed_run.
    unfold after_extended_info, extended_info. destruct (json r); reflexivity.
  - intros Hj. unfold get_bios_boot_mode, try_except_ValueError. run_prims. rewrite Hj. reflexivity.
  - intros queue answers answers'. apply clear_job_queue_whatever_deleted.
Qed.

(** Three refusals late in a run: the second job-status read, the forced
    shutdown after ten polls, the power-on after the server went off. *)
Lemma checked_failures_are_fatal_witness :
  let host := "idrac-r620" in
  let refused := mkResponse 500 (Some (JObj [("error", JStr "Internal Server Error")]))
                            "{'status_code': 500}" in
  let polling := get_job_status host "JID_1"
                   (mkMock [job_response "Task is pending."; refused; job_response TERMINAL_MESSAGE]
                           [] [] []) in
  let forcing := reboot_server host 20
                   (mkMock (repeat (power_response "On") 12 ++ [power_response "Off"])
                           [no_content; refused; no_content] [] []) in
  let powering := reboot_server host 20
                    (mkMock [power_response "On"; power_response "On"; power_response "Off"]
                            [no_content; refused] [] []) in
  let report (line : string) :=
    [(ERROR, line); (ERROR, "    Extended Info Message: {'error': 'Internal Server Error'}")] in
  (outcome polling = Exit 1 /\
   List.length (requests_of (events polling)) = 2%nat /\
   logs_of (skipn 5 (events polling))
   = report "- FAIL: Command failed to check job status, return code is 500") /\
  (outcome forcing = Exit 1 /\
   reset_types_of (events forcing) = ["GracefulRestart"; "ForceOff"] /\
   logs_of (skipn 28 (events forcing))
   = report "- FAIL, Command failed to gracefully power OFF server, status code is: 500") /\
  (outcome powering = Exit 1 /\
   reset_types_of (events powering) = ["GracefulRestart"; "On"] /\
   logs_of (skipn 10 (events powering))
   = report "- FAIL: Command failed to power ON server, status code is: 500").
Proof.
  cbv zeta.
  pose (refused := mkResponse 500 (Some (JObj [("error", JStr "Internal Server Error")]))
                              "{'status_code': 500}").
  pose proof (checked_failures_are_fatal "idrac-r620" refused [] [] [] []) as H.
  destruct H as [_ [_ [_ [Hjob [Hreset _]]]]].
  split; [|split].
  - destruct (Hjob ltac:(discriminate) "JID_1"
                (mkMock [job_response "Task is pending."; refused; job_response TERMINAL_MESSAGE]
                        [] [] [])
                (firstn 4 (events (get_job_status "idrac-r620" "JID_1"
                   (mkMock [job_response "Task is pending."; refused;
                            job_response TERMINAL_MESSAGE] [] [] []))))
                (skipn 5 (events (get_job_status "idrac-r620" "JID_1"
                   (mkMock [job_response "Task is pending."; refused;
                            job_response TERMINAL_MESSAGE] [] [] []))))
                (job_url "idrac-r620" "JID_1") eq_refl) as [Ho Ha].
    split; [exact Ho|]. split; [reflexivity|]. fold refused. rewrite Ha. reflexivity.
  - destruct (Hreset ltac:(discriminate) 20%nat
                (mkMock (repeat (power_response "On") 12 ++ [power_response "Off"])
                        [no_content; refused; no_content] [] [])
                (firstn 27 (events (reboot_server "idrac-r620" 20
                   (mkMock (repeat (power_response "On") 12 ++ [power_response "Off"])
                           [no_content; refused; no_content] [] []))))
                (skipn 28 (events (reboot_server "idrac-r620" 20
                   (mkMock (repeat (power_response "On") 12 ++ [power_response "Off"])
                           [no_content; refused; no_content] [] []))))
                (reset_url "idrac-r620") "ForceOff" eq_refl) as [Ho Ha].
    split; [exact Ho|]. split; [reflexivity|]. fold refused. rewrite Ha. reflexivity.
  - destruct (Hreset ltac:(discriminate) 20%nat
                (mkMock [power_response "On"; power_response "On"; power_response "Off"]
                        [no_content; refused] [] [])
                (firstn 9 (events (reboot_server "idrac-r620" 20
                   (mkMock [power_response "On"; power_response "On"; power_response "Off"]
                           [no_content; refused] [] []))))
                (skipn 10 (events (reboot_server "idrac-r620" 20
                   (mkMock [power_response "On"; power_response "On"; power_response "Off"]
                           [no_content; refused] [] []))))
                (reset_url "idrac-r620") "On" eq_refl) as [Ho Ha].
    split; [exact Ho|]. split; [reflexivity|]. fold refused. rewrite Ha. reflexivity.
Defined.

(** C2 as the specification words it fails on a write whose status is never read: the
    DELETE of [clear_job_queue] is answered by 500, the re-query finds the
    queue empty, and the run goes on to create the job, poll it, power the
    server on and end with status 0. *)
Lemma checked_failures_are_fatal_counterexample :
  let host := "mgmt-f21-h01-000-r620.example.com" in
  let mock := mkMock [ok (queue_document ["JID_471269252011"]); ok (queue_document []);
                      job_response TERMINAL_MESSAGE; power_response "Off"]
                     [job_created; no_content]
                     [ok (JObj [])]
                     [delete_refused] in
  let run := program boot_to_args NoSuchFile 12 mock in
  status_code delete_refused = 500 /\
  requests_of (events run)
  = [Patch (Py.fmt ["https://"; host; BIOS_URI])
           (JObj [("Attributes", JObj [("OneTimeBootMode", JStr "OneTimeBootSeq");
                                       ("OneTimeBootSeqDev", JStr "NIC.Slot.2-1-1")])]);
     Get (jobs_url host);
     Delete (delete_url host "JID_471269252011");
     Get (jobs_url host);
     Post (jobs_url host) (JObj [("TargetSettingsURI", JStr BIOS_URI)]);
     Get (job_url host "JID_471269252012");
     Get (system_url host);
     Post (reset_url host) (JObj [("ResetType", JStr "On")])] /\
  In (Http (Delete (delete_url host "JID_471269252011")) delete_refused) (events run) /\
  outcome run = Exit 0.
Proof.
  vm_compute. split; [reflexivity|]. split; [reflexivity|]. split; [|reflexivity].
  do 4 right. left. reflexivity.
Qed.

(** The boot-order PATCH is the one checked write that does not stop the
    run: answered by 500, [change_boot_order] logs its FAIL line and
    returns, and [main] goes on to the job and the reboot. *)
Example boot_order_patch_failure_goes_on :
  let host := "mgmt-f21-h01-000-r620.example.com" in
  let args := mkArgs host (Some "director") (Some "interfaces.yml") false None false false in
  let file := Yaml [("director_r620_interfaces", "NIC.Slot.2-1-1,HardDisk.List.1-1")] in
  let devices := [mkDevice "HardDisk.List.1-1" 0; mkDevice "NIC.Slot.2-1-1" 1] in
  let mock := mkMock [ok (bios_document (JStr "Bios")); ok (boot_sources_document "BootSeq" devices);
                      ok (queue_document []); job_response TERMINAL_MESSAGE; power_response "Off"]
                     [job_created; no_content]
                     [delete_refused]
                     [] in
  let run := program args file 12 mock in
  map (fun rq => match rq with Get _ => "GET" | Post _ _ => "POST"
                             | Patch _ _ => "PATCH" | Delete _ => "DELETE" end)
      (requests_of (events run))
  = ["GET"; "GET"; "PATCH"; "GET"; "POST"; "GET"; "GET"; "POST"] /\
  In (ERROR, "- FAIL: There was something wrong with your request") (logs_of (events run)) /\
  outcome run = Exit 0.
Proof.
  vm_compute. split; [reflexivity|]. split; [|reflexivity]. left. reflexivity.
Qed.

(* ================================================================== *)
(** ** The reconciler: what every patch keeps *)
(* ================================================================== *)

Lemma Forall2_compose (A : Type) (R1 R2 R3 : A -> A -> Prop) (a : list A) :
  (forall x y z, R1 x y -> R2 y z -> R3 x z) ->
  forall b c, Forall2 R1 a b -> Forall2 R2 b c -> Forall2 R3 a c.
Proof.
  intros Hcomp. induction a as [|x a IH]; intros b c H1 H2.
  - inversion H1; subst. inversion H2; subst. constructor.
  - inversion H1 as [|? y ? b' Hxy H1']; subst. inversion H2 as [|? z ? c' Hyz H2']; subst.
    constructor; [apply (Hcomp x y z); assumption | apply (IH b' c'); assumption].
Qed.

Lemma Forall2_same (A : Type) (R : A -> A -> Prop) (l : list A) :
  (forall x, R x x) -> Forall2 R l l.
Proof. intros Hr. induction l; constructor; auto. Qed.

Lemma assign_first_reassigned (name : string) (i : nat) (devices : list BootDevice) :
  Forall2 (reassigned i 1) devices (fst (assign_first name (Z.of_nat i) devices)).
Proof.
  assert (Hsame : forall d, reassigned i 1 d d) by (intros d; split; [reflexivity | left; reflexivity]).
  induction devices as [|d rest IH]; [constructor|].
  cbn [assign_first]. destruct (String.eqb name (Name d)).
  - destruct (negb (Index d =? Z.of_nat i)); cbn [fst].
    + constructor; [|apply Forall2_same; exact Hsame].
      split; [reflexivity|]. right. cbn. lia.
    + apply Forall2_same. exact Hsame.
  - destruct (assign_first name (Z.of_nat i) rest) as [rest' c]. cbn [fst] in *.
    constructor; [apply Hsame | exact IH].
Qed.

Lemma reorder_from_reassigned (interfaces : list string) :
  forall (i : nat) (devices : list BootDevice) (change : bool),
    Forall2 (reassigned i (List.length interfaces)) devices
            (fst (reorder_from i interfaces devices change)).
Proof.
  induction interfaces as [|name rest IH]; intros i devices change.
  - apply Forall2_same. intros d. split; [reflexivity | left; reflexivity].
  - cbn [reorder_from].
    pose proof (assign_first_reassigned name i devices) as H1.
    destruct (assign_first name (Z.of_nat i) devices) as [devices' c]. cbn [fst] in H1.
    apply (Forall2_compose _ (reassigned i 1) (reassigned (S i) (List.length rest)) _ devices)
      with (b := devices'); [|exact H1|apply IH].
    intros x y z [Hn1 Hi1] [Hn2 Hi2]. split; [rewrite Hn2; exact Hn1|].
    cbn [List.length]. destruct Hi2 as [Hi2|Hi2].
    + rewrite Hi2. destruct Hi1 as [Hi1|Hi1]; [left; exact Hi1 | right; lia].
    + right. lia.
Qed.









(* ================================================================== *)
(** ** [change_boot_order] and [main]: what is sent, what is turned down *)
(* ================================================================== *)

Lemma reorder_absent (interfaces : list string) (devices : list BootDevice) :
  (forall name, In name interfaces -> ~ In name (map Name devices)) ->
  reorder interfaces devices = (devices, false).
Proof.
  intros Habsent. apply reorder_from_noop. apply Forall_forall. intros d Hd k Hk.
  exfalso. apply (Habsent (Name d)); [apply nth_error_In with (n := k); exact Hk|].
  apply in_map. exact Hd.
Qed.

(** X4: a desired list none of whose names is borne by a device (a
    profile for other hardware, a misspelt list) is not an error for
    [change_boot_order]: it sends no PATCH, logs that the boot order already
    matches and leaves by [sys.exit()] with status 0. *)
Theorem change_boot_order_unknown_names (host entry : string) (_host_type : option string)
        (definitions : list (string * string)) (mode : Json) (devices : list BootDevice)
        (r_bios r_sources : Response) (g po pa de : list Response) :
  assoc (interfaces_key host _host_type) definitions = Some entry ->
  (forall name, In name (Py.split "," entry) -> ~ In name (map Name devices)) ->
  json r_bios = Some (bios_document mode) ->
  json r_sources = Some (boot_sources_document (get_boot_seq mode) devices) ->
  change_boot_order host (Yaml definitions) _host_type (mkMock (r_bios :: r_sources :: g) po pa de)
  = (Exit 0, mkMock g po pa de,
     [Http (Get (bios_url host)) r_bios;
      Http (Get (boot_sources_url host)) r_sources;
      Log WARNING NOOP_LINE]).
Proof.
  intros Hentry Habsent Hb Hs.
  rewrite (change_boot_order_run host entry _host_type definitions mode devices
             r_bios r_sources g po pa de Hentry Hb Hs).
  cbv zeta. rewrite (reorder_absent _ devices Habsent). reflexivity.
Qed.

Lemma change_boot_order_unknown_names_witness :
  let host := "mgmt-f21-h01-000-r620.example.com" in
  let devices := [mkDevice "HardDisk.List.1-1" 0; mkDevice "NIC.Slot.2-1-1" 1] in
  let r_bios := mkResponse 200 (Some (bios_document (JStr "Bios"))) "{'status_code': 200}" in
  let r_sources := mkResponse 200 (Some (boot_sources_document "BootSeq" devices))
                              "{'status_code': 200}" in
  outcome (change_boot_order host (Yaml [("foreman_r620_interfaces", "NIC.Slot.3-1-1,NIC.Slot.3-2-1")])
                             (Some "foreman") (mkMock [r_bios; r_sources] [] [] []))
  = Exit 0.
Proof.
  cbv zeta.
  rewrite (change_boot_order_unknown_names
             "mgmt-f21-h01-000-r620.example.com" "NIC.Slot.3-1-1,NIC.Slot.3-2-1" (Some "foreman")
             [("foreman_r620_interfaces", "NIC.Slot.3-1-1,NIC.Slot.3-2-1")] (JStr "Bios")
             [mkDevice "HardDisk.List.1-1" 0; mkDevice "NIC.Slot.2-1-1" 1]
             (mkResponse 200 (Some (bios_document (JStr "Bios"))) "{'status_code': 200}")
             (mkResponse 200
                (Some (boot_sources_document "BootSeq"
                         [mkDevice "HardDisk.List.1-1" 0; mkDevice "NIC.Slot.2-1-1" 1]))
                "{'status_code': 200}")
             [] [] [] [] eq_refl
             ltac:(vm_compute; intuition (subst; intuition discriminate))
             eq_refl eq_refl).
  reflexivity.
Defined.

(** *** The entries in the PATCH *)










(** X6: on the default branch of [main] an input that cannot be used (a
    [-t] that is neither foreman nor director, no [-i], no file at the path,
    a file that is not YAML, a document without the key of the host type
    and model) ends the process with status 1 before any request is sent:
    the controller is never contacted and no scripted response is used. *)
Theorem main_rejects_input_before_any_request (args : Args) (file : File) (fuel : nat) (m : Mock) :
  default_branch args ->
  rejected_input args file ->
  let run := program args file fuel m in
  exit_status (outcome run) = Some 1 /\
  requests_of (events run) = [] /\
  snd (fst run) = m.
Proof.
  intros [Hr [Hb Hc]] Hrej run. subst run.
  unfold program, main. rewrite Hr, Hb, Hc.
  unfold rejected_input, bad_host_type in Hrej.
  destruct (truthy (arg_t args)) eqn:Et.
  - destruct (existsb (String.eqb (lower (str_of_option (arg_t args)))) ["foreman"; "director"]) eqn:Ek.
    + cbn [negb].
      destruct Hrej as [[_ Hbad]|Hrej]; [discriminate|].
      destruct (truthy (arg_i args)) eqn:Ei.
      * destruct Hrej as [Hno|[Hfile|[[ex Hfile]|[defs [Hfile Hkey]]]]];
          [discriminate | subst file; repeat split | subst file; repeat split |].
        subst file. unfold change_boot_order, load_definitions, lookup_definition.
        fold (interfaces_key (arg_H args) (arg_t args)). rewrite Hkey. repeat split.
      * repeat split.
    + repeat split.
  - destruct Hrej as [[Hbad _]|Hrej]; [discriminate|].
    destruct (truthy (arg_i args)) eqn:Ei.
    * destruct Hrej as [Hno|[Hfile|[[ex Hfile]|[defs [Hfile Hkey]]]]];
        [discriminate | subst file; repeat split | subst file; repeat split |].
      subst file. unfold change_boot_order, load_definitions, lookup_definition.
      fold (interfaces_key (arg_H args) (arg_t args)). rewrite Hkey. repeat split.
    * repeat split.
Qed.

Lemma main_rejects_input_before_any_request_witness :
  let args := mkArgs "mgmt-f21-h01-000-r620.example.com" (Some "Undercloud")
                     (Some "interfaces.yml") true None false false in
  let m := mkMock [ok (bios_document (JStr "Bios"))] [no_content] [no_content] [] in
  default_branch args /\
  exit_status (outcome (program args (Yaml []) 5 m)) = Some 1 /\
  events (program args (Yaml []) 5 m) = [].
Proof.
  split; [repeat split|].
  split; [|reflexivity].
  exact (proj1 (main_rejects_input_before_any_request
                  (mkArgs "mgmt-f21-h01-000-r620.example.com" (Some "Undercloud")
                          (Some "interfaces.yml") true None false false)
                  (Yaml []) 5
                  (mkMock [ok (bios_document (JStr "Bios"))] [no_content] [no_content] [])
                  ltac:(repeat split)
                  ltac:(left; split; reflexivity))).
Defined.

(* ================================================================== *)
(** ** Boot inspection: what [check_boot] sends and prints *)
(* ================================================================== *)

Lemma quiet_ret (A : Type) (a : A) : quiet (ret a).
Proof. intros m. split; reflexivity. Qed.

Lemma quiet_raise (A : Type) (e : Exn) : quiet (@raise A e).
Proof. intros m. split; reflexivity. Qed.

Lemma quiet_log (l : Level) (s : string) : quiet (log l s).
Proof. intros m. split; reflexivity. Qed.

Lemma quiet_bind (A B : Type) (c : M A) (k : A -> M B) :
  quiet c -> (forall a, quiet (k a)) -> quiet (bind c k).
Proof.
  intros Hc Hk m. specialize (Hc m). unfold bind, events in *.
  destruct (c m) as [[o m1] t1]. cbn [fst snd] in Hc. destruct Hc as [Ht Hm]. subst m1.
  destruct o as [a| | | |]; cbn [fst snd]; try (split; [exact Ht | reflexivity]).
  specialize (Hk a m). unfold events in Hk. destruct (k a m) as [[o2 m2] t2]. cbn [fst snd] in *.
  destruct Hk as [Ht2 Hm2]. split; [|exact Hm2].
  rewrite requests_of_app, Ht, Ht2. reflexivity.
Qed.

Lemma requests_of_bind (A B : Type) (c : M A) (k : A -> M B) (m : Mock) :
  requests_of (events (bind c k m))
  = match c m with
    | (Return a, m1, t1) => requests_of t1 ++ requests_of (events (k a m1))
    | (_, _, t1) => requests_of t1
    end.
Proof.
  unfold bind, events. destruct (c m) as [[o m1] t1].
  destruct o as [a| | | |]; try reflexivity.
  destruct (k a m1) as [[o2 m2] t2]. cbn [snd]. apply requests_of_app.
Qed.

Lemma quiet_lift (A : Type) (r : Result A) : quiet (lift r).
Proof. destruct r; [apply quiet_ret | apply quiet_raise]. Qed.

Lemma quiet_getitem (d : Json) (k : string) : quiet (getitem d k).
Proof.
  destruct d as [| | | | |members]; try apply quiet_raise.
  cbn [getitem]. destruct (assoc k members); [apply quiet_ret | apply quiet_raise].
Qed.

Lemma quiet_log_devices (devices : list Json) : quiet (log_devices devices).
Proof.
  induction devices as [|d rest IH]; [apply quiet_ret|].
  cbn [log_devices]. apply quiet_bind; [apply quiet_getitem | intros index].
  apply quiet_bind; [apply quiet_lift | intros number].
  apply quiet_bind; [apply quiet_getitem | intros name].
  apply quiet_bind; [apply quiet_log | intros _; exact IH].
Qed.

Lemma quiet_log_boot_order (boot_devices : Json) : quiet (log_boot_order boot_devices).
Proof.
  unfold log_boot_order. apply quiet_bind; [apply quiet_lift | intros entries].
  apply quiet_bind; [apply quiet_lift | intros devices]. apply quiet_log_devices.
Qed.

Lemma quiet_names_match (candidate : list string) (devices : list Json) :
  quiet (names_match candidate devices).
Proof.
  induction devices as [|d rest IH]; [apply quiet_ret|].
  cbn [names_match]. apply quiet_bind; [apply quiet_getitem | intros device_name].
  apply quiet_bind; [apply quiet_getitem | intros index].
  apply quiet_bind; [apply quiet_lift | intros name].
  destruct (eq_str device_name name); [exact IH | apply quiet_ret].
Qed.

Lemma quiet_check_profiles (host : string) (hosts : list string)
      (definitions : list (string * string)) (boot_devices : Json) :
  forall interfaces, quiet (check_profiles host hosts interfaces definitions boot_devices).
Proof.
  induction hosts as [|h rest IH]; intros interfaces; [apply quiet_ret|].
  cbn [check_profiles]. apply quiet_bind.
  - unfold lookup_definition. destruct (assoc _ definitions); [apply quiet_ret | apply quiet_raise].
  - intros entry. apply quiet_bind; [apply quiet_lift | intros head].
    apply quiet_bind; [apply quiet_lift | intros entries].
    apply quiet_bind; [apply quiet_lift | intros devices].
    apply quiet_bind.
    + destruct (assoc h _); [apply quiet_ret | apply quiet_raise].
    + intros candidate. apply quiet_bind; [apply quiet_names_match|].
      intros [|]; [|apply IH].
      apply quiet_bind; [apply quiet_log | intros _; apply quiet_ret].
Qed.

(** What [check_boot] does once the devices are read sends nothing. *)
Lemma quiet_check_boot_report (host : string) (_interfaces_path : option string) (file : File)
      (boot_devices : Json) :
  quiet (match _interfaces_path with
         | Some (String _ _) =>
             load_definitions file (fun ex => log ERROR ex ;; ret (Some 1)) (fun definitions =>
             reported <- check_profiles host ["foreman"; "director"] [] definitions boot_devices ;;
             if reported : bool then ret None
             else
               log WARNING "- WARN: Current boot order does not match any of the given." ;;
               log INFO "Current boot order:" ;;
               log_boot_order boot_devices ;;
               ret None)
         | _ =>
             log INFO "Current boot order:" ;;
             log_boot_order boot_devices ;;
             ret None
         end).
Proof.
  assert (Hlist : quiet (log INFO "Current boot order:" ;;
                         log_boot_order boot_devices ;;
                         ret (@None Z))).
  { apply quiet_bind; [apply quiet_log|]. intros _.
    apply quiet_bind; [apply quiet_log_boot_order | intros _; apply quiet_ret]. }
  destruct _interfaces_path as [[|c path]|]; try exact Hlist.
  unfold load_definitions. destruct file as [|ex|definitions].
  - apply quiet_raise.
  - apply quiet_bind; [apply quiet_log | intros _; apply quiet_ret].
  - apply quiet_bind; [apply quiet_check_profiles|].
    intros [|]; [apply quiet_ret|].
    apply quiet_bind; [apply quiet_log | intros _; exact Hlist].
Qed.

(** One read: a request at most, and one exactly when it returns. *)
Lemma get_bios_boot_mode_sends (host : string) (m : Mock) :
  let r := get_bios_boot_mode host m in
  match outcome r with
  | Return _ => requests_of (events r) = [Get (bios_url host)]
  | _ => requests_of (events r) = [] \/ requests_of (events r) = [Get (bios_url host)]
  end.
Proof.
  destruct m as [g po pa de]. unfold get_bios_boot_mode, try_except_ValueError. run_prims.
  destruct g as [|r g]; [left; reflexivity|].
  destruct (json r) as [[ | | | | |members]|]; cbn; try (right; reflexivity).
  destruct (assoc "Attributes" members) as [[ | | | | |attributes]|]; cbn; try (right; reflexivity).
  destruct (assoc "BootMode" attributes); cbn; [reflexivity | right; reflexivity].
Qed.

Lemma get_boot_devices_sends (host boot_seq : string) (m : Mock) :
  let r := get_boot_devices host boot_seq m in
  match outcome r with
  | Return _ => requests_of (events r) = [Get (boot_sources_url host)]
  | _ => requests_of (events r) = [] \/ requests_of (events r) = [Get (boot_sources_url host)]
  end.
Proof.
  destruct m as [g po pa de]. unfold get_boot_devices. run_prims.
  destruct g as [|r g]; [left; reflexivity|].
  destruct (json r) as [[ | | | | |members]|]; cbn; try (right; reflexivity).
  destruct (assoc "Attributes" members) as [[ | | | | |attributes]|]; cbn; try (right; reflexivity).
  destruct (assoc boot_seq attributes); cbn; [reflexivity | right; reflexivity].
Qed.

(** X7: [check_boot] only reads.  Whatever the controller answers and
    whatever the interfaces file holds, its requests are the GET of the BIOS
    resource and then the GET of the boot sources, or a prefix of the two
    when a read fails: it never sends a PATCH, a POST or a DELETE. *)
Theorem check_boot_reads_only (host : string) (_interfaces_path : option string)
        (file : File) (m : Mock) :
  exists k,
    requests_of (events (check_boot host _interfaces_path file m))
    = firstn k [Get (bios_url host); Get (boot_sources_url host)].
Proof.
  unfold check_boot. rewrite requests_of_bind.
  pose proof (get_bios_boot_mode_sends host m) as H1. cbv zeta in H1.
  unfold outcome, events in H1.
  destruct (get_bios_boot_mode host m) as [[o1 m1] t1]. cbn [fst snd] in *.
  destruct o1 as [mode| | | |];
    try (destruct H1 as [H1|H1]; rewrite H1; [exists 0%nat | exists 1%nat]; reflexivity).
  rewrite requests_of_bind.
  pose proof (get_boot_devices_sends host (get_boot_seq mode) m1) as H2. cbv zeta in H2.
  unfold outcome, events in H2.
  destruct (get_boot_devices host (get_boot_seq mode) m1) as [[o2 m2] t2]. cbn [fst snd] in *.
  destruct o2 as [boot_devices| | | |];
    try (destruct H2 as [H2|H2]; rewrite H1, H2; [exists 1%nat | exists 2%nat]; reflexivity).
  rewrite (proj1 (quiet_check_boot_report host _interfaces_path file boot_devices m2)).
  exists 2%nat. rewrite H1, H2. reflexivity.
Qed.

Lemma log_devices_run (devices : list BootDevice) (m : Mock) :
  log_devices (map json_of_device devices) m
  = (Return tt, m, map (fun d => Log (fst (device_line d)) (snd (device_line d))) devices).
Proof.
  induction devices as [|[n i] rest IH]; [reflexivity|].
  cbn [log_devices map json_of_device].
  rewrite (bind_getitem _ _ "Index" (JNum i)) by reflexivity.
  cbn [py_int as_int lift]. rewrite bind_ret.
  rewrite (bind_getitem _ _ "Name" (JStr n)) by reflexivity.
  unfold bind, log. rewrite IH. reflexivity.
Qed.

Lemma log_boot_order_run (devices : list BootDevice) (m : Mock) :
  log_boot_order (JArr (map json_of_device devices)) m
  = (Return tt, m,
     map (fun d => Log (fst (device_line d)) (snd (device_line d))) (sorted_by_index devices)).
Proof.
  unfold log_boot_order. cbn [iterate lift]. rewrite bind_ret.
  rewrite sorted_entries_of_devices. cbn [lift]. rewrite bind_ret. apply log_devices_run.
Qed.

Lemma logs_of_device_lines (devices : list BootDevice) :
  logs_of (map (fun d => Log (fst (device_line d)) (snd (device_line d))) devices)
  = map device_line devices.
Proof.
  induction devices as [|d rest IH]; [reflexivity|].
  cbn [map]. unfold logs_of in *. cbn [flat_map app]. rewrite IH. reflexivity.
Qed.

(** X8: without an interfaces path [check_boot] prints the current boot
    order: after the heading, one line per device, in the order of their
    indices (devices of equal index in the controller's order), each with
    its index plus one and its name. *)
Theorem check_boot_lists_by_index (host : string) (_interfaces_path : option string)
        (file : File) (mode : Json) (devices : list BootDevice)
        (r_bios r_sources : Response) (g po pa de : list Response) :
  truthy _interfaces_path = false ->
  json r_bios = Some (bios_document mode) ->
  json r_sources = Some (boot_sources_document (get_boot_seq mode) devices) ->
  let run := check_boot host _interfaces_path file (mkMock (r_bios :: r_sources :: g) po pa de) in
  outcome run = Return None /\
  logs_of (events run)
  = (INFO, "Current boot order:") :: map device_line (sorted_by_index devices).
Proof.
  intros Hpath Hb Hs run.
  assert (Hrun : run = (Return None, mkMock g po pa de,
                        [Http (Get (bios_url host)) r_bios;
                         Http (Get (boot_sources_url host)) r_sources]
                        ++ Log INFO "Current boot order:"
                        :: map (fun d => Log (fst (device_line d)) (snd (device_line d)))
                               (sorted_by_index devices))).
  { subst run. unfold check_boot. unfold bind at 1.
    rewrite (get_bios_boot_mode_run host mode r_bios _ po pa de Hb).
    unfold bind at 1.
    rewrite (get_boot_devices_run host _ devices r_sources g po pa de Hs).
    assert (Hlist : (log INFO "Current boot order:" ;;
                     log_boot_order (JArr (map json_of_device devices)) ;;
                     ret (@None Z)) (mkMock g po pa de)
                    = (Return None, mkMock g po pa de,
                       Log INFO "Current boot order:"
                       :: map (fun d => Log (fst (device_line d)) (snd (device_line d)))
                              (sorted_by_index devices))).
    { unfold bind at 1. cbn [log]. unfold bind at 1. rewrite log_boot_order_run.
      cbn [ret app]. rewrite app_nil_r. reflexivity. }
    destruct _interfaces_path as [[|c path]|]; [|discriminate|]; rewrite Hlist; reflexivity. }
  rewrite Hrun. unfold outcome, events. cbn [fst snd]. split; [reflexivity|].
  rewrite logs_of_app, !logs_of_http, logs_of_log, logs_of_device_lines. reflexivity.
Qed.

Lemma check_boot_lists_by_index_witness :
  let devices := [mkDevice "NIC.Slot.2-1-1" 2; mkDevice "HardDisk.List.1-1" 0;
                  mkDevice "NIC.Integrated.1-3-1" 1] in
  let r_bios := mkResponse 200 (Some (bios_document (JStr "Bios"))) "{'status_code': 200}" in
  let r_sources := mkResponse 200 (Some (boot_sources_document "BootSeq" devices))
                              "{'status_code': 200}" in
  logs_of (events (check_boot "mgmt-f21-h01-000-r620.example.com" None NoSuchFile
                              (mkMock [r_bios; r_sources] [] [] [])))
  = [(INFO, "Current boot order:"); (INFO, "1: HardDisk.List.1-1");
     (INFO, "2: NIC.Integrated.1-3-1"); (INFO, "3: NIC.Slot.2-1-1")].
Proof.
  cbv zeta.
  rewrite (proj2 (check_boot_lists_by_index
                    "mgmt-f21-h01-000-r620.example.com" None NoSuchFile (JStr "Bios")
                    [mkDevice "NIC.Slot.2-1-1" 2; mkDevice "HardDisk.List.1-1" 0;
                     mkDevice "NIC.Integrated.1-3-1" 1]
                    (mkResponse 200 (Some (bios_document (JStr "Bios"))) "{'status_code': 200}")
                    (mkResponse 200
                       (Some (boot_sources_document "BootSeq"
                                [mkDevice "NIC.Slot.2-1-1" 2; mkDevice "HardDisk.List.1-1" 0;
                                 mkDevice "NIC.Integrated.1-3-1" 1]))
                       "{'status_code': 200}")
                    [] [] [] [] eq_refl eq_refl eq_refl)).
  reflexivity.
Defined.

(** X9: the comparison of [check_boot] indexes the candidate list with
    the device's index.  When the device listed first by the controller has
    an index outside the [foreman] list (at or past its length, or below
    minus its length), the inspection dies of an uncaught [IndexError]
    after its two reads, without reporting anything. *)
Theorem check_boot_index_out_of_range (host path_tail entry : string) (path_head : ascii)
        (definitions : list (string * string)) (mode : Json)
        (first : BootDevice) (others : list BootDevice)
        (r_bios r_sources : Response) (g po pa de : list Response) :
  assoc (Py.fmt ["foreman"; "_"; host_model host; "_interfaces"]) definitions = Some entry ->
  (Z.of_nat (List.length (Py.split "," entry)) <= Index first \/
   Index first < - Z.of_nat (List.length (Py.split "," entry))) ->
  json r_bios = Some (bios_document mode) ->
  json r_sources = Some (boot_sources_document (get_boot_seq mode) (first :: others)) ->
  check_boot host (Some (String path_head path_tail)) (Yaml definitions)
             (mkMock (r_bios :: r_sources :: g) po pa de)
  = (Raise IndexError, mkMock g po pa de,
     [Http (Get (bios_url host)) r_bios;
      Http (Get (boot_sources_url host)) r_sources]).
Proof.
  intros Hentry Hrange Hb Hs.
  assert (Hitem : Py.list_item (Py.split "," entry) (Index first) = None).
  { unfold Py.list_item.
    destruct (Z.leb_spec 0 (Index first)); destruct (Z.ltb_spec (Index first)
      (Z.of_nat (List.length (Py.split "," entry)))); cbn [andb]; try lia;
    destruct (Z.leb_spec (- Z.of_nat (List.length (Py.split "," entry))) (Index first));
    destruct (Z.ltb_spec (Index first) 0); cbn [andb]; try lia; reflexivity. }
  unfold check_boot. unfold bind at 1.
  rewrite (get_bios_boot_mode_run host mode r_bios _ po pa de Hb).
  unfold bind at 1.
  rewrite (get_boot_devices_run host _ (first :: others) r_sources g po pa de Hs).
  unfold load_definitions. unfold bind at 1.
  rewrite (check_profiles_step host "foreman" entry _ _ _ _ _ Hentry).
  cbn [dict_set List.length firstn sorted_by_index insert_by_index map].
  unfold bind at 1. rewrite names_match_step, Hitem.
  reflexivity.
Qed.

Lemma check_boot_index_out_of_range_witness :
  let devices := [mkDevice "NIC.Slot.2-1-1" 3; mkDevice "HardDisk.List.1-1" 0;
                  mkDevice "NIC.Integrated.1-3-1" 1; mkDevice "Optical.SATAEmbedded.J-1" 2] in
  let definitions := [("foreman_r620_interfaces", "HardDisk.List.1-1,NIC.Integrated.1-3-1");
                      ("director_r620_interfaces", "NIC.Integrated.1-3-1,HardDisk.List.1-1")] in
  let r_bios := mkResponse 200 (Some (bios_document (JStr "Bios"))) "{'status_code': 200}" in
  let r_sources := mkResponse 200 (Some (boot_sources_document "BootSeq" devices))
                              "{'status_code': 200}" in
  outcome (check_boot "mgmt-f21-h01-000-r620.example.com" (Some "interfaces.yml")
                      (Yaml definitions) (mkMock [r_bios; r_sources] [] [] []))
  = Raise IndexError.
Proof.
  cbv zeta.
  rewrite (check_boot_index_out_of_range "mgmt-f21-h01-000-r620.example.com"
             "nterfaces.yml" "HardDisk.List.1-1,NIC.Integrated.1-3-1" "i"
             [("foreman_r620_interfaces", "HardDisk.List.1-1,NIC.Integrated.1-3-1");
              ("director_r620_interfaces", "NIC.Integrated.1-3-1,HardDisk.List.1-1")]
             (JStr "Bios") (mkDevice "NIC.Slot.2-1-1" 3)
             [mkDevice "HardDisk.List.1-1" 0; mkDevice "NIC.Integrated.1-3-1" 1;
              mkDevice "Optical.SATAEmbedded.J-1" 2]
             (mkResponse 200 (Some (bios_document (JStr "Bios"))) "{'status_code': 200}")
             (mkResponse 200
                (Some (boot_sources_document "BootSeq"
                         [mkDevice "NIC.Slot.2-1-1" 3; mkDevice "HardDisk.List.1-1" 0;
                          mkDevice "NIC.Integrated.1-3-1" 1;
                          mkDevice "Optical.SATAEmbedded.J-1" 2]))
                "{'status_code': 200}")
             [] [] [] [] eq_refl ltac:(left; vm_compute; discriminate) eq_refl eq_refl).
  reflexivity.
Defined.

(** X10: with [--check-boot] an interfaces file that is not YAML does not
    fail the invocation: [check_boot] logs the parser's error after its two
    reads and returns 1, [main] drops that value and returns 0, and the
    process ends with status 0. *)
Theorem check_boot_bad_yaml_exits_zero (args : Args) (ex : string) (fuel : nat) (mode : Json)
        (devices : list BootDevice) (r_bios r_sources : Response) (g po pa de : list Response) :
  arg_reboot_only args = false ->
  truthy (arg_boot_to args) = false ->
  arg_check_boot args = true ->
  truthy (arg_i args) = true ->
  json r_bios = Some (bios_document mode) ->
  json r_sources = Some (boot_sources_document (get_boot_seq mode) devices) ->
  program args (BadYaml ex) fuel (mkMock (r_bios :: r_sources :: g) po pa de)
  = (Exit 0, mkMock g po pa de,
     [Http (Get (bios_url (arg_H args))) r_bios;
      Http (Get (boot_sources_url (arg_H args))) r_sources;
      Log ERROR ex]).
Proof.
  intros Hr Hbt Hc Hi Hb Hs.
  unfold program, main. rewrite Hr, Hbt, Hc.
  unfold check_boot. unfold bind at 1. unfold bind at 1. unfold bind at 1.
  rewrite (get_bios_boot_mode_run (arg_H args) mode r_bios _ po pa de Hb).
  unfold bind at 1.
  rewrite (get_boot_devices_run (arg_H args) _ devices r_sources g po pa de Hs).
  destruct (arg_i args) as [[|c path]|]; try discriminate.
  reflexivity.
Qed.

Lemma check_boot_bad_yaml_exits_zero_witness :
  let args := mkArgs "mgmt-f21-h01-000-r620.example.com" None (Some "interfaces.yml")
                     false None false true in
  let r_bios := mkResponse 200 (Some (bios_document (JStr "Bios"))) "{'status_code': 200}" in
  let r_sources := mkResponse 200 (Some (boot_sources_document "BootSeq" [mkDevice "HardDisk.List.1-1" 0]))
                              "{'status_code': 200}" in
  outcome (program args (BadYaml "mapping values are not allowed here") 3
                   (mkMock [r_bios; r_sources] [] [] []))
  = Exit 0.
Proof.
  cbv zeta.
  rewrite (check_boot_bad_yaml_exits_zero
             (mkArgs "mgmt-f21-h01-000-r620.example.com" None (Some "interfaces.yml")
                     false None false true)
             "mapping values are not allowed here" 3 (JStr "Bios")
             [mkDevice "HardDisk.List.1-1" 0]
             (mkResponse 200 (Some (bios_document (JStr "Bios"))) "{'status_code': 200}")
             (mkResponse 200 (Some (boot_sources_document "BootSeq" [mkDevice "HardDisk.List.1-1" 0]))
                         "{'status_code': 200}")
             [] [] [] [] eq_refl eq_refl eq_refl eq_refl eq_refl eq_refl).
  reflexivity.
Defined.

(* ================================================================== *)
(** ** Job polling and job creation: bounds and odd answers *)
(* ================================================================== *)

Ltac reads_done Es :=
  unfold events, requests_of, sleeps_of;
  cbn [snd flat_map app List.length repeat];
  rewrite ?Es; cbn [snd flat_map app List.length repeat].

Lemma sleeps_of_http (rq : Request) (rs : Response) (t : list Event) :
  sleeps_of (Http rq rs :: t) = sleeps_of t.
Proof. reflexivity. Qed.

Lemma sleeps_of_log (l : Level) (s : string) (t : list Event) :
  sleeps_of (Log l s :: t) = sleeps_of t.
Proof. reflexivity. Qed.

Lemma sleeps_of_sleep (n : Z) (t : list Event) : sleeps_of (Sleep n :: t) = n :: sleeps_of t.
Proof. reflexivity. Qed.

Lemma job_status_loop_bounded (host _job_id : string) (n : nat) :
  forall m, exists k,
    (k <= n)%nat /\
    requests_of (events (job_status_loop host _job_id n m)) = repeat (Get (job_url host _job_id)) k /\
    (List.length (sleeps_of (events (job_status_loop host _job_id n m))) <= k)%nat.
Proof.
  induction n as [|n IH]; intros [g po pa de].
  - exists 0%nat. repeat split; cbn; lia.
  - destruct g as [|r g]; [exists 0%nat; repeat split; cbn; lia|].
    destruct (IH (mkMock g po pa de)) as [k [Hk [Hreq Hsl]]].
    cbn [job_status_loop]. run_prims.
    assert (Hone : forall (o : Outcome unit) (m' : Mock) (t : list Event),
               requests_of t = [] -> (List.length (sleeps_of t) <= 1)%nat ->
               exists k0, (k0 <= S n)%nat /\
                 requests_of (events (o, m', Http (Get (job_url host _job_id)) r :: t))
                 = repeat (Get (job_url host _job_id)) k0 /\
                 (List.length (sleeps_of (events (o, m', Http (Get (job_url host _job_id)) r :: t)))
                  <= k0)%nat).
    { intros o m' t Hr Hs. exists 1%nat. unfold events. cbn [snd].
      rewrite requests_of_http, Hr. split; [lia|]. split; [reflexivity|]. exact Hs. }
    destruct (status_code r =? 200) eqn:Es.
    + destruct (json r) as [[ | | | | |members]|];
        try (apply Hone; cbn; [reflexivity | lia]).
      destruct (assoc "Message" members) as [v|]; [|apply Hone; cbn; [reflexivity | lia]].
      destruct (eq_str v TERMINAL_MESSAGE); [apply Hone; cbn; [reflexivity | lia]|].
      fold (log WARNING (Py.fmt ["- WARNING: JobStatus not scheduled, current status is: "; Repr.str v])).
      destruct (job_status_loop host _job_id n (mkMock g po pa de)) as [[o m] t].
      unfold events in *. cbn [snd] in *. exists (S k). split; [lia|].
      cbn [app].
      repeat first [rewrite requests_of_http | rewrite requests_of_log | rewrite requests_of_sleep].
      repeat first [rewrite sleeps_of_http | rewrite sleeps_of_log | rewrite sleeps_of_sleep].
      rewrite Hreq. split; [reflexivity|]. cbn [List.length]. lia.
    + destruct (json r) as [j|]; apply Hone; cbn; first [reflexivity | lia].
Qed.

(** X11: whatever the controller answers, [get_job_status] sends at most
    10 requests, all of them GETs of the job resource, and sleeps at most
    once per request: no answer makes it poll longer. *)
Theorem get_job_status_bounded (host _job_id : string) (m : Mock) :
  exists k,
    (k <= 10)%nat /\
    requests_of (events (get_job_status host _job_id m)) = repeat (Get (job_url host _job_id)) k /\
    (List.length (sleeps_of (events (get_job_status host _job_id m))) <= k)%nat.
Proof. apply job_status_loop_bounded. Qed.

(** X12: a job-status answer with status 200 that carries no message, at
    whatever round of the polling it comes, stops the polling by an
    uncaught exception after the sleep of 10 that follows every 200, and
    nothing is sent after it: [ValueError] when the body is not JSON,
    [KeyError] when it is a dictionary without [Message], [TypeError] when
    it is JSON of another kind. *)
Theorem get_job_status_without_message (host _job_id : string) (m : Mock) (r : Response)
        (before after : list Event) (url : string) :
  events (get_job_status host _job_id m) = before ++ Http (Get url) r :: after ->
  status_code r = 200 ->
  message_of r = None ->
  outcome (get_job_status host _job_id m)
  = Raise (match json r with
           | None => ValueError
           | Some (JObj _) => KeyError
           | Some _ => TypeError
           end) /\
  after = [Log INFO "- PASS: Command passed to check job status, code 200 returned"; Sleep 10].
Proof.
  intros Ht Hs Hm.
  apply (job_status_loop_no_message host _job_id 10 m before (Http (Get url) r) after
           (Raises (no_message_error r))); [exact Ht|].
  cbn [no_message_alarm]. rewrite Hs, Hm. reflexivity.
Qed.

Lemma get_job_status_without_message_witness :
  let bare := mkResponse 200 (Some (JObj [("JobState", JStr "Scheduled")])) "{'status_code': 200}" in
  let run := get_job_status "idrac-r620" "JID_1"
               (mkMock [job_response "Task is pending."; job_response "Task is pending."; bare;
                        job_response TERMINAL_MESSAGE] [] [] []) in
  outcome run = Raise KeyError /\
  List.length (requests_of (events run)) = 3%nat /\
  skipn 9 (events run)
  = [Log INFO "- PASS: Command passed to check job status, code 200 returned"; Sleep 10].
Proof.
  cbv zeta.
  destruct (get_job_status_without_message "idrac-r620" "JID_1"
              (mkMock [job_response "Task is pending."; job_response "Task is pending.";
                       mkResponse 200 (Some (JObj [("JobState", JStr "Scheduled")]))
                                  "{'status_code': 200}";
                       job_response TERMINAL_MESSAGE] [] [] [])
              (mkResponse 200 (Some (JObj [("JobState", JStr "Scheduled")])) "{'status_code': 200}")
              (firstn 8 (events (get_job_status "idrac-r620" "JID_1"
                 (mkMock [job_response "Task is pending."; job_response "Task is pending.";
                          mkResponse 200 (Some (JObj [("JobState", JStr "Scheduled")]))
                                     "{'status_code': 200}";
                          job_response TERMINAL_MESSAGE] [] [] []))))
              (skipn 9 (events (get_job_status "idrac-r620" "JID_1"
                 (mkMock [job_response "Task is pending."; job_response "Task is pending.";
                          mkResponse 200 (Some (JObj [("JobState", JStr "Scheduled")]))
                                     "{'status_code': 200}";
                          job_response TERMINAL_MESSAGE] [] [] []))))
              (job_url "idrac-r620" "JID_1") eq_refl eq_refl eq_refl) as [Ho Ha].
  split; [exact Ho|]. split; [reflexivity | exact Ha].
Defined.

(** A match of the pattern at the head of a string: [JID_], one
    character, and a shortest run closed by [stop]. *)
Lemma match_JID_here_inv (stop : ascii) (s m : string) :
  Py.match_JID_here stop s = Some m ->
  exists c tail body,
    Py.lazy_until stop tail = Some body /\
    m = String "J" (String "I" (String "D" (String "_" (String c body)))).
Proof.
  unfold Py.match_JID_here. intros H.
  destruct s as [|a1 [|a2 [|a3 [|a4 [|c tail]]]]];
    try (repeat match type of H with
                | match ?a with Ascii _ _ _ _ _ _ _ _ => _ end = _ =>
                    destruct a as [[|] [|] [|] [|] [|] [|] [|] [|]]
                end; discriminate).
  destruct a1 as [[|] [|] [|] [|] [|] [|] [|] [|]]; try discriminate;
    destruct a2 as [[|] [|] [|] [|] [|] [|] [|] [|]]; try discriminate;
    destruct a3 as [[|] [|] [|] [|] [|] [|] [|] [|]]; try discriminate;
    destruct a4 as [[|] [|] [|] [|] [|] [|] [|] [|]]; try discriminate.
  destruct (Ascii.eqb c Py.newline); [discriminate|].
  destruct (Py.lazy_until stop tail) as [body|] eqn:E; [|discriminate].
  cbn in H. inversion H. exists c, tail, body. split; [exact E | reflexivity].
Qed.

Lemma match_JID_here_prefix (stop : ascii) (s m : string) :
  Py.match_JID_here stop s = Some m ->
  exists rest, m = String "J" (String "I" (String "D" (String "_" rest))).
Proof.
  intros H. destruct (match_JID_here_inv stop s m H) as [c [tail [body [_ Hm]]]].
  subst m. eexists. reflexivity.
Qed.

Lemma re_search_JID_prefix (stop : ascii) (s m : string) :
  Py.re_search_JID stop s = Some m ->
  exists rest, m = String "J" (String "I" (String "D" (String "_" rest))).
Proof.
  induction s as [|a s IH]; cbn [Py.re_search_JID].
  - destruct (Py.match_JID_here stop EmptyString) eqn:E; [|discriminate].
    intros H. inversion H; subst. apply (match_JID_here_prefix stop _ _ E).
  - destruct (Py.match_JID_here stop (String a s)) eqn:E.
    + intros H. inversion H; subst. apply (match_JID_here_prefix stop _ _ E).
    + exact IH.
Qed.

Lemma drop_commas_quotes_clean (s : string) :
  Repr.contains "," (Py.drop_commas_quotes s) = false /\
  Repr.contains "'" (Py.drop_commas_quotes s) = false.
Proof.
  induction s as [|a s [IH1 IH2]]; [split; reflexivity|].
  cbn [Py.drop_commas_quotes].
  destruct (Ascii.eqb a ",") eqn:E1; cbn [orb]; [split; assumption|].
  destruct (Ascii.eqb a "'") eqn:E2; [split; assumption|].
  cbn [Repr.contains]. rewrite E1, E2, IH1, IH2. split; reflexivity.
Qed.

(** X13: on a 200 answer in which the pattern finds an identifier,
    [create_bios_config_job] returns the match with its commas and quotes
    removed: the identifier handed to the polling starts with [JID_] and
    holds neither a comma nor a single quote. *)
Theorem create_bios_config_job_returns_id (host uri found : string) (r : Response)
        (g po pa de : list Response) :
  status_code r = 200 ->
  Py.re_search_JID "," (dict_str r) = Some found ->
  let _job_id := Py.drop_commas_quotes found in
  create_bios_config_job host uri (mkMock g (r :: po) pa de)
  = (Return _job_id, mkMock g po pa de,
     [Http (Post (jobs_url host) (JObj [("TargetSettingsURI", JStr uri)])) r;
      Log INFO "- PASS: POST command passed to create target config job, status code 200 returned.";
      Log INFO (Py.fmt ["- INFO: "; _job_id; " job ID successfully created"])]) /\
  (exists rest, _job_id = String "J" (String "I" (String "D" (String "_" rest)))) /\
  Repr.contains "," _job_id = false /\
  Repr.contains "'" _job_id = false.
Proof.
  intros Hs Hfound _job_id. subst _job_id. split; [|split].
  - unfold create_bios_config_job. run_prims. rewrite Hs, Hfound. reflexivity.
  - destruct (re_search_JID_prefix "," _ _ Hfound) as [rest Hrest]. subst found.
    exists (Py.drop_commas_quotes rest). reflexivity.
  - apply drop_commas_quotes_clean.
Qed.

Lemma create_bios_config_job_returns_id_witness :
  outcome (create_bios_config_job "idrac-r620" BIOS_URI (mkMock [] [job_created] [] []))
  = Return "JID_471269252012".
Proof.
  rewrite (proj1 (create_bios_config_job_returns_id "idrac-r620" BIOS_URI "JID_471269252012',"
                    job_created [] [] [] [] eq_refl eq_refl)).
  reflexivity.
Defined.

(* ================================================================== *)
(** ** The power cycle: the other branches, the waits, the missing bound *)
(* ================================================================== *)

(** X14: a server that is [Off] is only powered on: after the read of
    the power state [reboot_server] sends one [On] reset action and, on its
    204, returns; it sends no other action, does not poll and does not
    sleep. *)
Theorem reboot_server_from_off (host : string) (fuel : nat) (r_off r_power_on : Response)
        (g po pa de : list Response) :
  power_state_of r_off = Some (JStr "Off") ->
  status_code r_power_on = 204 ->
  reboot_server host fuel (mkMock (r_off :: g) (r_power_on :: po) pa de)
  = (Return tt, mkMock g po pa de,
     [Http (Get (system_url host)) r_off;
      Log WARNING (Py.fmt ["- WARNING: Current server power state is: "; "Off"]);
      Http (Post (reset_url host) (JObj [("ResetType", JStr "On")])) r_power_on;
      Log INFO (Py.fmt ["- PASS: Command passed to power ON server, code return is ";
                        Py.str_of_int 204])]).
Proof.
  intros Hoff Hp. destruct (power_state_of_inv r_off _ Hoff) as [members [Hj Ha]].
  unfold reboot_server, power_on. run_prims. rewrite Hj, Ha.
  cbn [eq_str]. change (String.eqb "Off" "On") with false. change (String.eqb "Off" "Off") with true.
  cbn [on_get on_post on_patch on_delete]. rewrite Hp. reflexivity.
Qed.

Lemma reboot_server_from_off_witness :
  requests_of (events (reboot_server "idrac-r620" 0
                         (mkMock [power_response "Off"] [no_content] [] [])))
  = [Get (system_url "idrac-r620");
     Post (reset_url "idrac-r620") (JObj [("ResetType", JStr "On")])].
Proof.
  rewrite (reboot_server_from_off "idrac-r620" 0 (power_response "Off") no_content
             [] [] [] [] eq_refl eq_refl).
  reflexivity.
Defined.

(** X15: a power state that is neither [On] nor [Off] is fatal at once:
    [reboot_server] logs that it cannot tell the state and leaves by
    [sys.exit(1)] without sending any reset action. *)
Theorem reboot_server_unknown_state (host : string) (fuel : nat) (r : Response) (state : Json)
        (g po pa de : list Response) :
  power_state_of r = Some state ->
  eq_str state "On" = false ->
  eq_str state "Off" = false ->
  reboot_server host fuel (mkMock (r :: g) po pa de)
  = (Exit 1, mkMock g po pa de,
     [Http (Get (system_url host)) r;
      Log WARNING (Py.fmt ["- WARNING: Current server power state is: "; Repr.str state]);
      Log ERROR "- FAIL: unable to get current server power state to perform either reboot or power on"]).
Proof.
  intros Hstate Hon Hoff. destruct (power_state_of_inv r _ Hstate) as [members [Hj Ha]].
  unfold reboot_server. run_prims. rewrite Hj, Ha, Hon, Hoff. reflexivity.
Qed.

Lemma reboot_server_unknown_state_witness :
  outcome (reboot_server "idrac-r620" 5 (mkMock [power_response "PoweringOn"] [no_content] [] []))
  = Exit 1.
Proof.
  rewrite (reboot_server_unknown_state "idrac-r620" 5 (power_response "PoweringOn")
             (JStr "PoweringOn") [] [no_content] [] [] eq_refl eq_refl eq_refl).
  reflexivity.
Defined.

(** While no poll reads [Off] and every forced power-off is answered by
    204 the loop goes on: [fuel] rounds leave it running. *)
Lemma wait_for_off_goes_on (host : string) (g po pa de : list Response) (fuel : nat) :
  forall (count : Z) (polls forces : list Response),
    0 <= count <= 10 ->
    Forall still_up polls ->
    Forall (fun f => status_code f = 204) forces ->
    List.length polls = fuel ->
    List.length forces = (fuel - Z.to_nat (10 - count))%nat ->
    exists t,
      wait_for_off host fuel count (mkMock (polls ++ g) (forces ++ po) pa de)
      = (OutOfFuel, mkMock g po pa de, t) /\
      reset_types_of t = repeat "ForceOff" (List.length forces).
Proof.
  induction fuel as [|fuel IH]; intros count polls forces Hc Hup Hf Hlp Hlf.
  - destruct polls; [|discriminate]. destruct forces; [|discriminate].
    eexists. split; reflexivity.
  - destruct polls as [|p polls]; [discriminate|].
    inversion Hup as [|? ? Hp Hup']; subst. cbn [app].
    destruct (Z.eq_dec count 10) as [E|E].
    + subst count. change (Z.to_nat (10 - 10)) with 0%nat in Hlf. rewrite Nat.sub_0_r in Hlf.
      destruct forces as [|f forces]; [discriminate|].
      inversion Hf as [|? ? Hf1 Hf']; subst. cbn [app].
      rewrite (wait_for_off_force host fuel p f _ _ pa de Hp Hf1).
      destruct (IH 10 polls forces) as [t [Hrun Ht]];
        [lia | exact Hup' | exact Hf' | cbn in Hlp; lia
         | change (Z.to_nat (10 - 10)) with 0%nat; cbn in Hlf; lia |].
      rewrite Hrun. eexists. split; [reflexivity|].
      rewrite reset_types_of_app, Ht. reflexivity.
    + rewrite (wait_for_off_sleep host fuel count p _ _ pa de Hp E).
      destruct (IH (count + 1) polls forces) as [t [Hrun Ht]];
        [lia | exact Hup' | exact Hf | cbn in Hlp; lia | lia |].
      rewrite Hrun. eexists. split; [reflexivity|].
      rewrite reset_types_of_app, Ht. reflexivity.
Qed.

(** X16: the wait for [Off] has no bound.  With the server [On] and the
    graceful reset answered by 204, as long as no poll reads [Off] and every
    forced power-off is answered by 204, [reboot_server] is still in its
    loop after any number of polls: it has sent one [ForceOff] for each
    poll past the tenth, it has not sent the power-On, and it has not given
    up. *)
Theorem reboot_server_never_gives_up (host : string) (fuel : nat)
        (r_on r_graceful : Response) (polls forces g po pa de : list Response) :
  power_state_of r_on = Some (JStr "On") ->
  status_code r_graceful = 204 ->
  Forall still_up polls ->
  Forall (fun f => status_code f = 204) forces ->
  List.length polls = fuel ->
  List.length forces = (fuel - 10)%nat ->
  let r := reboot_server host fuel
             (mkMock (r_on :: polls ++ g) (r_graceful :: forces ++ po) pa de) in
  outcome r = OutOfFuel /\
  reset_types_of (events r) = "GracefulRestart" :: repeat "ForceOff" (fuel - 10).
Proof.
  intros Hon Hg Hup Hf Hlp Hlf r. subst r.
  destruct (power_state_of_inv r_on _ Hon) as [members [Hj Ha]].
  destruct (wait_for_off_goes_on host g po pa de fuel 0 polls forces)
    as [t [Hrun Ht]]; [lia | exact Hup | exact Hf | exact Hlp | exact Hlf |].
  unfold reboot_server. run_prims. rewrite Hj, Ha. cbn [eq_str String.eqb Ascii.eqb Bool.eqb].
  cbn [on_get on_post on_patch on_delete]. rewrite Hg. change (204 =? 204) with true.
  cbn [on_get on_post on_patch on_delete]. rewrite Hrun.
  unfold outcome, events. cbn [fst snd]. split; [reflexivity|].
  rewrite !reset_types_of_app, Ht, Hlf. reflexivity.
Qed.

Lemma reboot_server_never_gives_up_witness :
  let r := reboot_server "idrac-r620" 13
             (mkMock (power_response "On" :: repeat (power_response "On") 13 ++ [])
                     (no_content :: repeat no_content 3 ++ []) [] []) in
  outcome r = OutOfFuel /\
  reset_types_of (events r) = ["GracefulRestart"; "ForceOff"; "ForceOff"; "ForceOff"].
Proof.
  apply (reboot_server_never_gives_up "idrac-r620" 13 (power_response "On") no_content
           (repeat (power_response "On") 13) (repeat no_content 3) [] [] [] []);
    try reflexivity.
  - repeat constructor; exists (JStr "On"); split; reflexivity.
  - repeat constructor.
Defined.

(* ================================================================== *)
(** ** The power cycle: how long it waits *)
(* ================================================================== *)

Lemma wait_for_off_forced_sleeps (host : string) (r_off : Response) (g po pa de : list Response) :
  reads_off r_off = true ->
  forall polls forces fuel,
    Forall still_up polls ->
    Forall (fun f => status_code f = 204) forces ->
    List.length forces = List.length polls ->
    (List.length polls < fuel)%nat ->
    sleeps_of (events (wait_for_off host fuel 10 (mkMock (polls ++ r_off :: g) (forces ++ po) pa de)))
    = repeat 10 (List.length polls).
Proof.
  intros Hoff. induction polls as [|p polls IH]; intros forces fuel Hup Hf Hlen Hfuel.
  - destruct forces; [|discriminate]. destruct fuel as [|fuel]; [inversion Hfuel|].
    cbn [app]. rewrite (wait_for_off_done host fuel 10 r_off g po pa de Hoff). reflexivity.
  - destruct forces as [|f forces]; [discriminate|]. destruct fuel as [|fuel]; [inversion Hfuel|].
    inversion Hup as [|? ? Hp Hup']; subst. inversion Hf as [|? ? Hf1 Hf']; subst.
    cbn [app]. rewrite (wait_for_off_force host fuel p f _ _ pa de Hp Hf1).
    specialize (IH forces fuel Hup' Hf'). unfold events in *.
    destruct (wait_for_off host fuel 10 (mkMock (polls ++ r_off :: g) (forces ++ po) pa de))
      as [[o m] t]. cbn [snd] in *.
    rewrite sleeps_of_app, IH; [reflexivity | cbn in Hlen; lia | cbn in Hfuel; lia].
Qed.

Lemma wait_for_off_sleeps (host : string) (r_off : Response) (g po pa de : list Response) :
  reads_off r_off = true ->
  forall polls count forces fuel,
    0 <= count <= 10 ->
    Forall still_up polls ->
    Forall (fun f => status_code f = 204) forces ->
    List.length forces = (List.length polls - Z.to_nat (10 - count))%nat ->
    (List.length polls < fuel)%nat ->
    sleeps_of (events (wait_for_off host fuel count
                         (mkMock (polls ++ r_off :: g) (forces ++ po) pa de)))
    = repeat 1 (List.length polls - List.length forces) ++ repeat 10 (List.length forces).
Proof.
  intros Hoff. induction polls as [|p polls IH]; intros count forces fuel Hc Hup Hf Hlen Hfuel.
  - destruct forces; [|discriminate]. destruct fuel as [|fuel]; [inversion Hfuel|].
    cbn [app]. rewrite (wait_for_off_done host fuel count r_off g po pa de Hoff). reflexivity.
  - destruct (Z.eq_dec count 10) as [E|E].
    + subst count. change (Z.to_nat (10 - 10)) with 0%nat in Hlen. rewrite Nat.sub_0_r in Hlen.
      rewrite (wait_for_off_forced_sleeps host r_off g po pa de Hoff (p :: polls) forces fuel
                 Hup Hf Hlen Hfuel).
      rewrite Hlen, Nat.sub_diag. reflexivity.
    + destruct fuel as [|fuel]; [inversion Hfuel|].
      inversion Hup as [|? ? Hp Hup']; subst.
      cbn [app]. rewrite (wait_for_off_sleep host fuel count p _ _ pa de Hp E).
      assert (Hlen' : List.length forces = (List.length polls - Z.to_nat (10 - (count + 1)))%nat)
        by (cbn [List.length] in Hlen; lia).
      specialize (IH (count + 1) forces fuel ltac:(lia) Hup' Hf Hlen' ltac:(cbn in Hfuel; lia)).
      unfold events in *.
      destruct (wait_for_off host fuel (count + 1)
                  (mkMock (polls ++ r_off :: g) (forces ++ po) pa de)) as [[o m] t].
      cbn [snd] in *. rewrite sleeps_of_app, IH.
      replace (List.length (p :: polls) - List.length forces)%nat
        with (S (List.length polls - List.length forces)) by (cbn [List.length]; lia).
      reflexivity.
Qed.

(** X17: how long a power cycle waits.  With the server [On], every action
    answered by 204 and [n] polls that do not read [Off] before the one
    that does, [reboot_server] sleeps 3 seconds after the graceful reset,
    1 second after each of the first 10 such polls and 10 seconds after
    each forced power-off: [3 + min n 10 + 10 * (n - 10)] seconds in
    all. *)
Theorem reboot_server_waits (host : string) (n fuel : nat)
        (r_on r_off r_graceful r_power_on : Response) (polls forces g po pa de : list Response) :
  power_state_of r_on = Some (JStr "On") ->
  status_code r_graceful = 204 ->
  List.length polls = n ->
  Forall still_up polls ->
  reads_off r_off = true ->
  Forall (fun f => status_code f = 204) forces ->
  List.length forces = (n - 10)%nat ->
  status_code r_power_on = 204 ->
  (n < fuel)%nat ->
  sleeps_of (events (reboot_server host fuel
                       (mkMock (r_on :: polls ++ r_off :: g)
                               (r_graceful :: forces ++ r_power_on :: po) pa de)))
  = 3 :: repeat 1 (Nat.min n 10) ++ repeat 10 (n - 10).
Proof.
  intros Hon Hg Hn Hup Hoff Hf Hlen Hp Hfuel.
  destruct (power_state_of_inv r_on _ Hon) as [members [Hj Ha]].
  pose proof (wait_for_off_sleeps host r_off g (r_power_on :: po) pa de Hoff polls 0 forces fuel
                ltac:(lia) Hup Hf ltac:(rewrite Hlen, Hn; reflexivity) ltac:(lia)) as Hs.
  destruct (wait_for_off_budget host r_off g (r_power_on :: po) pa de Hoff polls 0 forces fuel)
    as [t [Hrun Ht]]; [lia | exact Hup | exact Hf | rewrite Hlen, Hn; reflexivity | lia |].
  rewrite Hrun in Hs. unfold events in Hs. cbn [snd] in Hs.
  unfold reboot_server, power_on. run_prims. rewrite Hj, Ha. cbn [eq_str String.eqb Ascii.eqb Bool.eqb].
  cbn [on_get on_post on_patch on_delete]. rewrite Hg. change (204 =? 204) with true.
  cbn [on_get on_post on_patch on_delete]. rewrite Hrun.
  cbn [on_get on_post on_patch on_delete]. rewrite Hp. change (204 =? 204) with true.
  unfold events. cbn [snd]. rewrite !sleeps_of_app, Hs, Hlen, Hn.
  replace (n - (n - 10))%nat with (Nat.min n 10) by lia.
  cbn [app]. unfold sleeps_of at 1 2 3. cbn [flat_map app].
  rewrite app_nil_r. reflexivity.
Qed.

Lemma reboot_server_waits_witness :
  sleeps_of (events (reboot_server "idrac-r620" 13
                       (mkMock (power_response "On" :: repeat (power_response "On") 12
                                  ++ power_response "Off" :: [])
                               (no_content :: repeat no_content 2 ++ no_content :: []) [] [])))
  = [3; 1; 1; 1; 1; 1; 1; 1; 1; 1; 1; 10; 10].
Proof.
  apply (reboot_server_waits "idrac-r620" 12 13
           (power_response "On") (power_response "Off") no_content no_content
           (repeat (power_response "On") 12) (repeat no_content 2) [] [] [] []);
    try reflexivity; try lia.
  - repeat constructor; exists (JStr "On"); split; reflexivity.
  - repeat constructor.
Defined.

(* ================================================================== *)
(** ** Host names and interface lists *)
(* ================================================================== *)

Lemma split_without (sep : ascii) (s : string) :
  without sep s -> Py.split sep s = [s].
Proof.
  unfold without. induction s as [|a s IH]; [reflexivity|].
  cbn [Repr.contains Py.split]. rewrite Ascii.eqb_sym.
  destruct (Ascii.eqb sep a); [discriminate|]. cbn [orb]. intros H. rewrite (IH H). reflexivity.
Qed.

Lemma split_nonempty (sep : ascii) (s : string) : Py.split sep s <> [].
Proof.
  induction s as [|a s IH]; [discriminate|].
  cbn [Py.split]. destruct (Ascii.eqb a sep); [discriminate|].
  destruct (Py.split sep s); discriminate.
Qed.

Lemma split_app (sep : ascii) (a b : string) :
  without sep a -> Py.split sep (a ++ String sep b) = a :: Py.split sep b.
Proof.
  unfold without. induction a as [|c a IH].
  - intros _. cbn [append Py.split]. rewrite Ascii.eqb_refl. reflexivity.
  - cbn [Repr.contains append Py.split]. rewrite Ascii.eqb_sym.
    destruct (Ascii.eqb sep c); [discriminate|]. cbn [orb]. intros H. rewrite (IH H). reflexivity.
Qed.

Lemma last_split_app (sep : ascii) (a b : string) :
  Py.last_item (Py.split sep (a ++ String sep b)) = Py.last_item (Py.split sep b).
Proof.
  unfold Py.last_item.
  assert (Hcons : forall (x : string) (l : list string), l <> [] -> last (x :: l) EmptyString = last l EmptyString).
  { intros x [|y l] H; [contradiction H; reflexivity | reflexivity]. }
  induction a as [|c a IH].
  - cbn [append Py.split]. rewrite Ascii.eqb_refl. apply Hcons. apply split_nonempty.
  - cbn [append Py.split]. destruct (Ascii.eqb c sep).
    + rewrite Hcons by apply split_nonempty. exact IH.
    + destruct (Py.split sep (a ++ String sep b)) as [|w ws] eqn:E;
        [exfalso; apply (split_nonempty sep _ E)|].
      destruct ws as [|w' ws].
      * exfalso.
        assert (Hlen : (2 <= List.length (Py.split sep (a ++ String sep b)))%nat).
        { clear. induction a as [|c a IH].
          - cbn [append Py.split]. rewrite Ascii.eqb_refl.
            pose proof (split_nonempty sep b). destruct (Py.split sep b); [contradiction|cbn; lia].
          - cbn [append Py.split]. destruct (Ascii.eqb c sep); [cbn; lia|].
            destruct (Py.split sep (a ++ String sep b)); cbn in *; lia. }
        rewrite E in Hlen. cbn in Hlen. lia.
      * rewrite <- IH. reflexivity.
Qed.

(** X18: the host model is the last hyphen-separated piece of the first
    dot-separated label of the host name: for a name [prefix-model.domain]
    whose model holds no hyphen and whose label holds no dot it is [model],
    whatever hyphens the prefix has; a name with neither dot nor hyphen is
    its own model. *)
Theorem host_model_of_host_name :
  (forall prefix model domain,
      without "." prefix -> without "." model -> without "-" model ->
      host_model (prefix ++ String "-" (model ++ String "." domain)) = model) /\
  (forall host, without "." host -> without "-" host -> host_model host = host).
Proof.
  split.
  - intros prefix model domain Hp Hm Hh. unfold host_model.
    assert (Hlabel : without "." (prefix ++ String "-" model)).
    { unfold without in *. clear Hh. induction prefix as [|c p IH].
      - cbn. exact Hm.
      - cbn [append Repr.contains] in *. apply orb_false_iff in Hp. destruct Hp as [Hc Hp].
        rewrite Hc. cbn [orb]. apply IH. exact Hp. }
    assert (Hassoc : (prefix ++ String "-" (model ++ String "." domain)
                      = (prefix ++ String "-" model) ++ String "." domain)%string).
    { clear. induction prefix as [|c p IH]; cbn [append]; [reflexivity|].
      rewrite IH. reflexivity. }
    rewrite Hassoc, (split_app "." _ domain Hlabel). cbn [hd].
    rewrite last_split_app, (split_without "-" model Hh). reflexivity.
  - intros host Hd Hh. unfold host_model.
    rewrite (split_without "." host Hd). cbn [hd]. rewrite (split_without "-" host Hh). reflexivity.
Qed.

Lemma host_model_of_host_name_witness :
  host_model ("mgmt-f21-h01-000" ++ String "-" ("r620" ++ String "." "example.com")) = "r620".
Proof.
  apply (proj1 host_model_of_host_name "mgmt-f21-h01-000" "r620" "example.com");
    reflexivity.
Defined.

(** X19: an entry of the interfaces document is cut at its commas and at
    nothing else: a list of names, none of them holding a comma, written
    with commas between them, is read back as that list (blanks around a
    name are kept as part of it). *)
Theorem interfaces_entry_round_trip (names : list string) :
  names <> [] ->
  Forall (without ",") names ->
  Py.split "," (String.concat "," names) = names.
Proof.
  intros Hne Hall. induction Hall as [|x l Hx Hl IH]; [contradiction Hne; reflexivity|].
  destruct l as [|y l].
  - cbn [String.concat]. apply split_without. exact Hx.
  - change (String.concat "," (x :: y :: l))
      with (x ++ String "," (String.concat "," (y :: l)))%string.
    rewrite (split_app "," x _ Hx), IH; [reflexivity | discriminate].
Qed.

Lemma interfaces_entry_round_trip_witness :
  Py.split "," (String.concat "," ["NIC.Slot.2-1-1"; " HardDisk.List.1-1"; "NIC.Integrated.1-3-1"])
  = ["NIC.Slot.2-1-1"; " HardDisk.List.1-1"; "NIC.Integrated.1-3-1"].
Proof.
  apply (interfaces_entry_round_trip
           ["NIC.Slot.2-1-1"; " HardDisk.List.1-1"; "NIC.Integrated.1-3-1"]);
    [discriminate | repeat constructor].
Defined.

(* ================================================================== *)
(** ** The job is always created for the BIOS settings *)
(* ================================================================== *)

Lemma posted_to_app (url : string) (t1 t2 : list Event) :
  posted_to url (t1 ++ t2) = posted_to url t1 ++ posted_to url t2.
Proof. unfold posted_to. apply flat_map_app. Qed.

Lemma posted_to_bind (A B : Type) (url : string) (c : M A) (k : A -> M B) (m : Mock) :
  posted_to url (events (bind c k m))
  = match c m with
    | (Return a, m1, t1) => posted_to url t1 ++ posted_to url (events (k a m1))
    | (_, _, t1) => posted_to url t1
    end.
Proof.
  unfold bind, events. destruct (c m) as [[o m1] t1].
  destruct o as [a| | | |]; try reflexivity.
  destruct (k a m1) as [[o2 m2] t2]. cbn [snd]. apply posted_to_app.
Qed.

Lemma posts_nothing_bind (A B : Type) (url : string) (c : M A) (k : A -> M B) :
  posts_nothing_to url c -> (forall a, posts_nothing_to url (k a)) ->
  posts_nothing_to url (bind c k).
Proof.
  intros Hc Hk m. rewrite posted_to_bind. specialize (Hc m). unfold events in Hc.
  destruct (c m) as [[o m1] t1]. cbn [snd] in Hc.
  destruct o as [a| | | |]; try exact Hc. rewrite Hc, (Hk a m1). reflexivity.
Qed.

Lemma posts_nothing_ret (A : Type) (url : string) (a : A) : posts_nothing_to url (ret a).
Proof. intros m. reflexivity. Qed.

Lemma posts_nothing_raise (A : Type) (url : string) (e : Exn) : posts_nothing_to url (@raise A e).
Proof. intros m. reflexivity. Qed.

Lemma posts_nothing_exit (A : Type) (url : string) (code : Z) : posts_nothing_to url (@sys_exit A code).
Proof. intros m. reflexivity. Qed.

Lemma posts_nothing_out_of_fuel (A : Type) (url : string) : posts_nothing_to url (@out_of_fuel A).
Proof. intros m. reflexivity. Qed.

Lemma posts_nothing_log (url : string) (l : Level) (s : string) : posts_nothing_to url (log l s).
Proof. intros m. reflexivity. Qed.

Lemma posts_nothing_sleep (url : string) (n : Z) : posts_nothing_to url (time_sleep n).
Proof. intros m. reflexivity. Qed.

Lemma posts_nothing_get (url u : string) : posts_nothing_to url (requests_get u).
Proof. intros [[|r g] po pa de]; reflexivity. Qed.

Lemma posts_nothing_delete (url u : string) : posts_nothing_to url (requests_delete u).
Proof. intros [g po pa [|r de]]; reflexivity. Qed.

Lemma posts_nothing_post (url u : string) (payload : Json) :
  String.eqb u url = false -> posts_nothing_to url (requests_post u payload).
Proof.
  intros Hne [g [|r po] pa de]; [reflexivity|].
  unfold requests_post, events, posted_to. cbn [on_post snd flat_map app]. rewrite Hne. reflexivity.
Qed.

Lemma posts_nothing_response_json (url : string) (r : Response) :
  posts_nothing_to url (response_json r).
Proof. unfold response_json. destruct (json r); [apply posts_nothing_ret | apply posts_nothing_raise]. Qed.

Lemma posts_nothing_getitem (url : string) (d : Json) (k : string) :
  posts_nothing_to url (getitem d k).
Proof.
  destruct d as [ | | | | |members]; try apply posts_nothing_raise.
  cbn [getitem]. destruct (assoc k members); [apply posts_nothing_ret | apply posts_nothing_raise].
Qed.

(** Break a computation of [M] down to its primitives. *)
Ltac no_job_post :=
  repeat first
    [ apply posts_nothing_ret | apply posts_nothing_raise | apply posts_nothing_exit
    | apply posts_nothing_out_of_fuel | apply posts_nothing_log | apply posts_nothing_sleep
    | apply posts_nothing_get | apply posts_nothing_delete
    | apply posts_nothing_response_json | apply posts_nothing_getitem
    | assumption
    | apply posts_nothing_bind; [|intros ?]
    | match goal with
      | |- posts_nothing_to _ (if ?b then _ else _) => destruct b
      | |- posts_nothing_to _ (match ?x with _ => _ end) => destruct x
      end ].

Lemma eqb_append (a b c : string) : String.eqb (a ++ b) (a ++ c) = String.eqb b c.
Proof.
  induction a as [|x a IH]; [reflexivity|].
  cbn [append String.eqb]. rewrite Ascii.eqb_refl. exact IH.
Qed.

Lemma reset_is_not_jobs (host : string) : String.eqb (reset_url host) (jobs_url host) = false.
Proof.
  unfold reset_url, jobs_url, Py.fmt. cbn [String.concat].
  rewrite !eqb_append. reflexivity.
Qed.

Lemma posts_nothing_get_job_queue (host : string) :
  posts_nothing_to (jobs_url host) (get_job_queue host).
Proof. unfold get_job_queue. no_job_post. Qed.

Lemma posts_nothing_delete_jobs (host u : string) (q : list string) :
  posts_nothing_to (jobs_url host) (delete_jobs u q).
Proof. induction q as [|j q IH]; cbn [delete_jobs]; no_job_post. Qed.

Lemma posts_nothing_clear_job_queue (host : string) (q : list string) :
  posts_nothing_to (jobs_url host) (clear_job_queue host q).
Proof.
  unfold clear_job_queue. destruct q as [|j q]; [no_job_post|].
  apply posts_nothing_bind; [no_job_post|]. intros _.
  apply posts_nothing_bind; [apply posts_nothing_delete_jobs|]. intros _.
  apply posts_nothing_bind; [apply posts_nothing_get_job_queue|]. intros [|j' q']; no_job_post.
Qed.

Lemma posts_nothing_job_status_loop (host _job_id : string) (n : nat) :
  posts_nothing_to (jobs_url host) (job_status_loop host _job_id n).
Proof. induction n as [|n IH]; cbn [job_status_loop]; no_job_post. Qed.

Lemma posts_nothing_reset_failed (host failed : string) (r : Response) :
  posts_nothing_to (jobs_url host) (reset_failed failed r).
Proof. unfold reset_failed. no_job_post. Qed.

Lemma posts_nothing_power_on (host : string) :
  posts_nothing_to (jobs_url host) (power_on (reset_url host)).
Proof.
  unfold power_on. apply posts_nothing_bind;
    [apply posts_nothing_post; apply reset_is_not_jobs|].
  intros r. destruct (status_code r =? 204); [no_job_post | apply posts_nothing_reset_failed].
Qed.

Lemma posts_nothing_wait_for_off (host : string) (fuel : nat) :
  forall count, posts_nothing_to (jobs_url host) (wait_for_off host fuel count).
Proof.
  induction fuel as [|fuel IH]; intros count; cbn [wait_for_off]; [no_job_post|].
  apply posts_nothing_bind; [no_job_post|]. intros r.
  apply posts_nothing_bind; [no_job_post|]. intros data.
  apply posts_nothing_bind; [no_job_post|]. intros state.
  destruct (eq_str state "Off"); [no_job_post|].
  destruct (count =? 10).
  - apply posts_nothing_bind; [no_job_post|]. intros _.
    apply posts_nothing_bind; [apply posts_nothing_post; apply reset_is_not_jobs|]. intros f.
    apply posts_nothing_bind; [|intros _; apply IH].
    destruct (status_code f =? 204); [no_job_post | apply posts_nothing_reset_failed].
  - apply posts_nothing_bind; [no_job_post | intros _; apply IH].
Qed.

Lemma posts_nothing_reboot_server (host : string) (fuel : nat) :
  posts_nothing_to (jobs_url host) (reboot_server host fuel).
Proof.
  unfold reboot_server.
  apply posts_nothing_bind; [no_job_post|]. intros r.
  apply posts_nothing_bind; [no_job_post|]. intros data.
  apply posts_nothing_bind; [no_job_post|]. intros state.
  apply posts_nothing_bind; [no_job_post|]. intros _.
  destruct (eq_str state "On").
  - apply posts_nothing_bind; [apply posts_nothing_post; apply reset_is_not_jobs|]. intros f.
    apply posts_nothing_bind.
    + destruct (status_code f =? 204); [no_job_post | apply posts_nothing_reset_failed].
    + intros _. apply posts_nothing_bind; [apply posts_nothing_wait_for_off|].
      intros _. apply posts_nothing_power_on.
  - destruct (eq_str state "Off"); [apply posts_nothing_power_on | no_job_post].
Qed.

(** One job creation posts its payload, or nothing when the request is
    never answered. *)
Lemma create_bios_config_job_posts (host uri : string) (m : Mock) :
  posted_to (jobs_url host) (events (create_bios_config_job host uri m)) = [] \/
  posted_to (jobs_url host) (events (create_bios_config_job host uri m))
  = [JObj [("TargetSettingsURI", JStr uri)]].
Proof.
  destruct m as [g [|r po] pa de]; [left; reflexivity|]. right.
  unfold create_bios_config_job. run_prims.
  destruct (status_code r =? 200);
    [destruct (Py.re_search_JID "," (dict_str r))|];
    unfold events, posted_to; cbn [snd flat_map app]; rewrite String.eqb_refl; reflexivity.
Qed.

(** X20: the tail that [main] runs after a boot-order change and after
    [--boot-to] (queue, job, polling, reboot) creates its job for the BIOS
    settings URI and for nothing else: whatever the controller answers, the
    only thing it ever posts to the job collection is one payload whose
    [TargetSettingsURI] is [BIOS_URI], also when the PATCH before it went
    to the boot-sources settings. *)
Theorem job_targets_bios_settings (host : string) (fuel : nat) (m : Mock) :
  posted_to (jobs_url host) (events (run_job_and_reboot host fuel m)) = [] \/
  posted_to (jobs_url host) (events (run_job_and_reboot host fuel m))
  = [JObj [("TargetSettingsURI", JStr BIOS_URI)]].
Proof.
  unfold run_job_and_reboot. rewrite posted_to_bind.
  pose proof (posts_nothing_get_job_queue host m) as H1. unfold events in H1.
  destruct (get_job_queue host m) as [[o1 m1] t1]. cbn [snd] in H1. rewrite H1.
  destruct o1 as [jobs_queue| | | |]; try (left; reflexivity).
  cbn [app]. rewrite posted_to_bind.
  assert (H2 : posted_to (jobs_url host)
                 (events (match jobs_queue with
                          | [] => ret tt
                          | _ :: _ => clear_job_queue host jobs_queue
                          end m1)) = []).
  { destruct jobs_queue; [reflexivity | apply posts_nothing_clear_job_queue]. }
  unfold events in H2.
  destruct (match jobs_queue with [] => ret tt | _ :: _ => clear_job_queue host jobs_queue end m1)
    as [[o2 m2] t2]. cbn [snd] in H2. rewrite H2.
  destruct o2 as [[]| | | |]; try (left; reflexivity).
  cbn [app]. rewrite posted_to_bind.
  pose proof (create_bios_config_job_posts host BIOS_URI m2) as H3. unfold events in H3.
  destruct (create_bios_config_job host BIOS_URI m2) as [[o3 m3] t3]. cbn [snd] in H3.
  destruct o3 as [job_id| | | |]; try exact H3.
  assert (Hrest : posted_to (jobs_url host)
                    (events ((get_job_status host job_id ;; reboot_server host fuel ;; ret 0) m3))
                  = []).
  { apply posts_nothing_bind; [apply posts_nothing_job_status_loop|]. intros _.
    apply posts_nothing_bind; [apply posts_nothing_reboot_server|]. intros _.
    apply posts_nothing_ret. }
  rewrite Hrest, app_nil_r. exact H3.
Qed.

(* ================================================================== *)
(** ** The job queue and the reads of the reconciler: odd answers *)
(* ================================================================== *)

Lemma lazy_until_ends (stop : ascii) (s body : string) :
  Py.lazy_until stop s = Some body ->
  exists c rest, body = String c rest /\ ends_with stop body = true.
Proof.
  revert body. induction s as [|a s IH]; intros body H; [discriminate|].
  cbn [Py.lazy_until] in H. destruct (Ascii.eqb a stop) eqn:Ea.
  - inversion H; subst. exists a, EmptyString. split; [reflexivity|]. cbn. exact Ea.
  - destruct (Ascii.eqb a Py.newline); [discriminate|].
    destruct (Py.lazy_until stop s) as [b|]; [|discriminate]. inversion H; subst.
    destruct (IH b eq_refl) as [c [rest [Hb He]]]. subst b.
    exists a, (String c rest). split; [reflexivity|]. exact He.
Qed.

Lemma match_JID_here_shape (stop : ascii) (s m : string) :
  Py.match_JID_here stop s = Some m ->
  starts_with_JID m = true /\ ends_with stop m = true.
Proof.
  intros H. destruct (match_JID_here_inv stop s m H) as [c [tail [body [Hl Hm]]]]. subst m.
  destruct (lazy_until_ends stop tail body Hl) as [c' [rest' [Hb He]]]. subst body.
  split; [reflexivity|]. exact He.
Qed.

Lemma re_findall_JID_from_shape (stop : ascii) (s : string) :
  forall skip,
    Forall (fun m => starts_with_JID m = true /\ ends_with stop m = true)
           (Py.re_findall_JID_from skip stop s).
Proof.
  induction s as [|a s IH]; intros skip; [constructor|].
  cbn [Py.re_findall_JID_from]. destruct skip as [|k]; [|apply IH].
  destruct (Py.match_JID_here stop (String a s)) as [m|] eqn:E; [|apply IH].
  constructor; [apply (match_JID_here_shape stop _ _ E) | apply IH].
Qed.

(** X21: every identifier that [get_job_queue] returns is a match of the
    pattern as it stands in the text: it starts with [JID_], has at least
    one more character, and still ends with the single quote that closed it
    (the quote that [clear_job_queue] strips before it deletes the job). *)
Theorem get_job_queue_entries (host : string) (m : Mock) (job_queue : list string) :
  outcome (get_job_queue host m) = Return job_queue ->
  Forall (fun j => starts_with_JID j = true /\ ends_with "'" j = true) job_queue.
Proof.
  destruct m as [[|r g] po pa de]; [discriminate|].
  rewrite get_job_queue_run. destruct (json r) as [doc|]; [|discriminate].
  unfold outcome. cbn [fst]. intros H. inversion H; subst.
  apply re_findall_JID_from_shape.
Qed.

Lemma get_job_queue_entries_witness :
  Forall (fun j => starts_with_JID j = true /\ ends_with "'" j = true)
         ["JID_471269252011'"; "JID_471269252012'"].
Proof.
  apply (get_job_queue_entries "idrac-r620"
           (mkMock [ok (queue_document ["JID_471269252011"; "JID_471269252012"])] [] [] [])).
  reflexivity.
Defined.

(** X22: the reads of the reconciler do not guard the members they look
    up.  When the boot-sources document has no sequence under the key of
    the BIOS mode (a controller in [Uefi] mode that lists only [BootSeq],
    say) [change_boot_order] dies of an uncaught [KeyError] after its two
    reads; the handler around the boot-mode read catches the [ValueError]
    of a body that is not JSON and nothing else. *)
Theorem change_boot_order_missing_sequence (host entry : string) (_host_type : option string)
        (definitions : list (string * string)) (mode : Json)
        (attributes : list (string * Json))
        (r_bios r_sources : Response) (g po pa de : list Response) :
  assoc (interfaces_key host _host_type) definitions = Some entry ->
  json r_bios = Some (bios_document mode) ->
  json r_sources = Some (JObj [("Attributes", JObj attributes)]) ->
  assoc (get_boot_seq mode) attributes = None ->
  change_boot_order host (Yaml definitions) _host_type (mkMock (r_bios :: r_sources :: g) po pa de)
  = (Raise KeyError, mkMock g po pa de,
     [Http (Get (bios_url host)) r_bios; Http (Get (boot_sources_url host)) r_sources]).
Proof.
  intros Hentry Hb Hs Hmissing.
  unfold change_boot_order, load_definitions. unfold bind at 1.
  unfold lookup_definition. fold (interfaces_key host _host_type). rewrite Hentry. cbn [ret].
  unfold bind at 1. rewrite (get_bios_boot_mode_run host mode r_bios _ po pa de Hb).
  unfold bind at 1. unfold get_boot_devices. run_prims. rewrite Hs.
  cbn [assoc]. change (String.eqb "Attributes" "Attributes") with true.
  cbv beta iota. rewrite Hmissing. reflexivity.
Qed.

Lemma change_boot_order_missing_sequence_witness :
  let r_bios := mkResponse 200 (Some (bios_document (JStr "Uefi"))) "{'status_code': 200}" in
  let r_sources := mkResponse 200 (Some (JObj [("Attributes", JObj [("BootSeq", JArr [])])]))
                              "{'status_code': 200}" in
  outcome (change_boot_order "mgmt-f21-h01-000-r620.example.com"
             (Yaml [("director_r620_interfaces", "NIC.Slot.2-1-1")]) (Some "director")
             (mkMock [r_bios; r_sources] [] [no_content] []))
  = Raise KeyError.
Proof.
  cbv zeta.
  rewrite (change_boot_order_missing_sequence
             "mgmt-f21-h01-000-r620.example.com" "NIC.Slot.2-1-1" (Some "director")
             [("director_r620_interfaces", "NIC.Slot.2-1-1")] (JStr "Uefi") [("BootSeq", JArr [])]
             (mkResponse 200 (Some (bios_document (JStr "Uefi"))) "{'status_code': 200}")
             (mkResponse 200 (Some (JObj [("Attributes", JObj [("BootSeq", JArr [])])]))
                         "{'status_code': 200}")
             [] [] [no_content] [] eq_refl eq_refl eq_refl eq_refl).
  reflexivity.
Defined.

(* ================================================================== *)
(** ** The boot sequence: what the program reads and writes of an entry *)
(* ================================================================== *)

Lemma with_indices_keeps (k : string) (entries : list Json) :
  k <> "Index" ->
  forall devices : list BootDevice,
    List.length devices = List.length entries ->
    map (fun e => subscript e k) (with_indices entries devices)
    = map (fun e => subscript e k) entries.
Proof.
  intros Hk. induction entries as [|e entries IH]; intros [|d devices] Hlen; try discriminate.
  - reflexivity.
  - cbn [with_indices map]. rewrite (subscript_set_index e (Index d) k Hk).
    rewrite IH; [reflexivity | cbn in Hlen; lia].
Qed.

(** X23: on a boot sequence whose entries are dictionaries with a string
    [Name] and an integer [Index], whatever else they hold, the two loops
    of [change_boot_order] are [reorder] on the devices the entries show:
    they give back the controller's entries with the indices [reorder]
    gives, every other member of every entry as it was, and they set
    [change] exactly when [reorder] does. *)
Theorem reorder_boot_devices_on_devices (interfaces : list string)
        (entries : list Json) (devices : list BootDevice) :
  Forall2 shows entries devices ->
  let patched := with_indices entries (fst (reorder interfaces devices)) in
  reorder_boot_devices interfaces (JArr entries)
  = Ok (JArr patched, snd (reorder interfaces devices)) /\
  Forall2 shows patched (fst (reorder interfaces devices)) /\
  (forall k, k <> "Index" ->
             map (fun e => subscript e k) patched = map (fun e => subscript e k) entries).
Proof.
  intros HF patched. subst patched.
  pose proof (reorder_boot_devices_shown interfaces entries devices HF) as Heq.
  destruct (reorder_boot_devices_refines shows shows_reads shows_set_index
              interfaces entries devices HF) as [entries' [Heq' HF']].
  rewrite Heq in Heq'. injection Heq' as Heq'. rewrite <- Heq' in HF'.
  split; [exact Heq|]. split; [exact HF'|].
  intros k Hk. apply with_indices_keeps; [exact Hk|].
  unfold reorder.
  rewrite <- (Forall2_length (reorder_from_reassigned interfaces 0 devices false)).
  symmetry. exact (Forall2_length HF).
Qed.

Lemma reorder_boot_devices_on_devices_witness :
  let disk := [("Id", JStr "BIOS.Setup.1-1#BootSeq#Disk"); ("Index", JNum 0);
               ("Name", JStr "HardDisk.List.1-1"); ("Enabled", JBool true)] in
  let nic := [("Id", JStr "BIOS.Setup.1-1#BootSeq#NIC"); ("Index", JNum 1);
              ("Name", JStr "NIC.Slot.2-1-1"); ("Enabled", JBool false)] in
  reorder_boot_devices ["NIC.Slot.2-1-1"; "HardDisk.List.1-1"] (JArr [JObj disk; JObj nic])
  = Ok (JArr [JObj [("Id", JStr "BIOS.Setup.1-1#BootSeq#Disk"); ("Index", JNum 1);
                    ("Name", JStr "HardDisk.List.1-1"); ("Enabled", JBool true)];
              JObj [("Id", JStr "BIOS.Setup.1-1#BootSeq#NIC"); ("Index", JNum 0);
                    ("Name", JStr "NIC.Slot.2-1-1"); ("Enabled", JBool false)]],
        true).
Proof.
  cbv zeta.
  exact (proj1 (reorder_boot_devices_on_devices
                  ["NIC.Slot.2-1-1"; "HardDisk.List.1-1"]
                  [JObj [("Id", JStr "BIOS.Setup.1-1#BootSeq#Disk"); ("Index", JNum 0);
                         ("Name", JStr "HardDisk.List.1-1"); ("Enabled", JBool true)];
                   JObj [("Id", JStr "BIOS.Setup.1-1#BootSeq#NIC"); ("Index", JNum 1);
                         ("Name", JStr "NIC.Slot.2-1-1"); ("Enabled", JBool false)]]
                  [mkDevice "HardDisk.List.1-1" 0; mkDevice "NIC.Slot.2-1-1" 1]
                  ltac:(repeat constructor))).
Defined.

Lemma insert_by_key_perm (x : Json * Json) (l : list (Json * Json)) :
  Permutation (insert_by_key x l) (x :: l).
Proof.
  induction l as [|y ys IH]; [reflexivity|].
  cbn [insert_by_key]. destruct (stays_before (fst x) (fst y)); [reflexivity|].
  rewrite IH. apply perm_swap.
Qed.

Lemma sort_by_key_perm (l : list (Json * Json)) : Permutation (sort_by_key l) l.
Proof.
  induction l as [|x xs IH]; [reflexivity|].
  cbn [sort_by_key]. rewrite insert_by_key_perm. constructor. exact IH.
Qed.

Lemma keys_of_length (entries : list Json) :
  forall keys, keys_of entries = Ok keys -> List.length keys = List.length entries.
Proof.
  induction entries as [|e entries IH]; intros keys H.
  - injection H as <-. reflexivity.
  - cbn [keys_of] in H. destruct (subscript e "Index"); [|discriminate].
    destruct (keys_of entries) as [ks|]; [|discriminate]. injection H as <-.
    cbn [List.length]. rewrite (IH ks eq_refl). reflexivity.
Qed.

Lemma map_snd_combine (keys entries : list Json) :
  List.length keys = List.length entries -> map snd (combine keys entries) = entries.
Proof.
  revert entries. induction keys as [|k keys IH]; intros [|e entries] H; try discriminate.
  - reflexivity.
  - cbn [combine map snd]. rewrite IH; [reflexivity | cbn in H; lia].
Qed.

(** Whatever the entries are, [sorted] gives them all back when it
    gives anything. *)
Lemma sorted_entries_perm (entries sorted : list Json) :
  sorted_entries entries = Ok sorted -> Permutation sorted entries.
Proof.
  unfold sorted_entries. destruct (keys_of entries) as [keys|] eqn:Ek; [|discriminate].
  destruct ((List.length entries <=? 1)%nat || all_comparable keys); [|discriminate].
  intros [= <-]. rewrite sort_by_key_perm.
  rewrite (map_snd_combine keys entries (keys_of_length entries keys Ek)). reflexivity.
Qed.

(** X24: on entries that are dictionaries with a string [Name] and an
    integer [Index], [sorted(..., key=lambda x: x[u"Index"])] never fails
    and is the stable sort by index: it gives the same entries, in the
    order in which [sorted_by_index] puts the devices they show. *)
Theorem sorted_entries_on_devices (entries : list Json) (devices : list BootDevice) :
  Forall2 shows entries devices ->
  exists sorted,
    sorted_entries entries = Ok sorted /\
    Forall2 shows sorted (sorted_by_index devices) /\
    Permutation sorted entries.
Proof.
  intros HF.
  destruct (sorted_entries_refines shows shows_reads entries devices HF) as [sorted [Heq HF']].
  exists sorted. split; [exact Heq|]. split; [exact HF'|].
  apply sorted_entries_perm. exact Heq.
Qed.

Lemma sorted_entries_on_devices_witness :
  exists sorted,
    sorted_entries [JObj [("Index", JNum 1); ("Name", JStr "NIC.Slot.2-1-1"); ("Enabled", JBool true)];
                    JObj [("Name", JStr "HardDisk.List.1-1"); ("Index", JNum 0)]]
    = Ok sorted /\
    Forall2 shows sorted [mkDevice "HardDisk.List.1-1" 0; mkDevice "NIC.Slot.2-1-1" 1].
Proof.
  destruct (sorted_entries_on_devices
              [JObj [("Index", JNum 1); ("Name", JStr "NIC.Slot.2-1-1"); ("Enabled", JBool true)];
               JObj [("Name", JStr "HardDisk.List.1-1"); ("Index", JNum 0)]]
              [mkDevice "NIC.Slot.2-1-1" 1; mkDevice "HardDisk.List.1-1" 0]
              ltac:(repeat constructor)) as [sorted [Heq [HF _]]].
  exists sorted. split; [exact Heq | exact HF].
Defined.

Lemma keys_of_first_error (good : list Json) (bad : Json) (rest : list Json) (e : Exn) :
  Forall (fun x => exists v, subscript x "Index" = Ok v) good ->
  subscript bad "Index" = Err e ->
  keys_of (good ++ bad :: rest) = Err e.
Proof.
  intros Hgood Hbad. induction Hgood as [|x good [v Hv] _ IH].
  - cbn [app keys_of]. rewrite Hbad. reflexivity.
  - cbn [app keys_of]. rewrite Hv, IH. reflexivity.
Qed.

(** X25: without an interfaces path, [check_boot] logs its heading and
    then sorts.  When an entry of the boot sequence is not a dictionary
    ([TypeError]) or has no [Index] ([KeyError]), the key function raises
    at the first such entry: the run dies of that exception after the two
    reads and the heading, and lists no device. *)
Theorem check_boot_entry_without_index (host : string) (_interfaces_path : option string)
        (file : File) (mode : Json) (good : list Json) (bad : Json) (rest : list Json)
        (e : Exn) (r_bios r_sources : Response) (g po pa de : list Response) :
  truthy _interfaces_path = false ->
  json r_bios = Some (bios_document mode) ->
  json r_sources
  = Some (JObj [("Attributes", JObj [(get_boot_seq mode, JArr (good ++ bad :: rest))])]) ->
  Forall (fun x => exists v, subscript x "Index" = Ok v) good ->
  subscript bad "Index" = Err e ->
  check_boot host _interfaces_path file (mkMock (r_bios :: r_sources :: g) po pa de)
  = (Raise e, mkMock g po pa de,
     [Http (Get (bios_url host)) r_bios;
      Http (Get (boot_sources_url host)) r_sources;
      Log INFO "Current boot order:"]).
Proof.
  intros Hpath Hb Hs Hgood Hbad.
  unfold check_boot. unfold bind at 1.
  rewrite (get_bios_boot_mode_run host mode r_bios _ po pa de Hb).
  unfold bind at 1.
  rewrite (get_boot_devices_reads host (get_boot_seq mode) _
             (JObj [(get_boot_seq mode, JArr (good ++ bad :: rest))])
             (JArr (good ++ bad :: rest)) r_sources g po pa de Hs eq_refl);
    [|cbn [subscript assoc]; rewrite String.eqb_refl; reflexivity].
  assert (Hlist : (log INFO "Current boot order:" ;;
                   log_boot_order (JArr (good ++ bad :: rest)) ;;
                   ret (@None Z)) (mkMock g po pa de)
                  = (Raise e, mkMock g po pa de, [Log INFO "Current boot order:"])).
  { unfold bind at 1. cbn [log]. unfold bind at 1. unfold log_boot_order.
    cbn [iterate lift]. rewrite bind_ret. unfold sorted_entries.
    rewrite (keys_of_first_error good bad rest e Hgood Hbad). reflexivity. }
  destruct _interfaces_path as [[|c path]|]; [|discriminate|]; rewrite Hlist; reflexivity.
Qed.

Lemma check_boot_entry_without_index_witness :
  let entries := [JObj [("Index", JNum 0); ("Name", JStr "HardDisk.List.1-1")];
                  JObj [("Name", JStr "NIC.Slot.2-1-1")]] in
  let r_bios := ok (bios_document (JStr "Bios")) in
  let r_sources := ok (JObj [("Attributes", JObj [("BootSeq", JArr entries)])]) in
  let run := check_boot "mgmt-f21-h01-000-r620.example.com" None NoSuchFile
                        (mkMock [r_bios; r_sources] [] [] []) in
  outcome run = Raise KeyError /\ logs_of (events run) = [(INFO, "Current boot order:")].
Proof.
  cbv zeta.
  rewrite (check_boot_entry_without_index "mgmt-f21-h01-000-r620.example.com" None NoSuchFile
             (JStr "Bios")
             [JObj [("Index", JNum 0); ("Name", JStr "HardDisk.List.1-1")]]
             (JObj [("Name", JStr "NIC.Slot.2-1-1")]) [] KeyError
             (ok (bios_document (JStr "Bios")))
             (ok (JObj [("Attributes",
                         JObj [("BootSeq",
                                JArr [JObj [("Index", JNum 0); ("Name", JStr "HardDisk.List.1-1")];
                                      JObj [("Name", JStr "NIC.Slot.2-1-1")]])])]))
             [] [] [] [] eq_refl eq_refl eq_refl
             ltac:(repeat constructor; exists (JNum 0); reflexivity) eq_refl).
  split; reflexivity.
Defined.
